(** * Rolling-window feature extraction and ARIMA plotting glue

    A shallow embedding of the two functions of [part2_modeling.ipynb],
    [extract_time_series_features] and [build_arima_model], together with
    the parts of pandas, numpy, os and matplotlib whose behaviour the two
    functions rely on.

    Conventions of the embedding:
    - a float64 is a [spec_float] of the Standard Library at binary64
      precision; NaN is [S754_nan], [==] is [SFeqb], [-] is [SFsub 53 1024];
    - a Python call that can raise returns a [result]; [Raise] carries the
      exception class;
    - a [DatetimeIndex] holds nanoseconds since the epoch, as pandas does,
      and a Timedelta or a Timestamp is bounded by the int64 that holds
      it;
    - numeric kernels that pandas and statsmodels implement in compiled
      code (mean, std, quantiles, skew, kurt, acf, ARIMA estimation), and
      the checks matplotlib and pandas make on the data of a drawing
      call, are variables of the sections that use them. *)

From Stdlib Require Import ZArith List Bool Lia Ascii String SpecFloat PrimFloat FloatOps.
From stdpp Require Import base option list strings gmap.

Set Default Proof Using "Type".
Local Open Scope Z_scope.

(** ** Python exceptions *)

(** [OutOfBoundsTimedelta] and [OutOfBoundsDatetime] are the two
    subclasses of [ValueError] that pandas raises for a span or an instant
    that does not fit its 64-bit nanosecond count. *)
Inductive exn : Type :=
| ValueError
| OutOfBoundsTimedelta
| OutOfBoundsDatetime
| TypeError
| KeyError
| IndexError
| FileExistsError
| FileNotFoundError
| OSError
| LibraryError (code : nat).

Inductive result (A : Type) : Type :=
| Ok (a : A)
| Raise (e : exn).
Arguments Ok {A} a.
Arguments Raise {A} e.

#[global] Instance result_ret : MRet result := fun A a => Ok a.
#[global] Instance result_bind : MBind result := fun A B f m =>
  match m with
  | Ok a => f a
  | Raise e => Raise e
  end.
#[global] Instance result_fmap : FMap result := fun A B f m =>
  match m with
  | Ok a => Ok (f a)
  | Raise e => Raise e
  end.

(** [try: body except: handler], with a bare [except]. *)
Definition try_except {A} (body : result A) (handler : A) : result A :=
  match body with
  | Ok a => Ok a
  | Raise _ => Ok handler
  end.

(** ** float64 *)

Definition float64 : Type := spec_float.

Definition nan : float64 := S754_nan.

Definition isnan (x : float64) : bool :=
  match x with
  | S754_nan => true
  | _ => false
  end.

Definition isinf (x : float64) : bool :=
  match x with
  | S754_infinity _ => true
  | _ => false
  end.

(** [np.isfinite] *)
Definition isfinite (x : float64) : bool := negb (isnan x) && negb (isinf x).

(** IEEE [==] and [-] on binary64. *)
Definition float_eq (x y : float64) : bool := SFeqb x y.
Definition float_sub (x y : float64) : float64 := SFsub 53 1024 x y.

(** The literals [0.25] and [0.75]. *)
Definition f0_25 : float64 := Eval vm_compute in Prim2SF 0.25%float.
Definition f0_75 : float64 := Eval vm_compute in Prim2SF 0.75%float.

(** ** pandas containers *)

(** A [DatetimeIndex] carries its stamps and its [freq] attribute (a fixed
    step in nanoseconds when set); every other index kind met here is a
    numeric one. *)
Inductive Index : Type :=
| DatetimeIndex (stamps : list Z) (freq : option Z)
| NumericIndex (labels : list Z).

Definition index_values (idx : Index) : list Z :=
  match idx with
  | DatetimeIndex stamps _ => stamps
  | NumericIndex labels => labels
  end.

Definition index_len (idx : Index) : nat := length (index_values idx).

(** A column is numeric (bool, int or float dtype, held as float64 the way
    the rolling code coerces it) or not (object, string, category,
    datetime dtype). *)
Inductive Column : Type :=
| NumericColumn (values : list float64)
| ObjectColumn (values : list (option string)).

Definition column_len (c : Column) : nat :=
  match c with
  | NumericColumn v => length v
  | ObjectColumn v => length v
  end.

Record DataFrame : Type := mkDataFrame {
  index : Index;
  columns : list (string * Column)
}.

Definition column_labels (data : DataFrame) : list string :=
  map fst (columns data).

(** The frame invariant of pandas: every column is as long as the index. *)
Definition well_formed (data : DataFrame) : Prop :=
  Forall (fun lc => column_len (snd lc) = index_len (index data)) (columns data).

(** [data[column]] : a Series when the label is unique, a sub-frame
    when it is repeated, [KeyError] when it is absent. *)
Inductive Selection : Type :=
| SelSeries (c : Column)
| SelFrame (cs : list Column).

Definition getitem (data : DataFrame) (column : string) : result Selection :=
  match List.filter (fun lc => String.eqb (fst lc) column) (columns data) with
  | [] => Raise KeyError
  | [lc] => Ok (SelSeries (snd lc))
  | lcs => Ok (SelFrame (map snd lcs))
  end.

(** [pd.api.types.is_numeric_dtype] : a frame has no dtype and is not
    numeric. *)
Definition is_numeric_dtype (s : Selection) : bool :=
  match s with
  | SelSeries (NumericColumn _) => true
  | _ => false
  end.

(** A Python dict with string keys: insertion ordered; assigning to a
    key already present replaces the value where the key stands. *)
Definition dict (V : Type) : Type := list (string * V).

Fixpoint dict_set {V} (d : dict V) (k : string) (v : V) : dict V :=
  match d with
  | [] => [(k, v)]
  | (k', v') :: rest =>
      if String.eqb k' k then (k', v) :: rest else (k', v') :: dict_set rest k v
  end.

Definition dict_keys {V} (d : dict V) : list string := map fst d.

(** ** Time-based rolling windows *)

Fixpoint is_monotonic_increasing (l : list Z) : bool :=
  match l with
  | x :: tl =>
      match tl with
      | y :: _ => (x <=? y) && is_monotonic_increasing tl
      | [] => true
      end
  | [] => true
  end.

Fixpoint is_monotonic_decreasing (l : list Z) : bool :=
  match l with
  | x :: tl =>
      match tl with
      | y :: _ => (y <=? x) && is_monotonic_decreasing tl
      | [] => true
      end
  | [] => true
  end.

(** The largest int64: a Timedelta and a Timestamp count nanoseconds in
    an int64. *)
Definition int64_max : Z := 9223372036854775807.

(** [f'{window_size}s'] in nanoseconds. The product is taken in the
    integers; [rolling] below refuses the sizes whose product does not fit
    a Timedelta. *)
Definition window_ns (window_size : positive) : Z :=
  Z.pos window_size * 1000000000.

(** -1 for an index that runs backwards in time, 1 otherwise. *)
Definition index_growth_sign (stamps : list Z) : Z :=
  match stamps with
  | [] => 1
  | t0 :: _ => if List.last stamps t0 <? t0 then -1 else 1
  end.

(** The rows of the window that ends at row [i], for the default
    [closed='right']: the rows at or before [i] whose stamp lies strictly
    past [stamps[i] - window] (in the direction the index grows). pandas
    finds the first such row by a scan that starts at the previous start;
    on a monotonic index, the only kind [rolling] accepts, the rows from
    there to [i] are the ones kept here. The differences are taken in the
    integers, as they come out in int64 as long as the stamps of the index
    lie less than [2^63] nanoseconds (about 292 years) apart. *)
Definition window_positions (stamps : list Z) (w : Z) (i : nat) : list nat :=
  let sign := index_growth_sign stamps in
  let start_bound := nth i stamps 0 - sign * w in
  List.filter (fun j => 0 <? (nth j stamps 0 - start_bound) * sign) (seq 0 (S i)).

(** [_prep_values]: the compiled kernels see infinities as NaN. *)
Definition prep_values (values : list float64) : list float64 :=
  map (fun v => if isinf v then nan else v) values.

(** A [Rolling] object, as the list of the windows' samples, one window
    per row. *)
Definition Rolling : Type := list (list float64).

Definition windows (stamps : list Z) (window_size : positive)
    (values : list float64) : Rolling :=
  map (fun i => map (fun j => nth j (prep_values values) nan)
                    (window_positions stamps (window_ns window_size) i))
      (seq 0 (length stamps)).

(** [signal.rolling(f'{window_size}s')], in the order in which pandas
    validates: a time offset needs a datetime-like index (a Series
    without rows passes on any index), the index must be monotonic, and
    the offset must fit a Timedelta: from 9223372037 seconds on the call
    raises. *)
Definition rolling (signal : Selection) (idx : Index) (window_size : positive)
  : result Rolling :=
  match signal with
  | SelSeries (NumericColumn values) =>
      match idx, values with
      | NumericIndex _, _ :: _ => Raise ValueError
      | _, _ =>
          let stamps := index_values idx in
          if is_monotonic_increasing stamps || is_monotonic_decreasing stamps
          then
            if window_ns window_size <=? int64_max
            then Ok (windows stamps window_size values)
            else Raise OutOfBoundsTimedelta
          else Raise ValueError
      end
  | _ => Raise TypeError
  end.

(** Number of observations of a window that count towards [min_periods]. *)
Definition nobs (x : list float64) : nat :=
  length (List.filter isfinite x).

(** [Rolling.apply(func)] with [raw=False]; [min_periods] is 1 for a time
    offset: [func] runs on the windows that hold an observation, the
    others give NaN. An exception of [func] leaves [apply]. *)
Definition Rolling_apply (func : list float64 -> result float64) (r : Rolling)
  : result (list float64) :=
  mapM (fun x => if (1 <=? nobs x)%nat then func x else Ok nan) r.

(** [x[0]] and [a[i]] by position. *)
Definition item {A} (x : list A) (i : nat) : result A :=
  match nth_error x i with
  | Some v => Ok v
  | None => Raise IndexError
  end.

(** ** [DataFrame(features, index=...)] and [dropna] *)

(** The Series of the dict all carry the index they are laid on, so the
    frame takes them as they are, in the dict's order. *)
Definition DataFrame_of_dict (features : dict (list float64)) (idx : Index)
  : DataFrame :=
  {| index := idx;
     columns := map (fun kv => (fst kv, NumericColumn (snd kv))) features |}.

Definition notna (c : Column) (i : nat) : bool :=
  match c with
  | NumericColumn v =>
      match nth_error v i with
      | Some x => negb (isnan x)
      | None => false
      end
  | ObjectColumn v =>
      match nth_error v i with
      | Some (Some _) => true
      | _ => false
      end
  end.

(** [notna(df).all(axis=1)] at row [i]. *)
Definition row_complete (df : DataFrame) (i : nat) : bool :=
  forallb (fun lc => notna (snd lc) i) (columns df).

Definition take_mask {A} (mask : list bool) (l : list A) : list A :=
  map snd (List.filter fst (combine mask l)).

Definition Column_take (mask : list bool) (c : Column) : Column :=
  match c with
  | NumericColumn v => NumericColumn (take_mask mask v)
  | ObjectColumn v => ObjectColumn (take_mask mask v)
  end.

Fixpoint skip_while {A} (f : A -> bool) (l : list A) : list A :=
  match l with
  | [] => []
  | a :: rest => if f a then skip_while f rest else l
  end.

(** The rows a mask keeps are consecutive (no row at all counts). *)
Definition is_slice (mask : list bool) : bool :=
  forallb negb (skip_while id (skip_while negb mask)).

(** Selecting rows of a DatetimeIndex keeps its [freq] when the rows are
    consecutive, and drops it otherwise. *)
Definition Index_take (mask : list bool) (idx : Index) : Index :=
  match idx with
  | DatetimeIndex stamps freq =>
      DatetimeIndex (take_mask mask stamps) (if is_slice mask then freq else None)
  | NumericIndex labels => NumericIndex (take_mask mask labels)
  end.

(** [df.dropna()]: [how='any'] over the rows; a frame with nothing to
    drop is copied. *)
Definition dropna (df : DataFrame) : DataFrame :=
  let mask := map (row_complete df) (seq 0 (index_len (index df))) in
  if forallb id mask then df
  else {| index := Index_take mask (index df);
          columns := map (fun lc => (fst lc, Column_take mask (snd lc))) (columns df) |}.

(** ** Feature extraction *)

(** The statistic suffixes, in the order the source stores them. *)
Definition statistics : list string :=
  ["mean"; "std"; "min"; "max"; "range"; "median";
   "q25"; "q75"; "iqr"; "skew"; "kurt"; "autocorr"]%string.

(** [f'{column}_{stat}'] *)
Definition feature_name (column stat : string) : string :=
  (column ++ "_" ++ stat)%string.

(** The compiled kernels of pandas and the [acf] of statsmodels. pandas
    updates running sums from one window to the next; a kernel is read
    here as a function of the samples of one window (after
    [prep_values]), which is what it estimates. The kernels skip NaN
    samples and give NaN below their minimum number of observations. *)
Record Kernels : Type := mkKernels {
  roll_mean : list float64 -> float64;
  roll_std : list float64 -> float64;
  roll_min : list float64 -> float64;
  roll_max : list float64 -> float64;
  roll_median : list float64 -> float64;
  (** [quantile(q)], the level first *)
  roll_quantile : float64 -> list float64 -> float64;
  (** [pd.Series(x).skew()] and [pd.Series(x).kurt()] *)
  Series_skew : list float64 -> float64;
  Series_kurt : list float64 -> float64;
  (** [statsmodels.tsa.stattools.acf(x, nlags=.., fft=..)] *)
  acf : list float64 -> nat -> bool -> result (list float64)
}.

Section FeatureExtraction.

Variable K : Kernels.

(** Element-wise [a - b] of two Series on the same index. *)
Definition Series_sub (a b : list float64) : list float64 :=
  map (fun ab => float_sub (fst ab) (snd ab)) (combine a b).

(** [np.all(x == v)] *)
Definition all_eq (x : list float64) (v : float64) : bool :=
  forallb (fun xi => float_eq xi v) x.

(** [x] is the window as a Series; [x[0]] is read by position, as
    pandas 2 reads an integer key on a time index. *)
Definition compute_autocorr (x : list float64) : result float64 :=
  c ← (if (length x <? 2)%nat then Ok true
       else x0 ← item x 0; Ok (all_eq x x0));
  if c : bool then Ok nan
  else
    try_except
      (acf_result ← acf K x 1%nat false;
       item acf_result 1)
      nan.

(** The body of the loop for one column label. *)
Definition process_column (data : DataFrame) (window_size : positive)
    (features : dict (list float64)) (column : string)
  : result (dict (list float64)) :=
  signal ← getitem data column;
  if negb (is_numeric_dtype signal) then Ok features
  else
    let rolling_ := rolling signal (index data) window_size in
    rolling_mean ← map (roll_mean K) <$> rolling_;
    rolling_std ← map (roll_std K) <$> rolling_;
    rolling_min ← map (roll_min K) <$> rolling_;
    rolling_max ← map (roll_max K) <$> rolling_;
    let rolling_range := Series_sub rolling_max rolling_min in
    rolling_median ← map (roll_median K) <$> rolling_;
    rolling_q25 ← map (roll_quantile K f0_25) <$> rolling_;
    rolling_q75 ← map (roll_quantile K f0_75) <$> rolling_;
    let rolling_iqr := Series_sub rolling_q75 rolling_q25 in
    rolling_skew ← rolling_ ≫= Rolling_apply (fun x => Ok (Series_skew K x));
    rolling_kurt ← rolling_ ≫= Rolling_apply (fun x => Ok (Series_kurt K x));
    rolling_autocorr ← rolling_ ≫= Rolling_apply compute_autocorr;
    let features := dict_set features (feature_name column "mean") rolling_mean in
    let features := dict_set features (feature_name column "std") rolling_std in
    let features := dict_set features (feature_name column "min") rolling_min in
    let features := dict_set features (feature_name column "max") rolling_max in
    let features := dict_set features (feature_name column "range") rolling_range in
    let features := dict_set features (feature_name column "median") rolling_median in
    let features := dict_set features (feature_name column "q25") rolling_q25 in
    let features := dict_set features (feature_name column "q75") rolling_q75 in
    let features := dict_set features (feature_name column "iqr") rolling_iqr in
    let features := dict_set features (feature_name column "skew") rolling_skew in
    let features := dict_set features (feature_name column "kurt") rolling_kurt in
    let features := dict_set features (feature_name column "autocorr") rolling_autocorr in
    Ok features.

(** [for column in data.columns: ...] *)
Fixpoint process_columns (data : DataFrame) (window_size : positive)
    (labels : list string) (features : dict (list float64))
  : result (dict (list float64)) :=
  match labels with
  | [] => Ok features
  | column :: rest =>
      features' ← process_column data window_size features column;
      process_columns data window_size rest features'
  end.

(** The frame before trimming: [pd.DataFrame(features, index=data.index)]. *)
Definition features_frame (data : DataFrame) (window_size : positive)
  : result DataFrame :=
  features ← process_columns data window_size (column_labels data) [];
  Ok (DataFrame_of_dict features (index data)).

Definition extract_time_series_features (data : DataFrame) (window_size : positive)
  : result DataFrame :=
  features_df ← features_frame data window_size;
  Ok (dropna features_df).

End FeatureExtraction.

(** ** Reference kernels

    Textbook two-pass kernels at binary64, used to run the embedding on
    concrete tables. They skip NaN samples the way the pandas kernels do
    and follow the estimators pandas documents; no theorem below depends
    on them: the theorems hold for any kernels. *)
Module Reference.

Definition of_Z (z : Z) : float64 := binary_normalize 53 1024 z 0 false.
Definition of_nat (n : nat) : float64 := of_Z (Z.of_nat n).
Definition fadd : float64 -> float64 -> float64 := SFadd 53 1024.
Definition fmul : float64 -> float64 -> float64 := SFmul 53 1024.
Definition fdiv : float64 -> float64 -> float64 := SFdiv 53 1024.
Definition fsqrt : float64 -> float64 := SFsqrt 53 1024.

Definition observed (x : list float64) : list float64 :=
  List.filter (fun v => negb (isnan v)) x.

Definition fsum (l : list float64) : float64 := fold_left fadd l (of_Z 0).

Definition mean_of (l : list float64) : float64 :=
  fdiv (fsum l) (of_nat (length l)).

(** Sum of the [k]-th powers of the deviations from the mean. *)
Definition dev_pow_sum (k : nat) (l : list float64) : float64 :=
  let m := mean_of l in
  fsum (map (fun v => Nat.iter k (fmul (float_sub v m)) (of_Z 1)) l).

Definition guarded (minimum : nat) (f : list float64 -> float64)
    (x : list float64) : float64 :=
  let o := observed x in
  if (length o <? minimum)%nat then nan else f o.

Definition roll_mean : list float64 -> float64 := guarded 1 mean_of.

Definition roll_std : list float64 -> float64 :=
  guarded 2 (fun o =>
    fsqrt (fdiv (dev_pow_sum 2 o) (of_nat (length o - 1)))).

Definition fmin (a b : float64) : float64 := if SFltb b a then b else a.
Definition fmax (a b : float64) : float64 := if SFltb a b then b else a.

Definition roll_min : list float64 -> float64 :=
  guarded 1 (fun o => fold_left fmin o (hd nan o)).
Definition roll_max : list float64 -> float64 :=
  guarded 1 (fun o => fold_left fmax o (hd nan o)).

Fixpoint insert_sorted (v : float64) (l : list float64) : list float64 :=
  match l with
  | [] => [v]
  | h :: t => if SFleb v h then v :: l else h :: insert_sorted v t
  end.

Definition sorted (l : list float64) : list float64 :=
  fold_right insert_sorted [] l.

(** Linear interpolation between the order statistics around
    [q * (n - 1)]. *)
Definition roll_quantile (q : float64) : list float64 -> float64 :=
  guarded 1 (fun o =>
    let s := sorted o in
    let h := fmul q (of_nat (length o - 1)) in
    let k := length (List.filter (fun j => SFleb (of_nat j) h) (seq 1 (length o - 1))) in
    let lo := nth k s nan in
    let hi := nth (S k) s lo in
    fadd lo (fmul (float_sub h (of_nat k)) (float_sub hi lo))).

Definition roll_median : list float64 -> float64 :=
  roll_quantile (fdiv (of_Z 1) (of_Z 2)).

Definition Series_skew : list float64 -> float64 :=
  guarded 3 (fun o =>
    let n := of_nat (length o) in
    let m2 := fdiv (dev_pow_sum 2 o) n in
    let m3 := fdiv (dev_pow_sum 3 o) n in
    if float_eq m2 (of_Z 0) then of_Z 0
    else fmul (fdiv (fsqrt (fmul n (of_nat (length o - 1)))) (of_nat (length o - 2)))
              (fdiv m3 (fmul m2 (fsqrt m2)))).

Definition Series_kurt : list float64 -> float64 :=
  guarded 4 (fun o =>
    let c := length o in
    let m2 := dev_pow_sum 2 o in
    let m4 := dev_pow_sum 4 o in
    let adj := fdiv (fmul (of_Z 3) (fmul (of_nat (c - 1)) (of_nat (c - 1))))
                    (fmul (of_nat (c - 2)) (of_nat (c - 3))) in
    let numerator := fmul (fmul (fmul (of_nat c) (of_nat (c + 1))) (of_nat (c - 1))) m4 in
    let denominator := fmul (fmul (of_nat (c - 2)) (of_nat (c - 3))) (fmul m2 m2) in
    if float_eq denominator (of_Z 0) then of_Z 0
    else float_sub (fdiv numerator denominator) adj).

(** The direct (non-FFT) autocorrelation estimate, lags 0 to [nlags]. *)
Definition acf (x : list float64) (nlags : nat) (fft : bool)
  : result (list float64) :=
  let m := mean_of x in
  let xo := map (fun v => float_sub v m) x in
  let avf := map (fun k =>
               fdiv (fsum (map (fun ab => fmul (fst ab) (snd ab))
                               (combine xo (skipn k xo))))
                    (of_nat (length x)))
             (seq 0 (length x)) in
  Ok (map (fun a => fdiv a (hd nan avf)) (firstn (S nlags) avf)).

Definition kernels : Kernels :=
  mkKernels roll_mean roll_std roll_min roll_max roll_median roll_quantile
    Series_skew Series_kurt acf.

Definition compute_autocorr : list float64 -> result float64 :=
  compute_autocorr kernels.

End Reference.

(** Sample tables: stamps in seconds, values as integers. *)
Definition seconds (l : list Z) : list Z := map (fun s => s * 1000000000) l.
Definition floats (l : list Z) : list float64 := map Reference.of_Z l.

Definition sample_hr : DataFrame :=
  {| index := DatetimeIndex (seconds [0; 1; 2; 3; 4; 5]) None;
     columns := [("hr"%string, NumericColumn (floats [60; 62; 61; 65; 64; 70]));
                 ("subject"%string, ObjectColumn (replicate 6 (Some "S1"%string)))] |}.


(** ** The file system and pyplot *)

Record Series : Type := mkSeries {
  s_index : Index;
  s_values : list float64
}.

(** What the pyplot calls of the source draw; the position is the
    subplot of [plt.subplots(2, 2)], [None] for the current axes. *)
Inductive Caption : Type :=
| FitCaption (order : nat * nat * nat)
| ForecastCaption (order : nat * nat * nat)
| Text (s : string).

Inductive Drawing : Type :=
| Line (x : Index) (y : list float64) (color : option string) (label : option string)
| FillBetween (x : Index) (y1 y2 : list float64) (color label : string)
| Hist (y : list float64) (density : bool)
| Correlogram (partial : bool) (y : list float64)
| SetTitle (c : Caption)
| Legend
| TightLayout.

Definition Figure : Type := list (option (nat * nat) * Drawing).

(** Directories, files (an image file holds the figure it renders) and
    the open pyplot figures, the current one first. Paths are compared as
    strings. *)
Record World : Type := mkWorld {
  dirs : gset string;
  files : gmap string Figure;
  figures : list Figure
}.

(** An effectful call: the world is threaded through, and an exception
    keeps the effects that came before it. *)
Definition IO (A : Type) : Type := World -> result A * World.

#[global] Instance IO_ret : MRet IO := fun A a w => (Ok a, w).
#[global] Instance IO_bind : MBind IO := fun A B f m w =>
  match m w with
  | (Ok a, w') => f a w'
  | (Raise e, w') => (Raise e, w')
  end.

Definition lift {A} (r : result A) : IO A := fun w => (r, w).

Definition slash : Ascii.ascii := "/"%char.

Fixpoint has_char (c : Ascii.ascii) (s : string) : bool :=
  match s with
  | EmptyString => false
  | String a rest => Ascii.eqb a c || has_char c rest
  end.

(** [os.path.dirname]: what stands before the last slash. *)
Fixpoint dirname (path : string) : string :=
  match path with
  | EmptyString => EmptyString
  | String a rest =>
      if has_char slash rest then String a (dirname rest) else EmptyString
  end.

(** The proper ancestors of a path, nearest first. *)
Fixpoint ancestors_fuel (fuel : nat) (path : string) : list string :=
  match fuel with
  | O => []
  | S fuel' =>
      let head := dirname path in
      if String.eqb head "" then [] else head :: ancestors_fuel fuel' head
  end.

Definition ancestors (path : string) : list string :=
  ancestors_fuel (String.length path) path.

(** [os.makedirs(name, exist_ok=True)] *)
Definition os_makedirs (name : string) : IO unit := fun w =>
  if String.eqb name "" then (Raise FileNotFoundError, w)
  else if bool_decide (name ∈ dirs w) then (Ok (), w)
  else if bool_decide (is_Some (files w !! name)) then (Raise FileExistsError, w)
  else if existsb (fun a => bool_decide (is_Some (files w !! a))) (ancestors name)
  then (Raise OSError, w)
  else (Ok (), mkWorld (dirs w ∪ list_to_set (name :: ancestors name))
                       (files w) (figures w)).

(** [plt.figure()] and [plt.subplots(2, 2)] open a figure and make it
    current. *)
Definition plt_figure : IO unit := fun w =>
  (Ok (), mkWorld (dirs w) (files w) ([] :: figures w)).

(** A drawing call (of pyplot, of an axes, or [Series.plot] of pandas)
    can raise on the data it is given: [accepts] is the verdict of the
    plotting libraries. A call that goes through lands on the current
    figure; pyplot opens one when none is open. *)
Definition draw (accepts : Drawing -> result unit) (ax : option (nat * nat))
    (d : Drawing) : IO unit := fun w =>
  match accepts d with
  | Raise e => (Raise e, w)
  | Ok _ =>
      match figures w with
      | fig :: others =>
          (Ok (), mkWorld (dirs w) (files w) ((fig ++ [(ax, d)]) :: others))
      | [] => (Ok (), mkWorld (dirs w) (files w) [[(ax, d)]])
      end
  end.

(** [plt.plot(x, y, ...)]: x and y must have the same length. *)
Definition plt_plot (accepts : Drawing -> result unit) (x : Index)
    (y : list float64) (color label : option string) : IO unit :=
  if (index_len x =? length y)%nat then draw accepts None (Line x y color label)
  else lift (Raise ValueError).

(** [plt.fill_between(x, y1, y2, ...)]: the two bounds must be as long as
    x. *)
Definition plt_fill_between (accepts : Drawing -> result unit) (x : Index)
    (y1 y2 : list float64) (color label : string) : IO unit :=
  if (index_len x =? length y1)%nat && (index_len x =? length y2)%nat
  then draw accepts None (FillBetween x y1 y2 color label)
  else lift (Raise ValueError).

(** [plt.savefig(fname)]: writes the current figure, replacing a file
    that is there; the directory of [fname] must exist. *)
Definition plt_savefig (fname : string) : IO unit := fun w =>
  if bool_decide (fname ∈ dirs w) then (Raise OSError, w)
  else if String.eqb (dirname fname) "" || bool_decide (dirname fname ∈ dirs w)
  then (Ok (), mkWorld (dirs w) (<[fname := hd [] (figures w)]> (files w))
                       (match figures w with [] => [[]] | _ => figures w end))
  else (Raise FileNotFoundError, w).

(** [plt.close()] closes the current figure. *)
Definition plt_close : IO unit := fun w =>
  (Ok (), mkWorld (dirs w) (files w) (tl (figures w))).

(** ** Model fitting *)

(** The libraries behind [build_arima_model]. statsmodels: estimation,
    forecasting and the two correlogram plots, each of which can raise;
    [conf_int] is called with its default [alpha=0.05] and returns the
    lower and the upper bound. matplotlib and the plotting of pandas:
    [plotting] tells whether a drawing call goes through on its data or
    raises. *)
Record Statsmodels : Type := mkStatsmodels {
  ARIMAResults : Type;
  ARIMA_fit : Series -> nat * nat * nat -> result ARIMAResults;
  fittedvalues : ARIMAResults -> Series;
  resid : ARIMAResults -> Series;
  PredictionResults : Type;
  get_forecast : ARIMAResults -> nat -> result PredictionResults;
  predicted_mean : PredictionResults -> list float64;
  conf_int : PredictionResults -> list float64 * list float64;
  plot_acf : Series -> result Drawing;
  plot_pacf : Series -> result Drawing;
  plotting : Drawing -> result unit
}.

Definition day_ns : Z := 86400 * 1000000000.

(** A Timestamp lies between [Timestamp.min] and [Timestamp.max]. *)
Definition is_timestamp (t : Z) : bool := (- int64_max <=? t) && (t <=? int64_max).

(** [pd.date_range(start=.., periods=.., freq=..)]: with no [freq] the
    step is one day; a range that leaves the Timestamps raises. *)
Definition date_range (start : Z) (periods : nat) (freq : option Z)
  : result (list Z) :=
  let step := default day_ns freq in
  let stamps := map (fun k => start + Z.of_nat k * step) (seq 0 periods) in
  if forallb is_timestamp stamps then Ok stamps else Raise OutOfBoundsDatetime.

(** [np.arange(start, stop)] *)
Definition arange (start stop : nat) : list Z :=
  map Z.of_nat (seq start (stop - start)).

Definition forecast_steps : nat := 10.

(** The x values of the forecast. *)
Definition forecast_index (series : Series) : result Index :=
  match s_index series with
  | DatetimeIndex stamps freq =>
      last_stamp ← item stamps (length stamps - 1);
      range ← date_range last_stamp (forecast_steps + 1) freq;
      Ok (DatetimeIndex (tl range) (Some (default day_ns freq)))
  | NumericIndex _ =>
      Ok (NumericIndex (arange (length (s_values series))
                               (length (s_values series) + forecast_steps)))
  end.

Section ModelFitting.

Variable L : Statsmodels.

Definition build_arima_model (series : Series) (order : nat * nat * nat)
    (output_dir : string) : IO (ARIMAResults L) :=
  os_makedirs output_dir;;
  model_fit ← lift (ARIMA_fit L series order);
  (* model fit plot *)
  plt_figure;;
  plt_plot (plotting L) (s_index series) (s_values series)
           None (Some "Original Data"%string);;
  plt_plot (plotting L) (s_index (fittedvalues L model_fit))
           (s_values (fittedvalues L model_fit))
           (Some "red"%string) (Some "Fitted Values"%string);;
  draw (plotting L) None (SetTitle (FitCaption order));;
  draw (plotting L) None Legend;;
  draw (plotting L) None TightLayout;;
  plt_savefig (output_dir ++ "/model_fit.png");;
  plt_close;;
  (* residual diagnostics *)
  let residuals := resid L model_fit in
  plt_figure;;
  draw (plotting L) (Some (0, 0)%nat)
       (Line (s_index residuals) (s_values residuals) None None);;
  draw (plotting L) (Some (0, 0)%nat) (SetTitle (Text "Residuals"));;
  draw (plotting L) (Some (0, 1)%nat) (Hist (s_values residuals) true);;
  draw (plotting L) (Some (0, 1)%nat) (SetTitle (Text "Residuals Distribution"));;
  acf_bars ← lift (plot_acf L residuals);
  draw (plotting L) (Some (1, 0)%nat) acf_bars;;
  draw (plotting L) (Some (1, 0)%nat) (SetTitle (Text "Residuals ACF"));;
  pacf_bars ← lift (plot_pacf L residuals);
  draw (plotting L) (Some (1, 1)%nat) pacf_bars;;
  draw (plotting L) (Some (1, 1)%nat) (SetTitle (Text "Residuals PACF"));;
  draw (plotting L) None TightLayout;;
  plt_savefig (output_dir ++ "/residuals_diagnostics.png");;
  plt_close;;
  (* forecast plot *)
  forecast ← lift (get_forecast L model_fit forecast_steps);
  let forecast_values := predicted_mean L forecast in
  let conf_int_ := conf_int L forecast in
  plt_figure;;
  plt_plot (plotting L) (s_index series) (s_values series)
           None (Some "Original Data"%string);;
  forecast_index_ ← lift (forecast_index series);
  plt_plot (plotting L) forecast_index_ forecast_values
           (Some "red"%string) (Some "Forecast"%string);;
  plt_fill_between (plotting L) forecast_index_ (fst conf_int_) (snd conf_int_)
                   "pink" "95% Confidence Interval";;
  draw (plotting L) None (SetTitle (ForecastCaption order));;
  draw (plotting L) None Legend;;
  draw (plotting L) None TightLayout;;
  plt_savefig (output_dir ++ "/forecast.png");;
  plt_close;;
  mret model_fit.

End ModelFitting.

(** ** Derived descriptions used in the statements *)

(** The value [Rolling.apply] leaves in a row for a function that
    returns. *)
Definition applied (g : list float64 -> float64) (x : list float64) : float64 :=
  if (1 <=? nobs x)%nat then g x else nan.

(** The samples of a window are all equal, as [==] has it. *)
Definition all_samples_equal (x : list float64) : Prop :=
  forall a b, In a x -> In b x -> float_eq a b = true.

(** The value [compute_autocorr] returns. *)
Definition autocorr_value (K : Kernels) (x : list float64) : float64 :=
  if (length x <? 2)%nat || all_eq x (hd nan x) then nan
  else match acf K x 1%nat false with
       | Ok r => nth 1 r nan
       | Raise _ => nan
       end.

(** The twelve Series of one signal, in the order of [statistics]. *)
Definition column_series (K : Kernels) (r : Rolling) : list (list float64) :=
  [ map (roll_mean K) r;
    map (roll_std K) r;
    map (roll_min K) r;
    map (roll_max K) r;
    Series_sub (map (roll_max K) r) (map (roll_min K) r);
    map (roll_median K) r;
    map (roll_quantile K f0_25) r;
    map (roll_quantile K f0_75) r;
    Series_sub (map (roll_quantile K f0_75) r) (map (roll_quantile K f0_25) r);
    map (applied (Series_skew K)) r;
    map (applied (Series_kurt K)) r;
    map (applied (autocorr_value K)) r ].

Definition column_features (K : Kernels) (column : string) (r : Rolling)
  : dict (list float64) :=
  combine (map (feature_name column) statistics) (column_series K r).

(** The values of the column a label selects, when the loop takes it as a
    signal. *)
Definition numeric_values (data : DataFrame) (column : string)
  : option (list float64) :=
  match getitem data column with
  | Ok (SelSeries (NumericColumn v)) => Some v
  | _ => None
  end.

(** The signals of a table: the labels the loop does not skip, in column
    order, with their values. *)
Fixpoint signals_of (data : DataFrame) (labels : list string)
  : list (string * list float64) :=
  match labels with
  | [] => []
  | c :: rest =>
      match numeric_values data c with
      | Some v => (c, v) :: signals_of data rest
      | None => signals_of data rest
      end
  end.

Definition signals (data : DataFrame) : list (string * list float64) :=
  signals_of data (column_labels data).

(** The stamps of a time index [rolling] accepts. *)
Definition rolling_stamps (idx : Index) : option (list Z) :=
  match idx with
  | DatetimeIndex stamps _ =>
      if is_monotonic_increasing stamps || is_monotonic_decreasing stamps
      then Some stamps else None
  | NumericIndex _ => None
  end.

(** The tables on which the extraction returns for every window that
    fits a Timedelta: a time index that is monotonic, or no signal at
    all. *)
Definition extractable (data : DataFrame) : Prop :=
  is_Some (rolling_stamps (index data)) \/ signals data = [].

(** Assigning a list of entries to a dict, one after the other. *)
Definition dict_update {V} (d : dict V) (entries : list (string * V)) : dict V :=
  fold_left (fun d kv => dict_set d (fst kv) (snd kv)) entries d.

(** The loop as it runs over the signals alone: the columns it skips
    leave the dict as it is. *)
Fixpoint store_signals (K : Kernels) (idx : Index) (window_size : positive)
    (sigs : list (string * list float64)) (features : dict (list float64))
  : result (dict (list float64)) :=
  match sigs with
  | [] => Ok features
  | (c, v) :: rest =>
      r ← rolling (SelSeries (NumericColumn v)) idx window_size;
      store_signals K idx window_size rest
        (dict_update features (column_features K c r))
  end.

(** The entries the loop stores for the signals [sigs] under the index
    stamps [stamps]. *)
Definition features_of (K : Kernels) (stamps : list Z) (window_size : positive)
    (sigs : list (string * list float64)) : dict (list float64) :=
  flat_map (fun cv => column_features K (fst cv) (windows stamps window_size (snd cv)))
           sigs.

(** The labels of the derived columns of the signals [cs]: signal by
    signal, the statistics in their order. *)
Definition feature_names (cs : list string) : list string :=
  flat_map (fun c => map (feature_name c) statistics) cs.

(** Whether the loop takes the column a label selects as a signal. *)
Definition is_signal (data : DataFrame) (column : string) : bool :=
  match numeric_values data column with
  | Some _ => true
  | None => false
  end.

(** [df.iloc[k][label]] for a numeric column with a unique label. *)
Definition cell (df : DataFrame) (label : string) (k : nat) : option float64 :=
  numeric_values df label ≫= fun v => nth_error v k.

(** Rows [positions] of a column, and of an index. *)
Definition rows_of {A} (positions : list nat) (d : A) (l : list A) : list A :=
  map (fun i => nth i l d) positions.

Definition Column_rows (positions : list nat) (c : Column) : Column :=
  match c with
  | NumericColumn v => NumericColumn (rows_of positions nan v)
  | ObjectColumn v => ObjectColumn (rows_of positions None v)
  end.

(** A table without any numeric column, on a plain integer index, and
    the empty table. *)
Definition sample_notes : DataFrame :=
  {| index := NumericIndex [0; 1; 2];
     columns := [("subject"%string, ObjectColumn [Some "S1"; Some "S2"; None]%string);
                 ("note"%string, ObjectColumn [None; Some "rest"; Some "walk"]%string)] |}.

Definition empty_table : DataFrame :=
  {| index := NumericIndex []; columns := [] |}.

(** Two signals around a column of another dtype. *)
Definition sample_vitals : DataFrame :=
  {| index := DatetimeIndex (seconds [0; 1; 2; 3; 4; 5; 6; 7]) (Some 1000000000);
     columns := [("hr"%string, NumericColumn (floats [60; 62; 61; 65; 64; 70; 68; 66]));
                 ("subject"%string, ObjectColumn (replicate 8 (Some "S1"%string)));
                 ("temp"%string, NumericColumn (floats [36; 37; 36; 38; 37; 36; 39; 37]))] |}.

(** ** The three figures *)

Definition fit_figure (L : Statsmodels) (series : Series) (order : nat * nat * nat)
    (model_fit : ARIMAResults L) : Figure :=
  [ (None, Line (s_index series) (s_values series) None (Some "Original Data"%string));
    (None, Line (s_index (fittedvalues L model_fit)) (s_values (fittedvalues L model_fit))
                (Some "red"%string) (Some "Fitted Values"%string));
    (None, SetTitle (FitCaption order));
    (None, Legend);
    (None, TightLayout) ].

Definition diagnostics_figure (L : Statsmodels) (model_fit : ARIMAResults L)
    (acf_bars pacf_bars : Drawing) : Figure :=
  let residuals := resid L model_fit in
  [ (Some (0, 0)%nat, Line (s_index residuals) (s_values residuals) None None);
    (Some (0, 0)%nat, SetTitle (Text "Residuals"));
    (Some (0, 1)%nat, Hist (s_values residuals) true);
    (Some (0, 1)%nat, SetTitle (Text "Residuals Distribution"));
    (Some (1, 0)%nat, acf_bars);
    (Some (1, 0)%nat, SetTitle (Text "Residuals ACF"));
    (Some (1, 1)%nat, pacf_bars);
    (Some (1, 1)%nat, SetTitle (Text "Residuals PACF"));
    (None, TightLayout) ].

Definition forecast_figure (L : Statsmodels) (series : Series)
    (order : nat * nat * nat) (forecast : PredictionResults L)
    (forecast_index_ : Index) : Figure :=
  [ (None, Line (s_index series) (s_values series) None (Some "Original Data"%string));
    (None, Line forecast_index_ (predicted_mean L forecast)
                (Some "red"%string) (Some "Forecast"%string));
    (None, FillBetween forecast_index_ (fst (conf_int L forecast))
                       (snd (conf_int L forecast)) "pink" "95% Confidence Interval");
    (None, SetTitle (ForecastCaption order));
    (None, Legend);
    (None, TightLayout) ].

(** The stamps that follow [last] in steps of [step]. *)
Definition steps_after (last step : Z) : list Z :=
  map (fun k => last + k * step) [1; 2; 3; 4; 5; 6; 7; 8; 9; 10].

(** The frequency the stamps themselves show (what pandas calls
    [inferred_freq]): their common step, from three stamps on. *)
Definition inferred_freq (stamps : list Z) : option Z :=
  match stamps with
  | a :: (b :: _ :: _) as rest =>
      if forallb (fun p => snd p - fst p =? b - a) (combine stamps rest)
      then Some (b - a) else None
  | _ => None
  end.

(** A stand-in for the libraries, used to run [build_arima_model]: the
    random-walk forecast. The fitted value is the previous observation,
    the forecast repeats the last one, and the band is one unit wide on
    each side; every drawing call goes through. *)
Module RandomWalk.

Definition shift (values : list float64) : list float64 :=
  match values with
  | [] => []
  | v :: _ => v :: removelast values
  end.

Definition fit (series : Series) (order : nat * nat * nat) : result Series :=
  match s_values series with
  | [] => Raise ValueError
  | _ => Ok series
  end.

Definition fitted (m : Series) : Series :=
  mkSeries (s_index m) (shift (s_values m)).

Definition residuals (m : Series) : Series :=
  mkSeries (s_index m) (Series_sub (s_values m) (shift (s_values m))).

Definition forecast (m : Series) (steps : nat) : result (list float64) :=
  Ok (replicate steps (List.last (s_values m) nan)).

Definition band (mean : list float64) : list float64 * list float64 :=
  (map (fun v => float_sub v (Reference.of_Z 1)) mean,
   map (fun v => Reference.fadd v (Reference.of_Z 1)) mean).

Definition bars (partial : bool) (s : Series) : result Drawing :=
  Ok (Correlogram partial (s_values s)).

Definition library : Statsmodels :=
  mkStatsmodels Series fit fitted residuals (list float64) forecast
    (fun mean => mean) band (bars false) (bars true) (fun _ => Ok ()).

End RandomWalk.

(** A series sampled every second whose index carries no [freq], the
    same with the [freq] set, and one on a plain integer index. *)
Definition series_unset_freq : Series :=
  mkSeries (DatetimeIndex (seconds [0; 1; 2]) None) (floats [60; 62; 61]).

Definition series_with_freq : Series :=
  mkSeries (DatetimeIndex (seconds [0; 1; 2]) (Some 1000000000)) (floats [60; 62; 61]).

Definition series_numeric : Series :=
  mkSeries (NumericIndex [100; 101; 102]) (floats [60; 62; 61]).

(** A world in which the directory and one of the files are already
    there. *)
Definition world_with_plots : World :=
  mkWorld {[ "plots"%string ]}
          {[ "plots/forecast.png"%string := [(None, Legend)] ]}
          [].

Definition empty_world : World := mkWorld ∅ ∅ [].

Fixpoint is_strictly_increasing (l : list Z) : bool :=
  match l with
  | x :: tl =>
      match tl with
      | y :: _ => (x <? y) && is_strictly_increasing tl
      | [] => true
      end
  | [] => true
  end.


(** Irregular sampling: a burst of samples, a gap, another sample. *)
Definition irregular_stamps : list Z := seconds [0; 1; 2; 3; 50; 100].
Definition hr_values : list float64 := floats [60; 62; 61; 65; 64; 70].

Definition sample_irregular : DataFrame :=
  {| index := DatetimeIndex irregular_stamps None;
     columns := [("hr"%string, NumericColumn hr_values)] |}.

(** A constant signal: 120 seconds at 1 Hz, the value 5.0 throughout. *)
Definition sample_constant : DataFrame :=
  {| index := DatetimeIndex (seconds (map Z.of_nat (seq 0 120))) None;
     columns := [("hr"%string, NumericColumn (replicate 120 (Reference.of_Z 5)))] |}.

(** ** Descriptions used in the further properties *)

(** The numeric columns of a table, in column order. *)
Definition numeric_columns (cols : list (string * Column))
  : list (string * list float64) :=
  flat_map (fun lc => match snd lc with
                      | NumericColumn v => [(fst lc, v)]
                      | ObjectColumn _ => []
                      end) cols.

Definition is_numeric_column (lc : string * Column) : bool :=
  match snd lc with
  | NumericColumn _ => true
  | ObjectColumn _ => false
  end.

(** The table without its non-numeric columns. *)
Definition numeric_only (data : DataFrame) : DataFrame :=
  {| index := index data; columns := List.filter is_numeric_column (columns data) |}.

(** A numeric index under a numeric column, and a time index that goes
    back and forth. *)
Definition sample_untimed : DataFrame :=
  {| index := NumericIndex [0; 1; 2];
     columns := [("hr"%string, NumericColumn (floats [60; 62; 61]))] |}.

Definition sample_unsorted : DataFrame :=
  {| index := DatetimeIndex (seconds [0; 2; 1]) None;
     columns := [("hr"%string, NumericColumn (floats [60; 62; 61]))] |}.

(** A label that stands over two columns. *)
Definition sample_repeated_label : DataFrame :=
  {| index := DatetimeIndex (seconds [0; 1; 2; 3; 4; 5]) None;
     columns := [("hr"%string, NumericColumn (floats [60; 62; 61; 65; 64; 70]));
                 ("hr"%string, NumericColumn (floats [61; 63; 62; 66; 65; 71]));
                 ("temp"%string, NumericColumn (floats [36; 37; 36; 38; 37; 36]))] |}.

(** A constant signal beside a varying one. *)
Definition sample_with_constant : DataFrame :=
  {| index := DatetimeIndex (seconds [0; 1; 2; 3; 4; 5]) None;
     columns := [("hr"%string, NumericColumn (floats [60; 62; 61; 65; 64; 70]));
                 ("spo2"%string, NumericColumn (floats [98; 98; 98; 98; 98; 98]))] |}.

(** The stamps of [n] samples taken every [period] seconds from [t0]. *)
Definition regular_stamps (t0 : Z) (period : positive) (n : nat) : list Z :=
  map (fun k => t0 + Z.of_nat k * (Z.pos period * 1000000000)) (seq 0 n).

(** The number of samples, [period] seconds apart, that a span of
    [window_size] seconds holds. *)
Definition samples_per_window (window_size period : positive) : nat :=
  Z.to_nat ((Z.pos window_size - 1) / Z.pos period) + 1.



(** A library whose line plots refuse a single point, the way
    [Series.plot] of pandas does on some one-row Series, and a series of
    one observation. *)
Definition library_strict_plots : Statsmodels :=
  mkStatsmodels Series RandomWalk.fit RandomWalk.fitted RandomWalk.residuals
    (list float64) RandomWalk.forecast (fun mean => mean) RandomWalk.band
    (RandomWalk.bars false) (RandomWalk.bars true)
    (fun d => match d with
              | Line _ [_] None None => Raise TypeError
              | _ => Ok ()
              end).

Definition series_single : Series :=
  mkSeries (DatetimeIndex (seconds [0]) (Some 1000000000)) (floats [60]).

(** The drawings of a figure all go through. *)
Definition drawable (L : Statsmodels) (fig : Figure) : Prop :=
  Forall (fun ad => plotting L (snd ad) = Ok ()) fig.

(** The three file names under the output directory. *)
Definition plot_names : list string :=
  ["/model_fit.png"; "/residuals_diagnostics.png"; "/forecast.png"]%string.


(** A call started in a world that satisfies [P] ends in a world that
    satisfies [Q] when it returns and [E] when it raises. *)
Definition triple {A} (P : World -> Prop) (m : IO A) (Q : A -> World -> Prop)
    (E : World -> Prop) : Prop :=
  forall w, P w ->
    match m w with
    | (Ok a, w') => Q a w'
    | (Raise _, w') => E w'
    end.

(** The worlds a call started in [w0] may pass through while [n] figures
    of its own are open: no directory is lost, no file other than the
    three plots differs, and the figures that were open lie untouched
    under the [n] new ones. *)
Definition inside (output_dir : string) (w0 : World) (n : nat) (w : World) : Prop :=
  dirs w0 ⊆ dirs w /\
  (forall path,
     (forall name, In name plot_names -> path <> (output_dir ++ name)%string) ->
     files w !! path = files w0 !! path) /\
  exists opened, length opened = n /\ figures w = opened ++ figures w0.

(** The table with one more numeric column at the end. *)
Definition add_column (data : DataFrame) (c : string) (v : list float64) : DataFrame :=
  {| index := index data; columns := columns data ++ [(c, NumericColumn v)] |}.

(** * Facts *)

(** ** The result monad *)

Lemma bind_Ok {A B} (a : A) (f : A -> result B) : (Ok a ≫= f) = f a.
Proof. reflexivity. Qed.

Lemma mapM_Ok {A B} (f : A -> result B) (g : A -> B) (l : list A) :
  (forall x, In x l -> f x = Ok (g x)) -> mapM f l = Ok (map g l).
Proof.
  induction l as [|a l IH]; intros Hf; [reflexivity|].
  cbn. rewrite (Hf a) by (left; reflexivity). cbn.
  rewrite IH by (intros x Hx; apply Hf; right; exact Hx).
  reflexivity.
Qed.

(** ** float64 *)

Lemma float_eq_refl (x : float64) : isnan x = false -> float_eq x x = true.
Proof.
  unfold float_eq, SFeqb.
  destruct x as [s|s| |s m e]; cbn; intros H; try discriminate; try reflexivity.
  - destruct s; reflexivity.
  - destruct s; rewrite Z.compare_refl, Pos.compare_cont_refl; reflexivity.
Qed.

Lemma float_eq_finite (x y : float64) :
  float_eq x y = true -> isfinite y = true -> isfinite x = true.
Proof.
  unfold float_eq, SFeqb, isfinite.
  destruct x as [s|s| |s m e], y as [s'|s'| |s' m' e']; cbn; intros H H';
    try discriminate; try reflexivity.
  - destruct s; discriminate.
  - destruct s; discriminate.
Qed.

(** ** [compute_autocorr] *)

Lemma item_head {A} (x : list A) (d : A) :
  (2 <= length x)%nat -> item x 0 = Ok (hd d x).
Proof. destruct x; cbn; [lia|reflexivity]. Qed.

Lemma compute_autocorr_value (K : Kernels) (x : list float64) :
  compute_autocorr K x = Ok (autocorr_value K x).
Proof.
  unfold compute_autocorr, autocorr_value.
  destruct (length x <? 2)%nat eqn:Hlen; [reflexivity|].
  apply Nat.ltb_ge in Hlen.
  rewrite (item_head x nan Hlen). cbn.
  destruct (all_eq x (hd nan x)); [reflexivity|].
  destruct (acf K x 1%nat false) as [r|e]; cbn; [|reflexivity].
  unfold item. destruct (nth_error r 1) as [v|] eqn:Hv; cbn.
  - rewrite (nth_error_nth _ _ _ Hv). reflexivity.
  - apply nth_error_None in Hv. rewrite nth_overflow by exact Hv. reflexivity.
Qed.

Lemma Rolling_apply_pure (g : list float64 -> float64) (r : Rolling) :
  Rolling_apply (fun x => Ok (g x)) r = Ok (map (applied g) r).
Proof.
  unfold Rolling_apply. apply mapM_Ok. intros x _. unfold applied.
  destruct (1 <=? nobs x)%nat; reflexivity.
Qed.

Lemma Rolling_apply_autocorr (K : Kernels) (r : Rolling) :
  Rolling_apply (compute_autocorr K) r = Ok (map (applied (autocorr_value K)) r).
Proof.
  unfold Rolling_apply. apply mapM_Ok. intros x _. unfold applied.
  rewrite compute_autocorr_value. destruct (1 <=? nobs x)%nat; reflexivity.
Qed.

(** ** The features dict *)

Lemma dict_set_fresh {V} (d : dict V) (k : string) (v : V) :
  ~ In k (dict_keys d) -> dict_set d k v = d ++ [(k, v)].
Proof.
  induction d as [|[k' v'] d IH]; cbn; intros Hk; [reflexivity|].
  destruct (String.eqb_spec k' k) as [->|Hne].
  - exfalso. apply Hk. left. reflexivity.
  - rewrite IH; [reflexivity|]. intros Hin. apply Hk. right. exact Hin.
Qed.

Lemma dict_update_fresh {V} (entries : list (string * V)) (d : dict V) :
  List.NoDup (dict_keys d ++ map fst entries) ->
  dict_update d entries = d ++ entries.
Proof.
  revert d. induction entries as [|[k v] entries IH]; intros d Hnd; cbn.
  - rewrite app_nil_r. reflexivity.
  - unfold dict_update in IH. rewrite dict_set_fresh.
    + rewrite IH.
      * rewrite <- app_assoc. reflexivity.
      * unfold dict_keys in *. rewrite map_app, <- app_assoc. exact Hnd.
    + cbn in Hnd. apply NoDup_remove_2 in Hnd.
      intros Hin. apply Hnd. apply in_or_app. left. exact Hin.
Qed.

(** ** Feature names *)

Lemma append_empty (b : string) : ("" ++ b)%string = b.
Proof. reflexivity. Qed.

Lemma append_cons (x : ascii) (a b : string) :
  (String x a ++ b)%string = String x (a ++ b).
Proof. reflexivity. Qed.

Lemma has_char_app (c : ascii) (a b : string) :
  has_char c (a ++ String c b) = true.
Proof.
  induction a as [|x a IH]; rewrite ?append_empty, ?append_cons; cbn [has_char].
  - rewrite Ascii.eqb_refl. reflexivity.
  - rewrite IH. apply orb_true_r.
Qed.

Lemma underscore_split (c1 c2 a b : string) :
  has_char "_" a = false -> has_char "_" b = false ->
  (c1 ++ String "_" a = c2 ++ String "_" b)%string -> c1 = c2 /\ a = b.
Proof.
  intros Ha Hb. revert c2.
  induction c1 as [|x c1 IH]; intros [|y c2];
    rewrite ?append_empty, ?append_cons; intros Heq.
  - injection Heq as ->. split; reflexivity.
  - injection Heq as <- ->. rewrite has_char_app in Ha. discriminate.
  - injection Heq as -> <-. rewrite has_char_app in Hb. discriminate.
  - injection Heq as -> Heq. destruct (IH _ Heq) as [-> ->]. split; reflexivity.
Qed.

Lemma statistics_plain (stat : string) :
  In stat statistics -> has_char "_" stat = false.
Proof.
  intros Hin.
  assert (H : forallb (fun s => negb (has_char "_" s)) statistics = true)
    by reflexivity.
  rewrite forallb_forall in H. apply negb_true_iff. apply H. exact Hin.
Qed.

Lemma feature_name_inj (c1 c2 s1 s2 : string) :
  In s1 statistics -> In s2 statistics ->
  feature_name c1 s1 = feature_name c2 s2 -> c1 = c2 /\ s1 = s2.
Proof.
  intros H1 H2. unfold feature_name.
  rewrite !append_cons, !append_empty.
  apply underscore_split; apply statistics_plain; assumption.
Qed.

Lemma NoDup_statistics : List.NoDup statistics.
Proof.
  repeat (constructor; [cbn; intuition discriminate|]). constructor.
Qed.

(** ** One turn of the loop *)

Lemma getitem_label (data : DataFrame) (column : string) :
  In column (column_labels data) -> exists s, getitem data column = Ok s.
Proof.
  unfold column_labels, getitem. intros Hin.
  apply in_map_iff in Hin as [lc [Hlc Hin]].
  assert (Hf : In lc (List.filter (fun lc => String.eqb (fst lc) column) (columns data))).
  { apply filter_In. split; [exact Hin|]. rewrite Hlc. apply String.eqb_refl. }
  destruct (List.filter _ (columns data)) as [|a [|b l]]; [destruct Hf| |]; eauto.
Qed.

Lemma process_column_skip (K : Kernels) data w features column :
  In column (column_labels data) -> numeric_values data column = None ->
  process_column K data w features column = Ok features.
Proof.
  intros Hin Hnum. destruct (getitem_label data column Hin) as [s Hs].
  unfold process_column, numeric_values in *. rewrite Hs in *. cbn.
  destruct s as [[v|v]|cs]; cbn; try reflexivity. discriminate.
Qed.

Lemma window_fits (w : positive) :
  Z.pos w <= 9223372036 <-> (window_ns w <=? int64_max) = true.
Proof. unfold window_ns, int64_max. rewrite Z.leb_le. lia. Qed.

Lemma rolling_Ok (idx : Index) (stamps : list Z) (w : positive) (v : list float64) :
  rolling_stamps idx = Some stamps -> Z.pos w <= 9223372036 ->
  rolling (SelSeries (NumericColumn v)) idx w = Ok (windows stamps w v).
Proof.
  intros Hidx Hw. unfold rolling, rolling_stamps in *.
  destruct idx as [st f|l]; [|discriminate]. cbn [index_values].
  destruct (is_monotonic_increasing st || is_monotonic_decreasing st); [|discriminate].
  injection Hidx as ->. rewrite (proj1 (window_fits w) Hw). reflexivity.
Qed.



(** A turn of the loop on a signal: the ten [rolling] calls are calls on
    the same Series with the same offset, so they raise or return
    together. *)
Lemma process_column_rolling (K : Kernels) data w features column v :
  numeric_values data column = Some v ->
  process_column K data w features column
  = (r ← rolling (SelSeries (NumericColumn v)) (index data) w;
     Ok (dict_update features (column_features K column r))).
Proof.
  intros Hnum. unfold process_column, numeric_values in *.
  destruct (getitem data column) as [[[v'|v']|cs]|e]; try discriminate.
  injection Hnum as ->. rewrite bind_Ok. cbn [is_numeric_dtype negb].
  destruct (rolling (SelSeries (NumericColumn v)) (index data) w) as [r|e];
    [|reflexivity].
  cbn. rewrite !Rolling_apply_pure, Rolling_apply_autocorr. reflexivity.
Qed.

(** ** The whole loop *)

Lemma dict_update_app {V} (d : dict V) (a b : list (string * V)) :
  dict_update d (a ++ b) = dict_update (dict_update d a) b.
Proof. unfold dict_update. apply fold_left_app. Qed.

Lemma process_columns_store (K : Kernels) data w labels features :
  (forall c, In c labels -> In c (column_labels data)) ->
  process_columns K data w labels features
  = store_signals K (index data) w (signals_of data labels) features.
Proof.
  revert features.
  induction labels as [|c labels IH]; intros features Hin; [reflexivity|].
  cbn [process_columns signals_of].
  destruct (numeric_values data c) as [v|] eqn:Hnum.
  - rewrite (process_column_rolling K data w features c v Hnum).
    cbn [store_signals].
    destruct (rolling (SelSeries (NumericColumn v)) (index data) w) as [r|e];
      [|reflexivity].
    rewrite !bind_Ok. apply IH. intros c' Hc'. apply Hin. right. exact Hc'.
  - rewrite process_column_skip, bind_Ok; [|apply Hin; left; reflexivity|exact Hnum].
    apply IH. intros c' Hc'. apply Hin. right. exact Hc'.
Qed.

Lemma store_signals_Ok (K : Kernels) idx stamps w sigs features :
  rolling_stamps idx = Some stamps -> Z.pos w <= 9223372036 ->
  store_signals K idx w sigs features
  = Ok (dict_update features (features_of K stamps w sigs)).
Proof.
  intros Hidx Hw. revert features.
  induction sigs as [|[c v] sigs IH]; intros features; [reflexivity|].
  cbn [store_signals]. rewrite (rolling_Ok idx stamps w v Hidx Hw), bind_Ok, IH.
  unfold features_of. cbn [flat_map fst snd]. rewrite dict_update_app. reflexivity.
Qed.


Lemma process_columns_signals (K : Kernels) data w stamps labels features :
  rolling_stamps (index data) = Some stamps ->
  Z.pos w <= 9223372036 ->
  (forall c, In c labels -> In c (column_labels data)) ->
  process_columns K data w labels features
  = Ok (dict_update features (features_of K stamps w (signals_of data labels))).
Proof.
  intros Hidx Hw Hin. rewrite process_columns_store by exact Hin.
  apply store_signals_Ok; assumption.
Qed.

Lemma process_columns_no_signal (K : Kernels) data w labels features :
  signals_of data labels = [] ->
  (forall c, In c labels -> In c (column_labels data)) ->
  process_columns K data w labels features = Ok features.
Proof.
  induction labels as [|c labels IH]; intros Hsig Hin; [reflexivity|].
  cbn [process_columns signals_of] in *.
  destruct (numeric_values data c) as [v|] eqn:Hnum; [discriminate|].
  rewrite process_column_skip, bind_Ok; [|apply Hin; left; reflexivity|exact Hnum].
  apply IH; [exact Hsig|]. intros c' Hc'. apply Hin. right. exact Hc'.
Qed.

(** ** The signals carry distinct labels *)

Lemma filter_label_count (cols : list (string * Column)) (c : string) :
  length (List.filter (fun lc => String.eqb (fst lc) c) cols)
  = count_occ string_dec (map fst cols) c.
Proof.
  induction cols as [|[l col] cols IH]; [reflexivity|].
  cbn [List.filter map fst count_occ].
  destruct (String.eqb_spec l c) as [Heq|Hne], (string_dec l c) as [Heq'|Hne'];
    try contradiction; cbn [length]; rewrite IH; reflexivity.
Qed.

Lemma numeric_values_unique (data : DataFrame) (c : string) (v : list float64) :
  numeric_values data c = Some v ->
  count_occ string_dec (column_labels data) c = 1%nat.
Proof.
  unfold numeric_values, getitem, column_labels. rewrite <- filter_label_count.
  destruct (List.filter _ (columns data)) as [|a [|b l]]; cbn; try discriminate.
  reflexivity.
Qed.

Lemma signals_of_labels (data : DataFrame) (labels : list string) (c : string) :
  In c (map fst (signals_of data labels)) ->
  In c labels /\ is_Some (numeric_values data c).
Proof.
  induction labels as [|a labels IH]; cbn [signals_of]; [intros []|].
  destruct (numeric_values data a) as [v|] eqn:Ha; cbn [map fst In].
  - intros [<-|Hin]; [split; [left; reflexivity|rewrite Ha; eauto]|].
    destruct (IH Hin) as [H1 H2]. split; [right|]; assumption.
  - intros Hin. destruct (IH Hin) as [H1 H2]. split; [right|]; assumption.
Qed.

Lemma NoDup_signals_of (data : DataFrame) (labels : list string) :
  (forall c, In c (map fst (signals_of data labels)) ->
             count_occ string_dec labels c = 1%nat) ->
  List.NoDup (map fst (signals_of data labels)).
Proof.
  induction labels as [|a labels IH]; cbn [signals_of]; intros Hocc; [constructor|].
  assert (Hrest : forall c, In c (map fst (signals_of data labels)) ->
                            a <> c /\ count_occ string_dec labels c = 1%nat).
  { intros c Hc. pose proof (signals_of_labels data labels c Hc) as [Hin _].
    apply (count_occ_In string_dec) in Hin.
    assert (Hone : count_occ string_dec (a :: labels) c = 1%nat).
    { apply Hocc. destruct (numeric_values data a); [right|]; exact Hc. }
    cbn [count_occ] in Hone. destruct (string_dec a c); split; try lia; congruence. }
  destruct (numeric_values data a) as [v|] eqn:Ha; cbn [map fst].
  - constructor.
    + intros Hin. destruct (Hrest a Hin) as [Hne _]. congruence.
    + apply IH. intros c Hc. apply Hrest. exact Hc.
  - apply IH. intros c Hc. apply Hrest. exact Hc.
Qed.

Lemma NoDup_signals (data : DataFrame) : List.NoDup (map fst (signals data)).
Proof.
  apply NoDup_signals_of. intros c Hc.
  destruct (signals_of_labels _ _ _ Hc) as [_ [v Hv]].
  exact (numeric_values_unique data c v Hv).
Qed.

(** ** The labels of the derived columns *)

Lemma features_of_keys (K : Kernels) stamps w sigs :
  dict_keys (features_of K stamps w sigs) = feature_names (map fst sigs).
Proof.
  unfold features_of, feature_names, dict_keys.
  induction sigs as [|[c v] sigs IH]; [reflexivity|].
  cbn [flat_map map fst snd]. rewrite map_app, IH. reflexivity.
Qed.

Lemma in_feature_names (cs : list string) (k : string) :
  In k (feature_names cs) <->
  exists c stat, In c cs /\ In stat statistics /\ k = feature_name c stat.
Proof.
  unfold feature_names. rewrite in_flat_map. split.
  - intros [c [Hc Hk]]. apply in_map_iff in Hk as [stat [<- Hs]]. eauto.
  - intros [c [stat [Hc [Hs ->]]]]. exists c. split; [exact Hc|].
    apply in_map. exact Hs.
Qed.

Lemma NoDup_feature_names (cs : list string) :
  List.NoDup cs -> List.NoDup (feature_names cs).
Proof.
  induction 1 as [|c cs Hc Hcs IH]; [constructor|].
  change (List.NoDup (map (feature_name c) statistics ++ feature_names cs)).
  apply List.NoDup_app.
  - apply NoDup_map_NoDup_ForallPairs; [|apply NoDup_statistics].
    intros s1 s2 H1 H2 Heq. apply (feature_name_inj c c s1 s2 H1 H2 Heq).
  - exact IH.
  - intros k Hk Hk'. apply in_map_iff in Hk as [s1 [<- H1]].
    apply in_feature_names in Hk' as [c' [s2 [Hc' [H2 Heq]]]].
    destruct (feature_name_inj c c' s1 s2 H1 H2 Heq) as [-> _]. contradiction.
Qed.

(** ** The frame before trimming *)

Lemma features_frame_store (K : Kernels) data w :
  features_frame K data w
  = (features ← store_signals K (index data) w (signals data) [];
     Ok (DataFrame_of_dict features (index data))).
Proof.
  unfold features_frame. rewrite process_columns_store by auto. reflexivity.
Qed.

Lemma features_frame_signals (K : Kernels) data w stamps :
  rolling_stamps (index data) = Some stamps ->
  Z.pos w <= 9223372036 ->
  features_frame K data w
  = Ok (DataFrame_of_dict (features_of K stamps w (signals data)) (index data)).
Proof.
  intros Hidx Hw. unfold features_frame.
  rewrite (process_columns_signals K data w stamps) by auto.
  rewrite bind_Ok. fold (signals data). rewrite dict_update_fresh; [reflexivity|].
  cbn [dict_keys map app]. fold (dict_keys (features_of K stamps w (signals data))).
  rewrite features_of_keys. apply NoDup_feature_names, NoDup_signals.
Qed.

Lemma features_frame_no_signal (K : Kernels) data w :
  signals data = [] ->
  features_frame K data w = Ok (DataFrame_of_dict [] (index data)).
Proof.
  intros Hsig. unfold features_frame.
  rewrite process_columns_no_signal by auto. reflexivity.
Qed.

(** ** [dropna] *)

Lemma take_mask_cons {A} (b : bool) (mask : list bool) (a : A) (l : list A) :
  take_mask (b :: mask) (a :: l)
  = if b then a :: take_mask mask l else take_mask mask l.
Proof. unfold take_mask. cbn. destruct b; reflexivity. Qed.

Lemma take_mask_seq {A} (f : nat -> bool) (d : A) (l : list A) (s : nat) :
  take_mask (map f (seq s (length l))) l
  = map (fun i => nth (i - s) l d) (List.filter f (seq s (length l))).
Proof.
  revert s. induction l as [|a l IH]; intros s; [reflexivity|].
  cbn [length seq map List.filter]. rewrite take_mask_cons, (IH (S s)).
  assert (Hext : map (fun i => nth (i - S s) l d) (List.filter f (seq (S s) (length l)))
                 = map (fun i => nth (i - s) (a :: l) d)
                       (List.filter f (seq (S s) (length l)))).
  { apply map_ext_in. intros i Hi. apply filter_In in Hi as [Hi _].
    apply in_seq in Hi. replace (i - s)%nat with (S (i - S s)) by lia. reflexivity. }
  rewrite Hext. destruct (f s); [|reflexivity].
  cbn [map]. rewrite Nat.sub_diag. reflexivity.
Qed.

Lemma take_mask_rows {A} (f : nat -> bool) (d : A) (l : list A) :
  take_mask (map f (seq 0 (length l))) l
  = rows_of (List.filter f (seq 0 (length l))) d l.
Proof.
  rewrite (take_mask_seq f d l 0). unfold rows_of.
  apply map_ext. intros i. rewrite Nat.sub_0_r. reflexivity.
Qed.

Lemma filter_all {A} (f : A -> bool) (l : list A) :
  forallb id (map f l) = true -> List.filter f l = l.
Proof.
  induction l as [|a l IH]; cbn; [reflexivity|].
  unfold id at 1. destruct (f a); cbn; [|discriminate].
  intros H. rewrite IH by exact H. reflexivity.
Qed.

Lemma rows_of_all {A} (d : A) (l : list A) :
  rows_of (seq 0 (length l)) d l = l.
Proof.
  unfold rows_of. apply nth_ext with (d := d) (d' := d).
  - rewrite length_map, length_seq. reflexivity.
  - intros i Hi. rewrite length_map, length_seq in Hi.
    rewrite (nth_indep _ d (nth 0 l d)) by (rewrite length_map, length_seq; exact Hi).
    rewrite (map_nth (fun i => nth i l d)), seq_nth by exact Hi. reflexivity.
Qed.

Lemma Column_take_rows (f : nat -> bool) (c : Column) :
  Column_take (map f (seq 0 (column_len c))) c
  = Column_rows (List.filter f (seq 0 (column_len c))) c.
Proof.
  destruct c as [v|v]; cbn [Column_take Column_rows column_len].
  - rewrite (take_mask_rows f nan). reflexivity.
  - rewrite (take_mask_rows f None). reflexivity.
Qed.

Lemma Column_rows_all (c : Column) :
  Column_rows (seq 0 (column_len c)) c = c.
Proof.
  destruct c as [v|v]; cbn [Column_rows column_len]; rewrite rows_of_all; reflexivity.
Qed.

(** The rows [dropna] keeps are the complete ones, in their order. *)
Lemma dropna_rows (df : DataFrame) :
  well_formed df ->
  let kept := List.filter (row_complete df) (seq 0 (index_len (index df))) in
  index_values (index (dropna df)) = rows_of kept 0 (index_values (index df)) /\
  columns (dropna df)
  = map (fun lc => (fst lc, Column_rows kept (snd lc))) (columns df).
Proof.
  intros Hwf kept. unfold dropna. unfold well_formed in Hwf.
  rewrite List.Forall_forall in Hwf.
  destruct (forallb id (map (row_complete df) (seq 0 (index_len (index df))))) eqn:Hall.
  - assert (Hkept : kept = seq 0 (index_len (index df)))
      by (apply filter_all; exact Hall).
    rewrite Hkept. split.
    + unfold index_len. rewrite rows_of_all. reflexivity.
    + rewrite <- (map_id (columns df)) at 1. apply map_ext_in.
      intros [l c] Hin. cbn [fst snd].
      specialize (Hwf _ Hin). cbn [snd] in Hwf.
      rewrite <- Hwf, Column_rows_all. reflexivity.
  - cbn [index columns]. split.
    + unfold index_len.
      destruct (index df) as [stamps f|labels]; cbn [Index_take index_values];
        apply take_mask_rows.
    + apply map_ext_in. intros [l c] Hin. cbn [fst snd].
      specialize (Hwf _ Hin). cbn [snd] in Hwf.
      subst kept. rewrite <- Hwf. rewrite Column_take_rows. reflexivity.
Qed.

Lemma dropna_labels (df : DataFrame) :
  column_labels (dropna df) = column_labels df.
Proof.
  unfold dropna, column_labels.
  destruct (forallb id _); [reflexivity|].
  cbn [columns]. rewrite map_map. reflexivity.
Qed.

(** ** Shape of the frame before trimming *)

Lemma Series_sub_length (a b : list float64) :
  length a = length b -> length (Series_sub a b) = length a.
Proof.
  intros H. unfold Series_sub. rewrite length_map, length_combine. lia.
Qed.

Lemma column_series_lengths (K : Kernels) (r : Rolling) :
  Forall (fun s => length s = length r) (column_series K r).
Proof.
  unfold column_series.
  repeat (constructor;
          [first [ apply length_map
                 | rewrite Series_sub_length; rewrite !length_map; reflexivity ]|]).
  constructor.
Qed.

Lemma windows_length stamps w v : length (windows stamps w v) = length stamps.
Proof. unfold windows. rewrite length_map, length_seq. reflexivity. Qed.

Lemma column_features_lengths (K : Kernels) (c : string) (r : Rolling) :
  Forall (fun kv => length (snd kv) = length r) (column_features K c r).
Proof.
  pose proof (column_series_lengths K r) as H. rewrite List.Forall_forall in H.
  apply List.Forall_forall. intros [k s] Hin. cbn [snd].
  apply H. unfold column_features in Hin. apply in_combine_r in Hin. exact Hin.
Qed.

Lemma features_of_lengths (K : Kernels) stamps w sigs :
  Forall (fun kv => length (snd kv) = length stamps) (features_of K stamps w sigs).
Proof.
  unfold features_of. induction sigs as [|[c v] sigs IH]; [constructor|].
  cbn [flat_map fst snd]. apply List.Forall_app. split; [|exact IH].
  rewrite <- (windows_length stamps w v). apply column_features_lengths.
Qed.

Lemma DataFrame_of_dict_wf (entries : dict (list float64)) (idx : Index) :
  Forall (fun kv => length (snd kv) = index_len idx) entries ->
  well_formed (DataFrame_of_dict entries idx).
Proof.
  intros H. unfold well_formed, DataFrame_of_dict. cbn [index columns].
  rewrite List.Forall_forall in *. intros lc Hin.
  apply in_map_iff in Hin as [kv [<- Hin]]. cbn [snd column_len]. apply H. exact Hin.
Qed.

Lemma rolling_stamps_values (idx : Index) (stamps : list Z) :
  rolling_stamps idx = Some stamps -> index_values idx = stamps.
Proof.
  destruct idx as [st f|l]; cbn; [|discriminate].
  destruct (_ || _); [|discriminate]. intros [= ->]. reflexivity.
Qed.

(** On an extractable table the loop returns a frame on the index of the
    table, holding the twelve columns of every signal. *)
Lemma extractable_frame (K : Kernels) data w :
  extractable data ->
  Z.pos w <= 9223372036 ->
  exists entries,
    features_frame K data w = Ok (DataFrame_of_dict entries (index data)) /\
    Forall (fun kv => length (snd kv) = index_len (index data)) entries /\
    dict_keys entries = feature_names (map fst (signals data)).
Proof.
  intros [[stamps Hidx]|Hsig] Hw.
  - exists (features_of K stamps w (signals data)). split; [|split].
    + apply features_frame_signals; assumption.
    + unfold index_len. rewrite (rolling_stamps_values _ _ Hidx).
      apply features_of_lengths.
    + apply features_of_keys.
  - exists []. split; [|split].
    + apply features_frame_no_signal. exact Hsig.
    + constructor.
    + rewrite Hsig. reflexivity.
Qed.

Lemma row_complete_spec (df : DataFrame) (i : nat) :
  row_complete df i = true <->
  forall name c, In (name, c) (columns df) -> notna c i = true.
Proof.
  unfold row_complete. rewrite forallb_forall. split.
  - intros H name c Hin. apply (H (name, c) Hin).
  - intros H [name c] Hin. apply (H name c Hin).
Qed.

(** ** Trimming *)



(** The sample table keeps its last three rows. *)
Example sample_hr_rows :
  (fun r => index_values (index r))
    <$> extract_time_series_features Reference.kernels sample_hr 5
  = Ok (seconds [3; 4; 5]).
Proof. vm_compute. reflexivity. Qed.

(** ** Tables without signals *)

Lemma signals_of_none (data : DataFrame) (labels : list string) :
  (forall c, numeric_values data c = None) -> signals_of data labels = [].
Proof.
  intros H. induction labels as [|c labels IH]; cbn [signals_of]; [reflexivity|].
  rewrite H. exact IH.
Qed.

Lemma no_numeric_column_no_signal (data : DataFrame) :
  (forall name c, In (name, c) (columns data) -> exists v, c = ObjectColumn v) ->
  signals data = [].
Proof.
  intros Hobj. apply signals_of_none. intros c.
  unfold numeric_values, getitem.
  destruct (List.filter _ (columns data)) as [|[l col] [|b rest]] eqn:Hf;
    try reflexivity.
  assert (Hin : In (l, col) (columns data)).
  { apply (proj1 (filter_In (fun lc => String.eqb (fst lc) c) (l, col) (columns data))).
    rewrite Hf. left. reflexivity. }
  destruct (Hobj l col Hin) as [v ->]. reflexivity.
Qed.

Lemma dropna_no_column (idx : Index) :
  dropna (DataFrame_of_dict [] idx) = {| index := idx; columns := [] |}.
Proof.
  unfold dropna, DataFrame_of_dict. cbn [index columns map].
  assert (H : forall l : list nat,
             forallb id (map (row_complete {| index := idx; columns := [] |}) l) = true).
  { induction l as [|a l IH]; [reflexivity|exact IH]. }
  rewrite H. reflexivity.
Qed.

(** C9. A table none of whose columns is numeric (the table without
    columns included) is returned without error as a table with no column
    on the whole original index: every row is kept. *)
Theorem extract_without_numeric_columns (K : Kernels) (data : DataFrame)
    (window_size : positive) :
  (forall name c, In (name, c) (columns data) -> exists v, c = ObjectColumn v) ->
  extract_time_series_features K data window_size
  = Ok {| index := index data; columns := [] |}.
Proof.
  intros Hobj. unfold extract_time_series_features.
  rewrite features_frame_no_signal by (apply no_numeric_column_no_signal; exact Hobj).
  rewrite bind_Ok, dropna_no_column. reflexivity.
Qed.

Lemma extract_without_numeric_columns_witness :
  extract_time_series_features Reference.kernels sample_notes 60
  = Ok {| index := NumericIndex [0; 1; 2]; columns := [] |}.
Proof.
  apply (extract_without_numeric_columns Reference.kernels sample_notes 60).
  intros name c [H|[H|[]]]; injection H as _ <-; eauto.
Defined.

Example extract_empty_table :
  extract_time_series_features Reference.kernels empty_table 60 = Ok empty_table.
Proof. reflexivity. Qed.

(** ** Column order *)

Lemma signals_of_filter (data : DataFrame) (labels : list string) :
  map fst (signals_of data labels) = List.filter (is_signal data) labels.
Proof.
  induction labels as [|c labels IH]; [reflexivity|].
  cbn [signals_of List.filter]. unfold is_signal at 1.
  destruct (numeric_values data c); cbn [map fst]; rewrite IH; reflexivity.
Qed.

(** C10. The columns of the returned table are grouped by signal, the
    signals in the column order of the input, and every group holds the
    twelve statistics in the order mean, std, min, max, range, median,
    q25, q75, iqr, skew, kurt, autocorr. A table is returned on every
    table the extraction accepts, for every window size up to the
    longest Timedelta, 9223372036 seconds. *)
Theorem extract_column_order (K : Kernels) (data : DataFrame)
    (window_size : positive) :
  extractable data ->
  Z.pos window_size <= 9223372036 ->
  exists out,
    extract_time_series_features K data window_size = Ok out /\
    column_labels out
    = flat_map (fun c => map (feature_name c)
                          ["mean"; "std"; "min"; "max"; "range"; "median";
                           "q25"; "q75"; "iqr"; "skew"; "kurt"; "autocorr"]%string)
               (List.filter (is_signal data) (column_labels data)).
Proof.
  intros Hex Hw.
  destruct (extractable_frame K data window_size Hex Hw)
    as [entries [Hframe [_ Hkeys]]].
  exists (dropna (DataFrame_of_dict entries (index data))). split.
  - unfold extract_time_series_features. rewrite Hframe. reflexivity.
  - rewrite dropna_labels. unfold column_labels, DataFrame_of_dict. cbn [columns].
    rewrite map_map. cbn [fst].
    change (map (fun kv => fst kv) entries) with (dict_keys entries). rewrite Hkeys.
    unfold signals. rewrite signals_of_filter. reflexivity.
Qed.

Lemma extract_column_order_witness :
  exists out,
    extract_time_series_features Reference.kernels sample_vitals 5 = Ok out /\
    column_labels out
    = flat_map (fun c => map (feature_name c)
                          ["mean"; "std"; "min"; "max"; "range"; "median";
                           "q25"; "q75"; "iqr"; "skew"; "kurt"; "autocorr"]%string)
               (List.filter (is_signal sample_vitals) (column_labels sample_vitals)).
Proof.
  apply (extract_column_order Reference.kernels sample_vitals 5).
  - left. exists (seconds [0; 1; 2; 3; 4; 5; 6; 7]). reflexivity.
  - lia.
Defined.

(** The kept rows of the sample are consecutive, so the trimmed index
    keeps the [freq] of the input. *)
Example sample_vitals_index :
  index <$> extract_time_series_features Reference.kernels sample_vitals 5
  = Ok (DatetimeIndex (seconds [3; 4; 5; 6; 7]) (Some 1000000000)).
Proof. vm_compute. reflexivity. Qed.

Example sample_vitals_signals :
  List.filter (is_signal sample_vitals) (column_labels sample_vitals)
  = ["hr"; "temp"]%string.
Proof. reflexivity. Qed.

(** ** Derived differences *)

Lemma filter_unique_label (cols : list (string * Column)) (l : string) (c : Column) :
  List.NoDup (map fst cols) -> In (l, c) cols ->
  List.filter (fun lc => String.eqb (fst lc) l) cols = [(l, c)].
Proof.
  induction cols as [|[l' c'] cols IH]; cbn [map fst In List.filter];
    intros Hnd Hin; [destruct Hin|].
  apply NoDup_cons_iff in Hnd as [Hnotin Hnd].
  assert (Hnone : ~ In l (map fst cols) ->
                  List.filter (fun lc => String.eqb (fst lc) l) cols = []).
  { clear. induction cols as [|[a b] cols IH]; cbn [map fst In List.filter];
      intros H; [reflexivity|].
    destruct (String.eqb_spec a l) as [->|Hne]; [exfalso; apply H; left; reflexivity|].
    apply IH. intros Hin. apply H. right. exact Hin. }
  destruct Hin as [Heq|Hin].
  - injection Heq as -> ->. rewrite String.eqb_refl, Hnone by exact Hnotin.
    reflexivity.
  - destruct (String.eqb_spec l' l) as [->|Hne].
    + exfalso. apply Hnotin. apply (in_map fst) in Hin. exact Hin.
    + apply IH; assumption.
Qed.

Lemma numeric_values_unique_label idx cols (l : string) (v : list float64) :
  List.NoDup (map fst cols) -> In (l, NumericColumn v) cols ->
  numeric_values {| index := idx; columns := cols |} l = Some v.
Proof.
  intros Hnd Hin. unfold numeric_values, getitem. cbn [columns].
  rewrite (filter_unique_label cols l (NumericColumn v) Hnd Hin). reflexivity.
Qed.

Lemma Series_sub_nth (a b : list float64) (i : nat) :
  (i < length a)%nat -> (i < length b)%nat ->
  nth i (Series_sub a b) nan = float_sub (nth i a nan) (nth i b nan).
Proof.
  revert b i. induction a as [|x a IH]; intros [|y b] [|i]; cbn; intros Ha Hb;
    try lia; [reflexivity|].
  apply IH; lia.
Qed.

Lemma rows_of_nth_error {A} (positions : list nat) (d : A) (l : list A) (k : nat) :
  nth_error (rows_of positions d l) k
  = (fun i => nth i l d) <$> nth_error positions k.
Proof. unfold rows_of. apply nth_error_map. Qed.

(** A cell of the trimmed frame is the cell of the untrimmed frame at the
    [k]-th kept row. *)
Lemma cell_dropna (entries : dict (list float64)) (idx : Index)
    (name : string) (s : list float64) (k : nat) :
  Forall (fun kv => length (snd kv) = index_len idx) entries ->
  List.NoDup (dict_keys entries) ->
  In (name, s) entries ->
  let df := DataFrame_of_dict entries idx in
  cell (dropna df) name k
  = (fun i => nth i s nan)
      <$> nth_error (List.filter (row_complete df) (seq 0 (index_len idx))) k.
Proof.
  intros Hlen Hnd Hin df.
  pose proof (dropna_rows df (DataFrame_of_dict_wf entries idx Hlen)) as [_ Hcols].
  cbv zeta in Hcols. unfold cell.
  set (kept := List.filter (row_complete df) (seq 0 (index_len idx))) in *.
  assert (Hnum : numeric_values (dropna df) name = Some (rows_of kept nan s)).
  { destruct (dropna df) as [idx' cols'] eqn:Hd. cbn [columns] in Hcols. subst cols'.
    apply numeric_values_unique_label.
    - rewrite map_map. cbn [fst]. unfold df, DataFrame_of_dict. cbn [columns].
      rewrite map_map. cbn [fst]. exact Hnd.
    - apply in_map_iff. exists (name, NumericColumn s). split; [reflexivity|].
      unfold df, DataFrame_of_dict. cbn [columns].
      apply in_map_iff. exists (name, s). split; [reflexivity|exact Hin]. }
  rewrite Hnum. cbn. apply rows_of_nth_error.
Qed.

Lemma dropna_index_len (df : DataFrame) :
  well_formed df ->
  index_len (index (dropna df))
  = length (List.filter (row_complete df) (seq 0 (index_len (index df)))).
Proof.
  intros Hwf. destruct (dropna_rows df Hwf) as [Hidx _]. cbv zeta in Hidx.
  unfold index_len at 1. rewrite Hidx. unfold rows_of. apply length_map.
Qed.

Lemma signals_entries (K : Kernels) stamps w sigs c v name s :
  In (c, v) sigs -> In (name, s) (column_features K c (windows stamps w v)) ->
  In (name, s) (features_of K stamps w sigs).
Proof.
  intros Hc Hs. unfold features_of. apply in_flat_map. exists (c, v). auto.
Qed.

(** C4. In every row of the returned table and for every signal, the
    range is the difference (in float64) of the max and the min of that
    row, and the iqr the difference of its q75 and q25. A table is
    returned on every table the extraction accepts, for every window
    size up to the longest Timedelta, 9223372036 seconds. *)
Theorem range_and_iqr_are_differences (K : Kernels) (data : DataFrame)
    (window_size : positive) :
  extractable data ->
  Z.pos window_size <= 9223372036 ->
  exists out,
    extract_time_series_features K data window_size = Ok out /\
    forall c k,
      In c (List.filter (is_signal data) (column_labels data)) ->
      (k < index_len (index out))%nat ->
      exists vmin vmax vq25 vq75,
        cell out (feature_name c "min") k = Some vmin /\
        cell out (feature_name c "max") k = Some vmax /\
        cell out (feature_name c "range") k = Some (float_sub vmax vmin) /\
        cell out (feature_name c "q25") k = Some vq25 /\
        cell out (feature_name c "q75") k = Some vq75 /\
        cell out (feature_name c "iqr") k = Some (float_sub vq75 vq25).
Proof.
  intros Hex Hw.
  assert (Hnone : signals data = [] ->
                  forall c, ~ In c (List.filter (is_signal data) (column_labels data))).
  { intros Hsig c. rewrite <- signals_of_filter. fold (signals data).
    rewrite Hsig. intros []. }
  destruct (rolling_stamps (index data)) as [stamps|] eqn:Hidx.
  2:{ destruct Hex as [[st Hst]|Hsig]; [rewrite Hidx in Hst; discriminate|].
      exists {| index := index data; columns := [] |}. split.
      - unfold extract_time_series_features.
        rewrite features_frame_no_signal by exact Hsig.
        rewrite bind_Ok, dropna_no_column. reflexivity.
      - intros c k Hc. destruct (Hnone Hsig c Hc). }
  set (entries := features_of K stamps window_size (signals data)).
  set (df := DataFrame_of_dict entries (index data)).
  assert (Hlen : Forall (fun kv => length (snd kv) = index_len (index data)) entries).
  { unfold index_len. rewrite (rolling_stamps_values _ _ Hidx).
    apply features_of_lengths. }
  assert (Hnd : List.NoDup (dict_keys entries)).
  { unfold entries. rewrite features_of_keys.
    apply NoDup_feature_names, NoDup_signals. }
  exists (dropna df). split.
  { unfold extract_time_series_features.
    rewrite (features_frame_signals K data window_size stamps Hidx Hw). reflexivity. }
  intros c k Hc Hk.
  rewrite <- signals_of_filter in Hc. fold (signals data) in Hc.
  apply in_map_iff in Hc as [[c' v] [Hc' Hcv]]. cbn [fst] in Hc'. subst c'.
  rewrite (dropna_index_len df (DataFrame_of_dict_wf entries (index data) Hlen)) in Hk.
  change (index df) with (index data) in Hk.
  set (r := windows stamps window_size v).
  destruct (nth_error (List.filter (row_complete df) (seq 0 (index_len (index data)))) k)
    as [i|] eqn:Hi; [|apply nth_error_None in Hi; lia].
  assert (Hcell : forall name s, In (name, s) (column_features K c r) ->
                                 cell (dropna df) name k = Some (nth i s nan)).
  { intros name s Hs.
    pose proof (cell_dropna entries (index data) name s k Hlen Hnd
                  (signals_entries K stamps window_size _ c v name s Hcv Hs)) as Hcd.
    cbv zeta in Hcd. fold df in Hcd. rewrite Hcd, Hi. reflexivity. }
  assert (Hir : (i < length r)%nat).
  { apply nth_error_In, filter_In in Hi as [Hi _]. apply in_seq in Hi.
    unfold r. rewrite windows_length. unfold index_len in Hi.
    rewrite (rolling_stamps_values _ _ Hidx) in Hi. lia. }
  exists (nth i (map (roll_min K) r) nan), (nth i (map (roll_max K) r) nan),
         (nth i (map (roll_quantile K f0_25) r) nan),
         (nth i (map (roll_quantile K f0_75) r) nan).
  rewrite <- !Series_sub_nth by (rewrite length_map; exact Hir).
  repeat split; apply Hcell; unfold column_features, column_series, statistics;
    cbn [map combine In]; tauto.
Qed.

Lemma range_and_iqr_are_differences_witness :
  exists out,
    extract_time_series_features Reference.kernels sample_vitals 5 = Ok out /\
    forall c k,
      In c (List.filter (is_signal sample_vitals) (column_labels sample_vitals)) ->
      (k < index_len (index out))%nat ->
      exists vmin vmax vq25 vq75,
        cell out (feature_name c "min") k = Some vmin /\
        cell out (feature_name c "max") k = Some vmax /\
        cell out (feature_name c "range") k = Some (float_sub vmax vmin) /\
        cell out (feature_name c "q25") k = Some vq25 /\
        cell out (feature_name c "q75") k = Some vq75 /\
        cell out (feature_name c "iqr") k = Some (float_sub vq75 vq25).
Proof.
  apply (range_and_iqr_are_differences Reference.kernels sample_vitals 5).
  - left. exists (seconds [0; 1; 2; 3; 4; 5; 6; 7]). reflexivity.
  - lia.
Defined.

(** The first kept row of the sample: max 65, min 60, range 5. *)
Example sample_vitals_range :
  (fun out => map (fun name => SF2Prim <$> cell out name 0)
                  ["hr_max"; "hr_min"; "hr_range"; "hr_q75"; "hr_q25"; "hr_iqr"]%string)
    <$> extract_time_series_features Reference.kernels sample_vitals 5
  = Ok [Some 65; Some 60; Some 5; Some 0x1.f6p+5; Some 0x1.e6p+5; Some 2]%float.
Proof. vm_compute. reflexivity. Qed.

(** ** Lag-1 autocorrelation of a window *)

Lemma float_eq_cases (x y : float64) :
  float_eq x y = true ->
  (exists s s', x = S754_zero s /\ y = S754_zero s') \/ x = y.
Proof.
  unfold float_eq, SFeqb.
  destruct x as [s|s| |s m e], y as [s'|s'| |s' m' e']; cbn; intros H;
    try discriminate; eauto;
    repeat match goal with b : bool |- _ => destruct b end;
    try discriminate; try (right; reflexivity);
    right;
    destruct (Z.compare_spec e e') as [->| |]; try discriminate;
    destruct (Pos.compare_cont Eq m m') eqn:Hm; try discriminate;
    apply Pos.compare_eq in Hm; subst; reflexivity.
Qed.

Lemma float_eq_sym (x y : float64) : float_eq x y = true -> float_eq y x = true.
Proof.
  intros H. destruct (float_eq_cases x y H) as [[s [s' [-> ->]]]| ->].
  - reflexivity.
  - exact H.
Qed.

Lemma float_eq_trans (x y z : float64) :
  float_eq x y = true -> float_eq y z = true -> float_eq x z = true.
Proof.
  intros H1 H2.
  destruct (float_eq_cases x y H1) as [[s [s' [-> ->]]]| ->]; [|exact H2].
  destruct (float_eq_cases _ z H2) as [[t [t' [_ ->]]]| <-]; reflexivity.
Qed.

Lemma all_eq_spec (x : list float64) (v : float64) :
  all_eq x v = true <-> forall a, In a x -> float_eq a v = true.
Proof. unfold all_eq. apply forallb_forall. Qed.

Lemma all_eq_head (x : list float64) :
  x <> [] -> (all_eq x (hd nan x) = true <-> all_samples_equal x).
Proof.
  intros Hne. rewrite all_eq_spec. split.
  - intros H a b Ha Hb. apply float_eq_trans with (y := hd nan x); [apply H; exact Ha|].
    apply float_eq_sym. apply H. exact Hb.
  - intros H a Ha. apply H; [exact Ha|]. destruct x; [contradiction|left; reflexivity].
Qed.

(** C3. The lag-1 autocorrelation of a window is NaN when the window has
    fewer than two samples or when all its samples are equal; otherwise it
    is entry 1 of [acf(x, nlags=1, fft=False)], the direct estimate; an
    exception of that computation is caught and gives NaN. The function
    never raises, so [Rolling.apply] fills every row. *)
Theorem compute_autocorr_cases (K : Kernels) (x : list float64) :
  (exists v, compute_autocorr K x = Ok v) /\
  ((length x < 2)%nat \/ all_samples_equal x -> compute_autocorr K x = Ok nan) /\
  ((2 <= length x)%nat /\ ~ all_samples_equal x ->
     (forall acf_result lag1,
        acf K x 1%nat false = Ok acf_result ->
        nth_error acf_result 1 = Some lag1 ->
        compute_autocorr K x = Ok lag1) /\
     (forall e, acf K x 1%nat false = Raise e -> compute_autocorr K x = Ok nan)) /\
  (forall r : Rolling,
     exists col, Rolling_apply (compute_autocorr K) r = Ok col /\
                 length col = length r).
Proof.
  split; [|split; [|split]].
  - rewrite compute_autocorr_value. eauto.
  - intros H. rewrite compute_autocorr_value. unfold autocorr_value.
    destruct (length x <? 2)%nat eqn:Hlen; [reflexivity|].
    apply Nat.ltb_ge in Hlen. destruct H as [H|H]; [lia|].
    assert (Hne : x <> []) by (intros ->; cbn in Hlen; lia).
    apply (all_eq_head x Hne) in H. rewrite H. reflexivity.
  - intros [Hlen Hneq]. rewrite compute_autocorr_value. unfold autocorr_value.
    assert (Hne : x <> []) by (intros ->; cbn in Hlen; lia).
    apply Nat.ltb_ge in Hlen. rewrite Hlen. cbn [orb].
    destruct (all_eq x (hd nan x)) eqn:Hall;
      [exfalso; apply Hneq; apply (all_eq_head x Hne); exact Hall|].
    split.
    + intros acf_result lag1 Hacf Hlag. rewrite Hacf.
      rewrite (nth_error_nth _ _ _ Hlag). reflexivity.
    + intros e Hacf. rewrite Hacf. reflexivity.
  - intros r. exists (map (applied (autocorr_value K)) r). split.
    + apply Rolling_apply_autocorr.
    + apply length_map.
Qed.

Example autocorr_short : Reference.compute_autocorr (floats [61]) = Ok nan.
Proof. reflexivity. Qed.

Example autocorr_constant : Reference.compute_autocorr (floats [5; 5; 5]) = Ok nan.
Proof. reflexivity. Qed.

Example autocorr_direct :
  SF2Prim <$> Reference.compute_autocorr (floats [60; 62; 61; 65])
  = Ok (-0x1.b6db6db6db6dbp-3)%float.
Proof. vm_compute. reflexivity. Qed.

(** A failing [acf] is caught. *)
Example autocorr_caught :
  compute_autocorr
    (mkKernels Reference.roll_mean Reference.roll_std Reference.roll_min
       Reference.roll_max Reference.roll_median Reference.roll_quantile
       Reference.Series_skew Reference.Series_kurt
       (fun _ _ _ => Raise (LibraryError 0)))
    (floats [60; 62; 61; 65])
  = Ok nan.
Proof. reflexivity. Qed.

(** ** Constant signals *)

Lemma nobs_positive (x : list float64) :
  (1 <= nobs x)%nat -> exists c, In c x /\ isfinite c = true.
Proof.
  unfold nobs. intros H.
  destruct (List.filter isfinite x) as [|c l] eqn:Hf; [cbn in H; lia|].
  exists c. apply filter_In. rewrite Hf. left. reflexivity.
Qed.

Lemma prep_values_in (values : list float64) (a : float64) :
  In a (prep_values values) ->
  exists a', In a' values /\ a = if isinf a' then nan else a'.
Proof.
  unfold prep_values. intros H. apply in_map_iff in H as [a' [<- H]]. eauto.
Qed.

Lemma isfinite_prep (a : float64) :
  isfinite (if isinf a then nan else a) = true ->
  (if isinf a then nan else a) = a /\ isfinite a = true.
Proof. destruct a as [s|s| |s m e]; cbn; intros H; try discriminate; auto. Qed.

Lemma isfinite_not_nan (a : float64) : isfinite a = true -> isnan a = false.
Proof. destruct a; cbn; intros H; try discriminate; reflexivity. Qed.

(** A window drawn from a column whose values are all equal has no
    autocorrelation. *)
Lemma constant_window_autocorr (K : Kernels) (values x : list float64) :
  (forall a b, In a values -> In b values -> a = b \/ float_eq a b = true) ->
  (forall a, In a x -> In a (prep_values values)) ->
  applied (autocorr_value K) x = nan.
Proof.
  intros Hconst Hsub. unfold applied.
  destruct (1 <=? nobs x)%nat eqn:Hobs; [|reflexivity].
  apply Nat.leb_le, nobs_positive in Hobs as [c [Hc Hfin]].
  destruct (prep_values_in _ _ (Hsub c Hc)) as [c' [Hc' ->]].
  apply isfinite_prep in Hfin as [_ Hfin].
  assert (Hall : forall a, In a x -> In a values /\ isfinite a = true).
  { intros a Ha. destruct (prep_values_in _ _ (Hsub a Ha)) as [a' [Ha' ->]].
    assert (Hfa : isfinite a' = true).
    { destruct (Hconst a' c' Ha' Hc') as [->|Heq]; [exact Hfin|].
      apply (float_eq_finite a' c' Heq Hfin). }
    destruct a'; cbn in Hfa |- *; try discriminate; auto. }
  unfold autocorr_value.
  destruct (length x <? 2)%nat; [reflexivity|].
  assert (Heq : all_eq x (hd nan x) = true).
  { apply all_eq_spec. intros a Ha.
    assert (Hhd : In (hd nan x) x) by (destruct x; [destruct Ha|left; reflexivity]).
    destruct (Hall a Ha) as [Ha' Hfa]. destruct (Hall _ Hhd) as [Hb' _].
    destruct (Hconst _ _ Ha' Hb') as [<-|H]; [|exact H].
    apply float_eq_refl, isfinite_not_nan. exact Hfa. }
  rewrite Heq. reflexivity.
Qed.

Lemma window_samples (stamps : list Z) w (values x : list float64) :
  length values = length stamps ->
  In x (windows stamps w values) ->
  forall a, In a x -> In a (prep_values values).
Proof.
  intros Hlen Hx a Ha. unfold windows in Hx.
  apply in_map_iff in Hx as [i [<- Hi]]. apply in_seq in Hi.
  apply in_map_iff in Ha as [j [<- Hj]].
  unfold window_positions in Hj. apply filter_In in Hj as [Hj _]. apply in_seq in Hj.
  apply nth_In. unfold prep_values. rewrite length_map. lia.
Qed.

Lemma filter_none {A} (f : A -> bool) (l : list A) :
  (forall a, In a l -> f a = false) -> List.filter f l = [].
Proof.
  induction l as [|a l IH]; intros H; [reflexivity|].
  cbn. rewrite (H a) by (left; reflexivity). apply IH.
  intros b Hb. apply H. right. exact Hb.
Qed.

(** C2. A table with a single numeric column whose values are all equal
    gives an empty table: the autocorrelation is NaN in every row, so the
    trimming keeps no row. The table lies on a monotonic time index, and
    the window size is one pandas can take as an offset (at most
    9223372036 seconds, the longest Timedelta). *)
Theorem constant_signal_gives_empty_table (K : Kernels) (stamps : list Z)
    (freq : option Z) (name : string) (values : list float64)
    (window_size : positive) :
  is_monotonic_increasing stamps || is_monotonic_decreasing stamps = true ->
  Z.pos window_size <= 9223372036 ->
  length values = length stamps ->
  (forall a b, In a values -> In b values -> a = b \/ float_eq a b = true) ->
  exists features_df out,
    features_frame K {| index := DatetimeIndex stamps freq;
                        columns := [(name, NumericColumn values)] |} window_size
    = Ok features_df /\
    (forall i, (i < length stamps)%nat ->
               cell features_df (feature_name name "autocorr") i = Some nan) /\
    extract_time_series_features K
      {| index := DatetimeIndex stamps freq;
         columns := [(name, NumericColumn values)] |} window_size
    = Ok out /\
    index_values (index out) = [] /\
    column_labels out = map (feature_name name) statistics /\
    (forall l c, In (l, c) (columns out) -> column_len c = 0%nat).
Proof.
  intros Hmono Hw Hlen Hconst.
  set (data := {| index := DatetimeIndex stamps freq;
                  columns := [(name, NumericColumn values)] |}).
  assert (Hidx : rolling_stamps (index data) = Some stamps).
  { cbn. rewrite Hmono. reflexivity. }
  assert (Hsig : signals data = [(name, values)]).
  { unfold signals, column_labels, data. cbn [columns map fst signals_of].
    unfold numeric_values, getitem. cbn [columns List.filter fst].
    rewrite String.eqb_refl. reflexivity. }
  set (r := windows stamps window_size values).
  set (entries := column_features K name r).
  assert (Hentries : features_of K stamps window_size (signals data) = entries).
  { rewrite Hsig. unfold features_of. cbn [flat_map fst snd]. apply app_nil_r. }
  set (df := DataFrame_of_dict entries (index data)).
  assert (Hframe : features_frame K data window_size = Ok df).
  { rewrite (features_frame_signals K data window_size stamps Hidx Hw), Hentries.
    reflexivity. }
  assert (Hwf : Forall (fun kv => length (snd kv) = index_len (index data)) entries).
  { rewrite <- Hentries. unfold index_len. rewrite (rolling_stamps_values _ _ Hidx).
    apply features_of_lengths. }
  assert (Hauto : map (applied (autocorr_value K)) r = map (fun _ => nan) r).
  { apply map_ext_in. intros x Hx.
    apply (constant_window_autocorr K values x Hconst).
    apply (window_samples stamps window_size values x Hlen Hx). }
  assert (Hcol : In (feature_name name "autocorr", NumericColumn (map (fun _ => nan) r))
                    (columns df)).
  { unfold df, DataFrame_of_dict, entries, column_features, column_series, statistics.
    cbn [columns map combine fst snd]. rewrite Hauto. cbn [In]. tauto. }
  assert (Hnd : List.NoDup (map fst (columns df))).
  { unfold df, DataFrame_of_dict. cbn [columns]. rewrite map_map. cbn [fst].
    change (map (fun kv => fst kv) entries) with (dict_keys entries).
    rewrite <- Hentries, features_of_keys. apply NoDup_feature_names, NoDup_signals. }
  assert (Hkept : List.filter (row_complete df) (seq 0 (index_len (index df))) = []).
  { apply filter_none. intros i Hi. apply in_seq in Hi.
    destruct (row_complete df i) eqn:Hrc; [|reflexivity].
    rewrite row_complete_spec in Hrc. specialize (Hrc _ _ Hcol).
    cbn [notna] in Hrc. destruct (nth_error (map (fun _ => nan) r) i) as [v|] eqn:Hv;
      [|discriminate].
    apply nth_error_In, in_map_iff in Hv as [x [<- _]]. discriminate. }
  destruct (dropna_rows df (DataFrame_of_dict_wf entries (index data) Hwf))
    as [Hi Hc]. cbv zeta in Hi, Hc. rewrite Hkept in Hi, Hc.
  exists df, (dropna df). split; [exact Hframe|]. split; [|split; [|split; [|split]]].
  - intros i Hi'. unfold cell. destruct df as [idx cols] eqn:Hdf.
    rewrite (numeric_values_unique_label idx cols _ _ Hnd Hcol). cbn.
    rewrite nth_error_map. unfold r. 
    destruct (nth_error (windows stamps window_size values) i) eqn:Hn; [reflexivity|].
    apply nth_error_None in Hn. rewrite windows_length in Hn. lia.
  - unfold extract_time_series_features. rewrite Hframe. reflexivity.
  - exact Hi.
  - rewrite dropna_labels. unfold column_labels, df, DataFrame_of_dict. cbn [columns].
    rewrite map_map. reflexivity.
  - intros l c Hin. rewrite Hc in Hin. apply in_map_iff in Hin as [[l' c'] [Heq _]].
    injection Heq as _ <-. destruct c'; reflexivity.
Qed.

Lemma in_replicate {A} (n : nat) (v a : A) : In a (replicate n v) -> a = v.
Proof.
  induction n as [|n IH]; cbn; [intros []|].
  intros [H|H]; [symmetry; exact H|apply IH; exact H].
Qed.

Lemma constant_signal_gives_empty_table_witness :
  exists features_df out,
    features_frame Reference.kernels sample_constant 60 = Ok features_df /\
    (forall i, (i < length (seconds (map Z.of_nat (seq 0 120))))%nat ->
               cell features_df (feature_name "hr" "autocorr") i = Some nan) /\
    extract_time_series_features Reference.kernels sample_constant 60 = Ok out /\
    index_values (index out) = [] /\
    column_labels out = map (feature_name "hr") statistics /\
    (forall l c, In (l, c) (columns out) -> column_len c = 0%nat).
Proof.
  apply (constant_signal_gives_empty_table Reference.kernels
           (seconds (map Z.of_nat (seq 0 120))) None "hr"
           (replicate 120 (Reference.of_Z 5)) 60).
  - vm_compute. reflexivity.
  - lia.
  - reflexivity.
  - intros a b Ha Hb. left.
    rewrite (in_replicate _ _ _ Ha), (in_replicate _ _ _ Hb). reflexivity.
Defined.

(** The scenario of the specification: 120 seconds at 1 Hz, the value 5.0
    throughout, a window of 60 seconds. *)
Example constant_scenario :
  (fun out => (index_values (index out), map snd (columns out)))
    <$> extract_time_series_features Reference.kernels sample_constant 60
  = Ok ([], replicate 12 (NumericColumn [])).
Proof. vm_compute. reflexivity. Qed.

(** ** Window membership *)

Lemma monotonic_head (x : Z) (l : list Z) :
  is_monotonic_increasing (x :: l) = true -> forall y, In y l -> x <= y.
Proof.
  revert x. induction l as [|a l IH]; intros x H y Hy; [destruct Hy|].
  cbn [is_monotonic_increasing] in H. apply andb_true_iff in H as [Hxa Hl].
  apply Z.leb_le in Hxa. destruct Hy as [<-|Hy]; [exact Hxa|].
  specialize (IH a Hl y Hy). lia.
Qed.

Lemma monotonic_tail (x : Z) (l : list Z) :
  is_monotonic_increasing (x :: l) = true -> is_monotonic_increasing l = true.
Proof.
  destruct l as [|a l]; [reflexivity|].
  cbn [is_monotonic_increasing]. intros H. apply andb_true_iff in H as [_ H]. exact H.
Qed.

Lemma monotonic_nth (l : list Z) (i j : nat) :
  is_monotonic_increasing l = true -> (j <= i)%nat -> (i < length l)%nat ->
  nth j l 0 <= nth i l 0.
Proof.
  revert i j. induction l as [|x l IH]; intros i j H Hji Hi; [cbn in Hi; lia|].
  destruct j as [|j], i as [|i]; cbn [nth]; try lia.
  - apply (monotonic_head x l H). apply nth_In. cbn in Hi. lia.
  - apply IH; [exact (monotonic_tail x l H)| |cbn in Hi]; lia.
Qed.



Lemma last_in (a d : Z) (l : list Z) : In (List.last (a :: l) d) (a :: l).
Proof.
  revert a. induction l as [|b l IH]; intros a; [left; reflexivity|].
  right. apply (IH b).
Qed.

Lemma growth_sign_increasing (stamps : list Z) :
  is_monotonic_increasing stamps = true -> index_growth_sign stamps = 1.
Proof.
  intros H. unfold index_growth_sign. destruct stamps as [|t0 l]; [reflexivity|].
  assert (Hle : t0 <= List.last (t0 :: l) t0).
  { destruct l as [|a l]; [cbn; lia|].
    apply (monotonic_head t0 (a :: l) H). apply (last_in a t0 l). }
  destruct (Z.ltb_spec (List.last (t0 :: l) t0) t0); [lia|reflexivity].
Qed.





(** Under irregular sampling the windows hold different numbers of
    samples: with a window of 5 seconds, four samples at the end of the
    burst, one after each gap. *)
Example irregular_window_sizes :
  (map (@length float64))
    <$> rolling (SelSeries (NumericColumn hr_values)) (index sample_irregular) 5
  = Ok [1; 2; 3; 4; 1; 1]%nat.
Proof. vm_compute. reflexivity. Qed.

(** On an index that runs backwards the span is taken the other way. *)
Example decreasing_index_windows :
  rolling (SelSeries (NumericColumn (floats [1; 2; 3])))
          (DatetimeIndex (seconds [20; 10; 0]) None) 15
  = Ok [floats [1]; floats [1; 2]; floats [2; 3]].
Proof. vm_compute. reflexivity. Qed.

(** ** Running the pyplot calls *)

Lemma IO_bind_inv {A B} (m : IO A) (f : A -> IO B) (w : World) (b : B) (w' : World) :
  mbind f m w = (Ok b, w') -> exists a w1, m w = (Ok a, w1) /\ f a w1 = (Ok b, w').
Proof.
  unfold mbind, IO_bind. destruct (m w) as [[a|e] w1]; intros H; [eauto|discriminate].
Qed.

Lemma lift_inv {A} (r : result A) (w : World) (a : A) (w1 : World) :
  lift r w = (Ok a, w1) -> r = Ok a /\ w1 = w.
Proof. unfold lift. intros [= -> ->]. split; reflexivity. Qed.

Lemma os_makedirs_inv (name : string) (w : World) (u : unit) (w1 : World) :
  os_makedirs name w = (Ok u, w1) ->
  name <> ""%string /\
  w1 = mkWorld (if bool_decide (name ∈ dirs w) then dirs w
                else dirs w ∪ list_to_set (name :: ancestors name))
               (files w) (figures w).
Proof.
  unfold os_makedirs.
  destruct (String.eqb_spec name "") as [->|Hne]; [discriminate|].
  destruct (bool_decide (name ∈ dirs w)).
  - intros [= <- <-]. split; [exact Hne|]. destruct w; reflexivity.
  - destruct (bool_decide (is_Some (files w !! name))); [discriminate|].
    destruct (existsb _ (ancestors name)); [discriminate|].
    intros [= <- <-]. split; [exact Hne|reflexivity].
Qed.

Lemma draw_inv accepts ax d ds fs fig others (u : unit) (w1 : World) :
  draw accepts ax d (mkWorld ds fs (fig :: others)) = (Ok u, w1) ->
  accepts d = Ok () /\ w1 = mkWorld ds fs ((fig ++ [(ax, d)]) :: others).
Proof.
  unfold draw. destruct (accepts d) as [[]|e]; [|discriminate].
  cbn [dirs files figures]. intros [= <- <-]. split; reflexivity.
Qed.

Lemma draw_ok accepts ax d ds fs fig others :
  accepts d = Ok () ->
  draw accepts ax d (mkWorld ds fs (fig :: others))
  = (Ok (), mkWorld ds fs ((fig ++ [(ax, d)]) :: others)).
Proof. intros H. unfold draw. rewrite H. reflexivity. Qed.

Lemma plt_plot_inv accepts x y color label ds fs fig others (u : unit) (w1 : World) :
  plt_plot accepts x y color label (mkWorld ds fs (fig :: others)) = (Ok u, w1) ->
  index_len x = length y /\ accepts (Line x y color label) = Ok () /\
  w1 = mkWorld ds fs ((fig ++ [(None, Line x y color label)]) :: others).
Proof.
  unfold plt_plot. destruct (Nat.eqb_spec (index_len x) (length y)) as [Heq|Hne].
  - intros H. split; [exact Heq|]. exact (draw_inv _ _ _ _ _ _ _ _ _ H).
  - discriminate.
Qed.

Lemma plt_fill_between_inv accepts x y1 y2 color label ds fs fig others
    (u : unit) (w1 : World) :
  plt_fill_between accepts x y1 y2 color label (mkWorld ds fs (fig :: others))
  = (Ok u, w1) ->
  (index_len x = length y1 /\ index_len x = length y2) /\
  accepts (FillBetween x y1 y2 color label) = Ok () /\
  w1 = mkWorld ds fs ((fig ++ [(None, FillBetween x y1 y2 color label)]) :: others).
Proof.
  unfold plt_fill_between.
  destruct (Nat.eqb_spec (index_len x) (length y1)) as [H1|H1]; [|discriminate].
  destruct (Nat.eqb_spec (index_len x) (length y2)) as [H2|H2]; [|discriminate].
  cbn [andb]. intros H. split; [split; assumption|].
  exact (draw_inv _ _ _ _ _ _ _ _ _ H).
Qed.

Lemma plt_savefig_inv (fname : string) ds fs fig others (u : unit) (w1 : World) :
  plt_savefig fname (mkWorld ds fs (fig :: others)) = (Ok u, w1) ->
  (fname ∉ ds) /\ w1 = mkWorld ds (<[fname := fig]> fs) (fig :: others).
Proof.
  unfold plt_savefig. cbn [dirs files figures hd].
  destruct (bool_decide_reflect (fname ∈ ds)) as [Hin|Hnotin]; [discriminate|].
  destruct (_ || _); [|discriminate].
  intros [= <- <-]. split; [exact Hnotin|reflexivity].
Qed.

Lemma plt_figure_eq (w : World) :
  plt_figure w = (Ok (), mkWorld (dirs w) (files w) ([] :: figures w)).
Proof. reflexivity. Qed.

Lemma plt_close_eq ds fs fig others :
  plt_close (mkWorld ds fs (fig :: others)) = (Ok (), mkWorld ds fs others).
Proof. reflexivity. Qed.

Lemma mret_inv {A} (a b : A) (w w' : World) :
  (mret a : IO A) w = (Ok b, w') -> a = b /\ w = w'.
Proof. intros [= -> ->]. split; reflexivity. Qed.

(** One call of a sequence that returned. *)
Ltac run_step H :=
  let a := fresh "a" in
  let w1 := fresh "w" in
  let Hs := fresh "Hs" in
  apply IO_bind_inv in H as (a & w1 & Hs & H);
  first
    [ rewrite plt_figure_eq in Hs; injection Hs as <- <-
    | apply draw_inv in Hs as [? ->]
    | rewrite plt_close_eq in Hs; injection Hs as <- <-
    | apply lift_inv in Hs as [Hs ->]
    | apply plt_plot_inv in Hs as (? & ? & ->)
    | apply plt_fill_between_inv in Hs as ([? ?] & ? & ->)
    | apply plt_savefig_inv in Hs as [? ->]
    | apply os_makedirs_inv in Hs as [? ->] ];
  cbn [dirs files figures app] in H.

(** What a call of [build_arima_model] that returns has done. *)
Lemma build_arima_model_returns (L : Statsmodels) (series : Series)
    (order : nat * nat * nat) (output_dir : string) (w w' : World)
    (model_fit : ARIMAResults L) :
  build_arima_model L series order output_dir w = (Ok model_fit, w') ->
  exists acf_bars pacf_bars forecast forecast_index_,
    ARIMA_fit L series order = Ok model_fit /\
    plot_acf L (resid L model_fit) = Ok acf_bars /\
    plot_pacf L (resid L model_fit) = Ok pacf_bars /\
    get_forecast L model_fit forecast_steps = Ok forecast /\
    forecast_index series = Ok forecast_index_ /\
    index_len forecast_index_ = length (predicted_mean L forecast) /\
    output_dir <> ""%string /\
    dirs w' = (if bool_decide (output_dir ∈ dirs w) then dirs w
               else dirs w ∪ list_to_set (output_dir :: ancestors output_dir)) /\
    files w'
    = <[(output_dir ++ "/forecast.png")%string :=
          forecast_figure L series order forecast forecast_index_]>
        (<[(output_dir ++ "/residuals_diagnostics.png")%string :=
             diagnostics_figure L model_fit acf_bars pacf_bars]>
           (<[(output_dir ++ "/model_fit.png")%string :=
                fit_figure L series order model_fit]> (files w))) /\
    figures w' = figures w.
Proof.
  unfold build_arima_model. intros H.
  do 34 run_step H.
  apply mret_inv in H as [-> <-]. cbn [dirs files figures].
  repeat match goal with |- exists _, _ => eexists end.
  repeat split; eauto.
Qed.

(** The checks a call that returns has passed. *)
Lemma build_arima_model_returns_checks (L : Statsmodels) (series : Series)
    (order : nat * nat * nat) (output_dir : string) (w w' : World)
    (model_fit : ARIMAResults L) :
  build_arima_model L series order output_dir w = (Ok model_fit, w') ->
  exists acf_bars pacf_bars forecast forecast_index_,
    plot_acf L (resid L model_fit) = Ok acf_bars /\
    plot_pacf L (resid L model_fit) = Ok pacf_bars /\
    get_forecast L model_fit forecast_steps = Ok forecast /\
    forecast_index series = Ok forecast_index_ /\
    index_len (s_index series) = length (s_values series) /\
    index_len (s_index (fittedvalues L model_fit))
    = length (s_values (fittedvalues L model_fit)) /\
    index_len forecast_index_ = length (fst (conf_int L forecast)) /\
    index_len forecast_index_ = length (snd (conf_int L forecast)) /\
    drawable L (fit_figure L series order model_fit) /\
    drawable L (diagnostics_figure L model_fit acf_bars pacf_bars) /\
    drawable L (forecast_figure L series order forecast forecast_index_) /\
    ((output_dir ++ "/model_fit.png")%string ∉ dirs w') /\
    ((output_dir ++ "/residuals_diagnostics.png")%string ∉ dirs w') /\
    ((output_dir ++ "/forecast.png")%string ∉ dirs w').
Proof.
  unfold build_arima_model. intros H.
  do 34 run_step H.
  apply mret_inv in H as [-> <-]. cbn [dirs files figures].
  repeat match goal with |- exists _, _ => eexists end.
  repeat match goal with |- _ /\ _ => split end;
    try eassumption;
    unfold drawable, fit_figure, diagnostics_figure, forecast_figure;
    repeat (constructor; [cbn [snd]; assumption|]); constructor.
Qed.

(** ** The files [build_arima_model] writes *)

Lemma path_ne (dir a b : string) : a <> b -> (dir ++ a)%string <> (dir ++ b)%string.
Proof. intros Hne Heq. apply Hne. apply (inj (String.app dir)). exact Heq. Qed.

(** C8. After a call of [build_arima_model] that returns, the output
    directory exists (with its ancestors when it was created; the
    directories that were there are untouched, and a directory that
    existed is no error), and the three files [model_fit.png],
    [residuals_diagnostics.png] and [forecast.png] under it hold the three
    figures of this call, whatever was at these paths before; no other
    file is written. *)
Theorem build_arima_model_writes_three_files (L : Statsmodels) (series : Series)
    (order : nat * nat * nat) (output_dir : string) (w w' : World)
    (model_fit : ARIMAResults L) :
  build_arima_model L series order output_dir w = (Ok model_fit, w') ->
  output_dir ∈ dirs w' /\
  dirs w ⊆ dirs w' /\
  (output_dir ∈ dirs w -> dirs w' = dirs w) /\
  (output_dir ∉ dirs w -> forall a, In a (ancestors output_dir) -> a ∈ dirs w') /\
  (exists acf_bars pacf_bars forecast forecast_index_,
     plot_acf L (resid L model_fit) = Ok acf_bars /\
     plot_pacf L (resid L model_fit) = Ok pacf_bars /\
     get_forecast L model_fit forecast_steps = Ok forecast /\
     forecast_index series = Ok forecast_index_ /\
     files w' !! (output_dir ++ "/model_fit.png")%string
     = Some (fit_figure L series order model_fit) /\
     files w' !! (output_dir ++ "/residuals_diagnostics.png")%string
     = Some (diagnostics_figure L model_fit acf_bars pacf_bars) /\
     files w' !! (output_dir ++ "/forecast.png")%string
     = Some (forecast_figure L series order forecast forecast_index_)) /\
  (forall path,
     path <> (output_dir ++ "/model_fit.png")%string ->
     path <> (output_dir ++ "/residuals_diagnostics.png")%string ->
     path <> (output_dir ++ "/forecast.png")%string ->
     files w' !! path = files w !! path) /\
  figures w' = figures w.
Proof.
  intros H.
  destruct (build_arima_model_returns L series order output_dir w w' model_fit H)
    as (acf_bars & pacf_bars & forecast & fi & Hfit & Hacf & Hpacf & Hfc & Hfi
        & Hlen & Hne & Hdirs & Hfiles & Hfigs).
  split; [|split; [|split; [|split; [|split; [|split]]]]].
  - rewrite Hdirs. destruct (bool_decide_reflect (output_dir ∈ dirs w)) as [Hin|Hout];
      [exact Hin|].
    apply elem_of_union_r, elem_of_list_to_set, list_elem_of_In. left. reflexivity.
  - rewrite Hdirs. destruct (bool_decide_reflect (output_dir ∈ dirs w)) as [Hin|Hout];
      [reflexivity|].
    apply union_subseteq_l.
  - intros Hin. rewrite Hdirs, bool_decide_eq_true_2 by exact Hin. reflexivity.
  - intros Hnotin a Ha. rewrite Hdirs, bool_decide_eq_false_2 by exact Hnotin.
    apply elem_of_union_r, elem_of_list_to_set, list_elem_of_In. right. exact Ha.
  - exists acf_bars, pacf_bars, forecast, fi.
    repeat (split; [assumption|]). rewrite Hfiles. split; [|split].
    + rewrite !lookup_insert_ne by (apply path_ne; discriminate).
      apply lookup_insert_eq.
    + rewrite lookup_insert_ne by (apply path_ne; discriminate).
      apply lookup_insert_eq.
    + apply lookup_insert_eq.
  - intros path H1 H2 H3. rewrite Hfiles.
    rewrite !lookup_insert_ne by congruence. reflexivity.
  - exact Hfigs.
Qed.

Lemma build_arima_model_writes_three_files_witness :
  let run := build_arima_model RandomWalk.library series_with_freq (1, 1, 1)%nat
               "plots" world_with_plots in
  let w' := snd run in
  "plots"%string ∈ dirs w' /\
  dirs world_with_plots ⊆ dirs w' /\
  ("plots"%string ∈ dirs world_with_plots -> dirs w' = dirs world_with_plots) /\
  ("plots"%string ∉ dirs world_with_plots ->
   forall a, In a (ancestors "plots") -> a ∈ dirs w') /\
  (exists acf_bars pacf_bars forecast forecast_index_,
     plot_acf RandomWalk.library (resid RandomWalk.library series_with_freq)
     = Ok acf_bars /\
     plot_pacf RandomWalk.library (resid RandomWalk.library series_with_freq)
     = Ok pacf_bars /\
     get_forecast RandomWalk.library series_with_freq forecast_steps = Ok forecast /\
     forecast_index series_with_freq = Ok forecast_index_ /\
     files w' !! ("plots" ++ "/model_fit.png")%string
     = Some (fit_figure RandomWalk.library series_with_freq (1, 1, 1)%nat
               series_with_freq) /\
     files w' !! ("plots" ++ "/residuals_diagnostics.png")%string
     = Some (diagnostics_figure RandomWalk.library series_with_freq
               acf_bars pacf_bars) /\
     files w' !! ("plots" ++ "/forecast.png")%string
     = Some (forecast_figure RandomWalk.library series_with_freq (1, 1, 1)%nat
               forecast forecast_index_)) /\
  (forall path,
     path <> ("plots" ++ "/model_fit.png")%string ->
     path <> ("plots" ++ "/residuals_diagnostics.png")%string ->
     path <> ("plots" ++ "/forecast.png")%string ->
     files w' !! path = files world_with_plots !! path) /\
  figures w' = figures world_with_plots.
Proof.
  cbv zeta.
  apply (build_arima_model_writes_three_files RandomWalk.library series_with_freq
           (1, 1, 1)%nat "plots" world_with_plots _ series_with_freq).
  vm_compute. reflexivity.
Defined.

(** A nested directory that is missing is created with its parent; a
    file that was at one of the paths is replaced. *)
Example makedirs_recursive :
  let w' := snd (build_arima_model RandomWalk.library series_with_freq
                   (1, 1, 1)%nat "out/plots" empty_world) in
  forallb (fun d => bool_decide (d ∈ dirs w')) ["out"; "out/plots"]%string = true /\
  size (dirs w') = 2%nat /\ size (files w') = 3%nat.
Proof. cbv zeta. repeat split; vm_compute; reflexivity. Qed.

Example forecast_file_replaced :
  files world_with_plots !! "plots/forecast.png"%string = Some [(None, Legend)] /\
  files (snd (build_arima_model RandomWalk.library series_with_freq (1, 1, 1)%nat
                "plots" world_with_plots)) !! "plots/forecast.png"%string
  = Some (forecast_figure RandomWalk.library series_with_freq (1, 1, 1)%nat
            (replicate 10 (Reference.of_Z 61))
            (DatetimeIndex (steps_after 2000000000 1000000000) (Some 1000000000))).
Proof. split; vm_compute; reflexivity. Qed.

(** The path of the directory may not be a file: [exist_ok] does not
    cover that. *)
Example makedirs_on_a_file :
  fst (build_arima_model RandomWalk.library series_with_freq (1, 1, 1)%nat
         "plots/forecast.png" world_with_plots)
  = Raise FileExistsError.
Proof. vm_compute. reflexivity. Qed.

(** ** The forecast *)

Lemma arange_ten (n : nat) :
  arange n (n + forecast_steps)
  = map (fun k => Z.of_nat n + k) [0; 1; 2; 3; 4; 5; 6; 7; 8; 9].
Proof.
  unfold arange, forecast_steps. replace (n + 10 - n)%nat with 10%nat by lia.
  cbn [seq map]. repeat (f_equal; try lia).
Qed.

Lemma date_range_inv (start : Z) (periods : nat) (freq : option Z) (range : list Z) :
  date_range start periods freq = Ok range ->
  range = map (fun k => start + Z.of_nat k * default day_ns freq) (seq 0 periods) /\
  forallb is_timestamp range = true.
Proof.
  unfold date_range.
  destruct (forallb is_timestamp _) eqn:Hin; [|discriminate].
  intros [= <-]. split; [reflexivity|exact Hin].
Qed.

Lemma forecast_index_length (series : Series) (fi : Index) :
  forecast_index series = Ok fi -> index_len fi = forecast_steps.
Proof.
  unfold forecast_index. destruct (s_index series) as [stamps freq|labels].
  - destruct (item stamps (length stamps - 1)) as [last_stamp|e]; [|discriminate].
    rewrite bind_Ok.
    destruct (date_range last_stamp (forecast_steps + 1) freq) as [range|e] eqn:Hr;
      [|discriminate].
    apply date_range_inv in Hr as [-> _]. intros [= <-]. reflexivity.
  - intros [= <-]. unfold index_len. cbn [index_values].
    rewrite arange_ten. reflexivity.
Qed.

(** On a time index the forecast stamps follow the last stamp in steps
    of the [freq] of the index, and of one day when it is unset. *)
Lemma forecast_index_datetime (values : list float64) (stamps : list Z)
    (freq : option Z) (fi : Index) :
  forecast_index (mkSeries (DatetimeIndex stamps freq) values) = Ok fi ->
  exists last_stamp,
    nth_error stamps (length stamps - 1) = Some last_stamp /\
    fi = DatetimeIndex (steps_after last_stamp (default day_ns freq))
                       (Some (default day_ns freq)).
Proof.
  unfold forecast_index, item. cbn [s_index].
  destruct (nth_error stamps (length stamps - 1)) as [last_stamp|]; [|discriminate].
  rewrite bind_Ok.
  destruct (date_range last_stamp (forecast_steps + 1) freq) as [range|e] eqn:Hr;
    [|discriminate].
  apply date_range_inv in Hr as [-> _]. intros [= <-].
  exists last_stamp. split; reflexivity.
Qed.

(** C7: the defect. The source means to extend a DatetimeIndex
    properly, but passes [freq=series.index.freq] to [pd.date_range]; on
    an index whose [freq] attribute is unset that is [None], and
    [date_range] then steps by one day. On the series sampled at 0 s, 1 s
    and 2 s, whose inferred frequency is one second, the forecast index
    is 2 s + 1 day, 2 s + 2 days, ..., not 3 s, 4 s, ...; every call that
    returns has saved the forecast at these stamps, and the call does
    return. *)
Lemma forecast_index_ignores_inferred_frequency :
  inferred_freq (seconds [0; 1; 2]) = Some 1000000000 /\
  forecast_index series_unset_freq
  = Ok (DatetimeIndex (steps_after 2000000000 86400000000000) (Some 86400000000000)) /\
  steps_after 2000000000 86400000000000 <> steps_after 2000000000 1000000000 /\
  (forall w w' model_fit,
     build_arima_model RandomWalk.library series_unset_freq (1, 1, 1)%nat "plots" w
     = (Ok model_fit, w') ->
     exists forecast,
       files w' !! "plots/forecast.png"%string
       = Some (forecast_figure RandomWalk.library series_unset_freq (1, 1, 1)%nat forecast
                 (DatetimeIndex (steps_after 2000000000 86400000000000)
                                (Some 86400000000000)))) /\
  fst (build_arima_model RandomWalk.library series_unset_freq (1, 1, 1)%nat "plots"
         empty_world)
  = Ok series_unset_freq.
Proof.
  split; [reflexivity|]. split; [reflexivity|]. split; [discriminate|]. split.
  - intros w w' model_fit H.
    destruct (build_arima_model_returns _ _ _ _ _ _ _ H)
      as (acf_bars & pacf_bars & forecast & fi & _ & _ & _ & _ & Hfi & _ & _ & _
          & Hfiles & _).
    exists forecast. rewrite Hfiles.
    change ("plots" ++ "/forecast.png")%string with "plots/forecast.png"%string.
    rewrite lookup_insert_eq.
    destruct (forecast_index_datetime _ _ _ _ Hfi) as [last_stamp [Hlast ->]].
    injection Hlast as <-. reflexivity.
  - vm_compute. reflexivity.
Qed.

(** On an integer index that does not start at 0 the forecast is placed
    at the positions after the last row, not after the last label. *)
Example forecast_index_numeric :
  forecast_index series_numeric = Ok (NumericIndex [3; 4; 5; 6; 7; 8; 9; 10; 11; 12]).
Proof. reflexivity. Qed.

(** X17. A call of [build_arima_model] that returns has asked for a
    forecast of 10 steps and drawn its mean and the band of [conf_int()]
    (the default level, 95%), all of 10 values, over 10 x values, into
    [forecast.png]. When the series is on a DatetimeIndex, the x values
    are the 10 stamps that follow the last stamp in steps of the [freq]
    attribute of the index, and of one day when that is unset; when the
    index is not a DatetimeIndex, they are the 10 integers from
    [len(series)] on. *)
Theorem build_arima_model_forecast (L : Statsmodels) (series : Series)
    (order : nat * nat * nat) (output_dir : string) (w w' : World)
    (model_fit : ARIMAResults L) :
  build_arima_model L series order output_dir w = (Ok model_fit, w') ->
  exists forecast forecast_index_,
    get_forecast L model_fit 10 = Ok forecast /\
    length (predicted_mean L forecast) = 10%nat /\
    length (fst (conf_int L forecast)) = 10%nat /\
    length (snd (conf_int L forecast)) = 10%nat /\
    index_len forecast_index_ = 10%nat /\
    files w' !! (output_dir ++ "/forecast.png")%string
    = Some [ (None, Line (s_index series) (s_values series) None
                         (Some "Original Data"%string));
             (None, Line forecast_index_ (predicted_mean L forecast)
                         (Some "red"%string) (Some "Forecast"%string));
             (None, FillBetween forecast_index_ (fst (conf_int L forecast))
                                (snd (conf_int L forecast))
                                "pink" "95% Confidence Interval");
             (None, SetTitle (ForecastCaption order));
             (None, Legend);
             (None, TightLayout) ] /\
    (forall stamps freq,
       s_index series = DatetimeIndex stamps freq ->
       exists last_stamp,
         nth_error stamps (length stamps - 1) = Some last_stamp /\
         forecast_index_
         = DatetimeIndex (map (fun k => last_stamp + k * default 86400000000000 freq)
                              [1; 2; 3; 4; 5; 6; 7; 8; 9; 10])
                         (Some (default 86400000000000 freq))) /\
    (forall labels,
       s_index series = NumericIndex labels ->
       forecast_index_
       = NumericIndex (map (fun k => Z.of_nat (length (s_values series)) + k)
                           [0; 1; 2; 3; 4; 5; 6; 7; 8; 9])).
Proof.
  intros H.
  destruct (build_arima_model_returns L series order output_dir w w' model_fit H)
    as (acf_bars & pacf_bars & forecast & fi & _ & _ & _ & Hfc & Hfi & Hlen & _ & _
        & Hfiles & _).
  destruct (build_arima_model_returns_checks L series order output_dir w w' model_fit H)
    as (_ & _ & forecast' & fi' & _ & _ & Hfc' & Hfi' & _ & _ & Hlo & Hhi & _).
  assert (forecast' = forecast) by congruence. assert (fi' = fi) by congruence.
  subst forecast' fi'.
  exists forecast, fi.
  pose proof (forecast_index_length series fi Hfi) as Hten.
  split; [exact Hfc|]. split; [rewrite <- Hlen; exact Hten|].
  split; [rewrite <- Hlo; exact Hten|]. split; [rewrite <- Hhi; exact Hten|].
  split; [exact Hten|].
  split; [rewrite Hfiles; apply lookup_insert_eq|]. split.
  - intros stamps freq Hidx. destruct series as [idx values]. cbn [s_index] in Hidx.
    subst idx. exact (forecast_index_datetime values stamps freq fi Hfi).
  - intros labels Hidx. unfold forecast_index in Hfi. rewrite Hidx in Hfi.
    injection Hfi as <-. rewrite arange_ten. reflexivity.
Qed.

Lemma build_arima_model_forecast_witness :
  let w' := snd (build_arima_model RandomWalk.library series_with_freq (1, 1, 1)%nat
                   "plots" world_with_plots) in
  exists forecast forecast_index_,
    get_forecast RandomWalk.library series_with_freq 10 = Ok forecast /\
    length (predicted_mean RandomWalk.library forecast) = 10%nat /\
    length (fst (conf_int RandomWalk.library forecast)) = 10%nat /\
    length (snd (conf_int RandomWalk.library forecast)) = 10%nat /\
    index_len forecast_index_ = 10%nat /\
    files w' !! ("plots" ++ "/forecast.png")%string
    = Some [ (None, Line (s_index series_with_freq) (s_values series_with_freq) None
                         (Some "Original Data"%string));
             (None, Line forecast_index_ (predicted_mean RandomWalk.library forecast)
                         (Some "red"%string) (Some "Forecast"%string));
             (None, FillBetween forecast_index_
                                (fst (conf_int RandomWalk.library forecast))
                                (snd (conf_int RandomWalk.library forecast))
                                "pink" "95% Confidence Interval");
             (None, SetTitle (ForecastCaption (1, 1, 1)%nat));
             (None, Legend);
             (None, TightLayout) ] /\
    (forall stamps freq,
       s_index series_with_freq = DatetimeIndex stamps freq ->
       exists last_stamp,
         nth_error stamps (length stamps - 1) = Some last_stamp /\
         forecast_index_
         = DatetimeIndex (map (fun k => last_stamp + k * default 86400000000000 freq)
                              [1; 2; 3; 4; 5; 6; 7; 8; 9; 10])
                         (Some (default 86400000000000 freq))) /\
    (forall labels,
       s_index series_with_freq = NumericIndex labels ->
       forecast_index_
       = NumericIndex (map (fun k => Z.of_nat (length (s_values series_with_freq)) + k)
                           [0; 1; 2; 3; 4; 5; 6; 7; 8; 9])).
Proof.
  cbv zeta.
  apply (build_arima_model_forecast RandomWalk.library series_with_freq
           (1, 1, 1)%nat "plots" world_with_plots _ series_with_freq).
  vm_compute. reflexivity.
Defined.

Example forecast_index_with_freq :
  forecast_index series_with_freq
  = Ok (DatetimeIndex (seconds [3; 4; 5; 6; 7; 8; 9; 10; 11; 12]) (Some 1000000000)).
Proof. reflexivity. Qed.

(** * Further properties of the extraction *)

(** ** When the extraction returns *)





Example extract_untimed :
  extract_time_series_features Reference.kernels sample_untimed 60 = Raise ValueError.
Proof. reflexivity. Qed.

Example extract_unsorted :
  extract_time_series_features Reference.kernels sample_unsorted 60 = Raise ValueError.
Proof. reflexivity. Qed.

(** The longest window, and the first one that is too long. *)
Example extract_widest_window :
  (fun out => index_values (index out))
    <$> extract_time_series_features Reference.kernels sample_hr 9223372036
  = Ok (seconds [3; 4; 5]).
Proof. vm_compute. reflexivity. Qed.

Example extract_window_too_wide :
  extract_time_series_features Reference.kernels sample_hr 9223372037
  = Raise OutOfBoundsTimedelta.
Proof. vm_compute. reflexivity. Qed.

(** ** The returned table is complete *)

Lemma extract_Ok_dropna (K : Kernels) data w :
  extractable data ->
  Z.pos w <= 9223372036 ->
  exists entries,
    extract_time_series_features K data w
    = Ok (dropna (DataFrame_of_dict entries (index data))) /\
    Forall (fun kv => length (snd kv) = index_len (index data)) entries /\
    dict_keys entries = feature_names (map fst (signals data)).
Proof.
  intros Hex Hw.
  destruct (extractable_frame K data w Hex Hw) as [entries [Hf [Hlen Hkeys]]].
  exists entries. split; [|split; assumption].
  unfold extract_time_series_features. rewrite Hf. reflexivity.
Qed.

Lemma Column_rows_len (kept : list nat) (c : Column) :
  column_len (Column_rows kept c) = length kept.
Proof. destruct c; cbn; unfold rows_of; apply length_map. Qed.

Lemma notna_rows (kept : list nat) (c : Column) (i k : nat) :
  nth_error kept i = Some k -> notna c k = true ->
  notna (Column_rows kept c) i = true.
Proof.
  intros Hk. destruct c as [v|v]; cbn [notna Column_rows];
    rewrite rows_of_nth_error, Hk; cbn.
  - destruct (nth_error v k) as [x|] eqn:Hx; [|discriminate].
    rewrite (nth_error_nth _ _ _ Hx). auto.
  - destruct (nth_error v k) as [[x|]|] eqn:Hx; try discriminate.
    rewrite (nth_error_nth _ _ _ Hx). auto.
Qed.

(** Every cell of a trimmed frame is defined, and every column covers
    every row. *)
Lemma dropna_complete (df : DataFrame) :
  well_formed df ->
  well_formed (dropna df) /\
  forall name c i,
    In (name, c) (columns (dropna df)) ->
    (i < index_len (index (dropna df)))%nat ->
    notna c i = true.
Proof.
  intros Hwf. pose proof (dropna_rows df Hwf) as [Hidx Hcols]. cbv zeta in Hidx, Hcols.
  pose proof (dropna_index_len df Hwf) as Hlen.
  set (kept := List.filter (row_complete df) (seq 0 (index_len (index df)))) in *.
  split.
  - unfold well_formed. rewrite Hcols, Hlen. apply List.Forall_forall.
    intros lc Hin. apply in_map_iff in Hin as [lc0 [<- _]]. cbn [snd].
    apply Column_rows_len.
  - intros name c i Hin Hi. rewrite Hcols in Hin. rewrite Hlen in Hi.
    apply in_map_iff in Hin as [[name0 c0] [Heq Hin]]. injection Heq as -> <-.
    destruct (nth_error kept i) as [k|] eqn:Hk; [|apply nth_error_None in Hk; lia].
    apply (notna_rows kept c0 i k Hk).
    apply nth_error_In, filter_In in Hk as [_ Hk].
    rewrite row_complete_spec in Hk. apply (Hk name c0 Hin).
Qed.

(** X2. The returned table has no undefined cell: every column is as
    long as the index, and no value in it is NaN. A table is returned on
    every table the extraction accepts, for every window size up to the
    longest Timedelta, 9223372036 seconds. *)
Theorem extract_output_is_complete (K : Kernels) (data : DataFrame)
    (window_size : positive) :
  extractable data ->
  Z.pos window_size <= 9223372036 ->
  exists out,
    extract_time_series_features K data window_size = Ok out /\
    (forall name c, In (name, c) (columns out) ->
       exists v, c = NumericColumn v /\
                 length v = index_len (index out) /\
                 forall x, In x v -> isnan x = false).
Proof.
  intros Hex Hw. destruct (extract_Ok_dropna K data window_size Hex Hw)
    as [entries [Hout [Hlen _]]].
  set (df := DataFrame_of_dict entries (index data)) in *.
  exists (dropna df). split; [exact Hout|].
  destruct (dropna_complete df (DataFrame_of_dict_wf entries (index data) Hlen))
    as [Hwf Hdef].
  intros name c Hin.
  assert (Hc : exists v, c = NumericColumn v).
  { destruct (dropna_rows df (DataFrame_of_dict_wf entries (index data) Hlen))
      as [_ Hcols]. cbv zeta in Hcols. rewrite Hcols in Hin.
    apply in_map_iff in Hin as [[n0 c0] [Heq Hin]]. injection Heq as _ <-.
    unfold df, DataFrame_of_dict in Hin. cbn [columns] in Hin.
    apply in_map_iff in Hin as [kv [Heq _]]. injection Heq as _ <-.
    cbn [Column_rows]. eauto. }
  destruct Hc as [v ->]. exists v. split; [reflexivity|].
  unfold well_formed in Hwf. rewrite List.Forall_forall in Hwf.
  pose proof (Hwf _ Hin) as Hv. cbn [snd column_len] in Hv. split; [exact Hv|].
  intros x Hx. apply In_nth_error in Hx as [i Hi].
  assert (Hlt : (i < index_len (index (dropna df)))%nat).
  { rewrite <- Hv. apply nth_error_Some. rewrite Hi. discriminate. }
  pose proof (Hdef name _ i Hin Hlt) as Hn. cbn [notna] in Hn. rewrite Hi in Hn.
  apply negb_true_iff. exact Hn.
Qed.

Lemma extract_output_is_complete_witness :
  exists out,
    extract_time_series_features Reference.kernels sample_vitals 5 = Ok out /\
    (forall name c, In (name, c) (columns out) ->
       exists v, c = NumericColumn v /\
                 length v = index_len (index out) /\
                 forall x, In x v -> isnan x = false).
Proof.
  apply (extract_output_is_complete Reference.kernels sample_vitals 5).
  - left. exists (seconds [0; 1; 2; 3; 4; 5; 6; 7]). reflexivity.
  - lia.
Defined.

(** ** Rows with a single sample *)

Lemma windows_nth_error (stamps : list Z) w (values : list float64) (i : nat) :
  (i < length stamps)%nat ->
  nth_error (windows stamps w values) i
  = Some (map (fun j => nth j (prep_values values) nan)
              (window_positions stamps (window_ns w) i)).
Proof.
  intros Hi. unfold windows. rewrite nth_error_map.
  assert (H : nth_error (seq 0 (length stamps)) i = Some i).
  { rewrite nth_error_nth' with (d := 0%nat) by (rewrite length_seq; exact Hi).
    rewrite seq_nth by exact Hi. reflexivity. }
  rewrite H. reflexivity.
Qed.

Lemma autocorr_short_window (K : Kernels) (x : list float64) :
  (length x < 2)%nat -> applied (autocorr_value K) x = nan.
Proof.
  intros H. unfold applied, autocorr_value.
  apply Nat.ltb_lt in H. rewrite H. destruct (1 <=? nobs x)%nat; reflexivity.
Qed.

Lemma forallb_false {A} (f : A -> bool) (l : list A) (a : A) :
  In a l -> f a = false -> forallb f l = false.
Proof.
  intros Hin Hf. destruct (forallb f l) eqn:H; [|reflexivity].
  rewrite forallb_forall in H. rewrite (H a Hin) in Hf. discriminate.
Qed.

Lemma filter_length_lt {A} (f : A -> bool) (l : list A) (a : A) :
  In a l -> f a = false -> (length (List.filter f l) < length l)%nat.
Proof.
  induction l as [|b l IH]; intros Hin Hf; [destruct Hin|].
  cbn [List.filter length]. pose proof (filter_length_le f l) as Hle.
  destruct Hin as [->|Hin].
  - rewrite Hf. lia.
  - specialize (IH Hin Hf). destruct (f b); cbn [length]; lia.
Qed.

(** The autocorrelation column of a signal, in the untrimmed frame. *)
Lemma autocorr_column (K : Kernels) data w stamps c v :
  In (c, v) (signals data) ->
  In (feature_name c "autocorr",
      NumericColumn (map (applied (autocorr_value K)) (windows stamps w v)))
     (columns (DataFrame_of_dict (features_of K stamps w (signals data)) (index data))).
Proof.
  intros Hcv. unfold DataFrame_of_dict. cbn [columns].
  apply in_map_iff.
  exists (feature_name c "autocorr", map (applied (autocorr_value K)) (windows stamps w v)).
  split; [reflexivity|].
  apply (signals_entries K stamps w (signals data) c v _ _ Hcv).
  unfold column_features, column_series, statistics. cbn [map combine In]. tauto.
Qed.

(** X3. A row whose window holds a single sample has no autocorrelation
    and is dropped; the first row is always such a row, so with a signal
    the returned table is strictly shorter than a table that has rows.
    The table lies on a monotonic time index, and the window size is at
    most 9223372036 seconds, the longest Timedelta. *)
Theorem extract_drops_single_sample_rows (K : Kernels) (data : DataFrame)
    (window_size : positive) (stamps : list Z) :
  rolling_stamps (index data) = Some stamps ->
  Z.pos window_size <= 9223372036 ->
  signals data <> [] ->
  exists features_df out,
    features_frame K data window_size = Ok features_df /\
    extract_time_series_features K data window_size = Ok out /\
    (forall i, (i < length stamps)%nat ->
       (length (window_positions stamps (window_ns window_size) i) < 2)%nat ->
       row_complete features_df i = false) /\
    (length (window_positions stamps (window_ns window_size) 0) < 2)%nat /\
    (stamps <> [] -> (index_len (index out) < length stamps)%nat).
Proof.
  intros Hidx Hw Hsig.
  set (entries := features_of K stamps window_size (signals data)).
  set (df := DataFrame_of_dict entries (index data)).
  assert (Hframe : features_frame K data window_size = Ok df)
    by (apply features_frame_signals; assumption).
  assert (Hn : index_len (index data) = length stamps).
  { unfold index_len. rewrite (rolling_stamps_values _ _ Hidx). reflexivity. }
  assert (Hwf : well_formed df).
  { apply DataFrame_of_dict_wf. rewrite Hn. apply features_of_lengths. }
  assert (Hlonely : forall i, (i < length stamps)%nat ->
            (length (window_positions stamps (window_ns window_size) i) < 2)%nat ->
            row_complete df i = false).
  { intros i Hi Hshort. destruct (signals data) as [|[c v] rest] eqn:Hs; [contradiction|].
    assert (Hcv : In (c, v) (signals data)) by (rewrite Hs; left; reflexivity).
    pose proof (autocorr_column K data window_size stamps c v Hcv) as Hcol.
    rewrite Hs in Hcol. fold entries in Hcol. fold df in Hcol.
    apply (forallb_false _ _ _ Hcol). cbn [snd notna].
    rewrite nth_error_map, (windows_nth_error stamps window_size v i Hi). cbn.
    rewrite autocorr_short_window; [reflexivity|]. rewrite length_map. exact Hshort. }
  assert (Hfirst : (length (window_positions stamps (window_ns window_size) 0) < 2)%nat).
  { unfold window_positions. cbn [seq].
    pose proof (filter_length_le
      (fun j => 0 <? (nth j stamps 0
                      - (nth 0 stamps 0
                         - index_growth_sign stamps * window_ns window_size))
                     * index_growth_sign stamps) [0%nat]) as H.
    cbn [length] in H. lia. }
  exists df, (dropna df). split; [exact Hframe|]. split.
  { unfold extract_time_series_features. rewrite Hframe. reflexivity. }
  split; [exact Hlonely|]. split; [exact Hfirst|].
  intros Hne. rewrite (dropna_index_len df Hwf).
  change (index df) with (index data). rewrite Hn.
  assert (H0 : (0 < length stamps)%nat) by (destruct stamps; [contradiction|cbn; lia]).
  pose proof (filter_length_lt (row_complete df) (seq 0 (length stamps)) 0%nat) as Hlt.
  rewrite length_seq in Hlt. apply Hlt.
  - apply in_seq. lia.
  - apply Hlonely; assumption.
Qed.

Lemma extract_drops_single_sample_rows_witness :
  exists features_df out,
    features_frame Reference.kernels sample_irregular 5 = Ok features_df /\
    extract_time_series_features Reference.kernels sample_irregular 5 = Ok out /\
    (forall i, (i < length irregular_stamps)%nat ->
       (length (window_positions irregular_stamps (window_ns 5) i) < 2)%nat ->
       row_complete features_df i = false) /\
    (length (window_positions irregular_stamps (window_ns 5) 0) < 2)%nat /\
    (irregular_stamps <> [] -> (index_len (index out) < length irregular_stamps)%nat).
Proof.
  apply (extract_drops_single_sample_rows Reference.kernels sample_irregular 5
           irregular_stamps).
  - reflexivity.
  - lia.
  - discriminate.
Defined.

(** In the irregular sample the rows after the gaps stand alone in their
    windows: only the fourth row is kept. *)
Example sample_irregular_rows :
  (fun out => index_values (index out))
    <$> extract_time_series_features Reference.kernels sample_irregular 5
  = Ok (seconds [3]).
Proof. vm_compute. reflexivity. Qed.

(** ** Looking the derived columns up *)

Lemma dropna_of_dict_columns (entries : dict (list float64)) (idx : Index) :
  Forall (fun kv => length (snd kv) = index_len idx) entries ->
  let df := DataFrame_of_dict entries idx in
  let kept := List.filter (row_complete df) (seq 0 (index_len idx)) in
  columns (dropna df)
  = map (fun kv => (fst kv, NumericColumn (rows_of kept nan (snd kv)))) entries.
Proof.
  intros Hlen df kept.
  destruct (dropna_rows df (DataFrame_of_dict_wf entries idx Hlen)) as [_ Hcols].
  cbv zeta in Hcols. rewrite Hcols. unfold df, DataFrame_of_dict. cbn [columns].
  rewrite map_map. reflexivity.
Qed.

Lemma feature_names_length (cs : list string) :
  length (feature_names cs) = (12 * length cs)%nat.
Proof.
  unfold feature_names. induction cs as [|c cs IH]; [reflexivity|].
  cbn [flat_map]. rewrite length_app, IH, length_map. cbn [length statistics]. lia.
Qed.

Lemma getitem_missing (data : DataFrame) (label : string) :
  ~ In label (column_labels data) -> getitem data label = Raise KeyError.
Proof.
  intros Hno. unfold getitem.
  destruct (List.filter _ (columns data)) as [|lc l] eqn:Hf; [reflexivity|].
  exfalso. apply Hno.
  assert (Hin : In lc (List.filter (fun lc => String.eqb (fst lc) label) (columns data)))
    by (rewrite Hf; left; reflexivity).
  apply filter_In in Hin as [Hin Heq]. apply String.eqb_eq in Heq. subst label.
  apply in_map. exact Hin.
Qed.

(** X4. The labels of the returned table are pairwise distinct, twelve
    for every signal; looking up the label of a signal and a statistic
    gives one Series, and any other label raises [KeyError]. A table is
    returned on every table the extraction accepts, for every window
    size up to the longest Timedelta, 9223372036 seconds. *)
Theorem extract_columns_lookup (K : Kernels) (data : DataFrame)
    (window_size : positive) :
  extractable data ->
  Z.pos window_size <= 9223372036 ->
  exists out,
    extract_time_series_features K data window_size = Ok out /\
    List.NoDup (column_labels out) /\
    length (columns out) = (12 * length (signals data))%nat /\
    (forall c stat,
       In c (map fst (signals data)) -> In stat statistics ->
       exists v, getitem out (feature_name c stat) = Ok (SelSeries (NumericColumn v)) /\
                 length v = index_len (index out)) /\
    (forall label,
       (forall c stat, In c (map fst (signals data)) -> In stat statistics ->
                       label <> feature_name c stat) ->
       getitem out label = Raise KeyError).
Proof.
  intros Hex Hw. destruct (extract_Ok_dropna K data window_size Hex Hw)
    as [entries [Hout [Hlen Hkeys]]].
  set (df := DataFrame_of_dict entries (index data)) in *.
  pose proof (dropna_of_dict_columns entries (index data) Hlen) as Hcols.
  cbv zeta in Hcols. fold df in Hcols.
  set (kept := List.filter (row_complete df) (seq 0 (index_len (index data)))) in *.
  assert (Hlabels : column_labels (dropna df) = feature_names (map fst (signals data))).
  { unfold column_labels. rewrite Hcols, map_map. cbn [fst]. exact Hkeys. }
  assert (Hnd : List.NoDup (column_labels (dropna df))).
  { rewrite Hlabels. apply NoDup_feature_names, NoDup_signals. }
  exists (dropna df). split; [exact Hout|]. split; [exact Hnd|].
  split; [|split].
  - rewrite <- (length_map fst). fold (column_labels (dropna df)).
    rewrite Hlabels, feature_names_length, length_map. reflexivity.
  - intros c stat Hc Hstat.
    assert (Hin : In (feature_name c stat) (dict_keys entries)).
    { rewrite Hkeys. apply in_feature_names. eauto. }
    apply in_map_iff in Hin as [[k s] [Hk Hin]]. cbn [fst] in Hk. subst k.
    exists (rows_of kept nan s). split.
    + unfold getitem. rewrite (filter_unique_label _ _ (NumericColumn (rows_of kept nan s))).
      * reflexivity.
      * exact Hnd.
      * rewrite Hcols. apply in_map_iff. exists (feature_name c stat, s). auto.
    + unfold rows_of. rewrite length_map.
      rewrite (dropna_index_len df (DataFrame_of_dict_wf entries (index data) Hlen)).
      reflexivity.
  - intros label Hother. apply getitem_missing. rewrite Hlabels.
    intros Hin. apply in_feature_names in Hin as [c [stat [Hc [Hs Heq]]]].
    apply (Hother c stat Hc Hs Heq).
Qed.

Lemma extract_columns_lookup_witness :
  exists out,
    extract_time_series_features Reference.kernels sample_vitals 5 = Ok out /\
    List.NoDup (column_labels out) /\
    length (columns out) = (12 * length (signals sample_vitals))%nat /\
    (forall c stat,
       In c (map fst (signals sample_vitals)) -> In stat statistics ->
       exists v, getitem out (feature_name c stat) = Ok (SelSeries (NumericColumn v)) /\
                 length v = index_len (index out)) /\
    (forall label,
       (forall c stat, In c (map fst (signals sample_vitals)) -> In stat statistics ->
                       label <> feature_name c stat) ->
       getitem out label = Raise KeyError).
Proof.
  apply (extract_columns_lookup Reference.kernels sample_vitals 5).
  - left. exists (seconds [0; 1; 2; 3; 4; 5; 6; 7]). reflexivity.
  - lia.
Defined.

(** ** One constant signal among several *)

(** X5. The trimming is joint: when one signal of a table is constant,
    its autocorrelation is NaN in every row and the returned table has no
    row, whatever the other signals are. The table lies on a monotonic
    time index, and the window size is at most 9223372036 seconds, the
    longest Timedelta. *)
Theorem constant_signal_empties_every_table (K : Kernels) (data : DataFrame)
    (window_size : positive) (stamps : list Z) (c : string) (v : list float64) :
  rolling_stamps (index data) = Some stamps ->
  Z.pos window_size <= 9223372036 ->
  In (c, v) (signals data) ->
  length v = length stamps ->
  (forall a b, In a v -> In b v -> a = b \/ float_eq a b = true) ->
  exists out,
    extract_time_series_features K data window_size = Ok out /\
    index_values (index out) = [] /\
    length (columns out) = (12 * length (signals data))%nat /\
    (forall l col, In (l, col) (columns out) -> column_len col = 0%nat).
Proof.
  intros Hidx Hw Hcv Hlen Hconst.
  set (entries := features_of K stamps window_size (signals data)).
  set (df := DataFrame_of_dict entries (index data)).
  assert (Hn : index_len (index data) = length stamps).
  { unfold index_len. rewrite (rolling_stamps_values _ _ Hidx). reflexivity. }
  assert (Hlens : Forall (fun kv => length (snd kv) = index_len (index data)) entries).
  { rewrite Hn. apply features_of_lengths. }
  assert (Hkept : List.filter (row_complete df) (seq 0 (index_len (index data))) = []).
  { apply filter_none. intros i Hi. apply in_seq in Hi.
    apply (forallb_false _ _ _ (autocorr_column K data window_size stamps c v Hcv)).
    cbn [snd notna]. rewrite nth_error_map.
    rewrite (windows_nth_error stamps window_size v i) by lia. cbn.
    rewrite (constant_window_autocorr K v _ Hconst); [reflexivity|].
    apply (window_samples stamps window_size v _ Hlen).
    apply (nth_error_In _ i). apply windows_nth_error. lia. }
  destruct (dropna_rows df (DataFrame_of_dict_wf entries (index data) Hlens))
    as [Hi Hc]. cbv zeta in Hi, Hc. change (index df) with (index data) in Hi, Hc.
  rewrite Hkept in Hi, Hc.
  exists (dropna df). split; [|split; [exact Hi|split]].
  - unfold extract_time_series_features.
    rewrite (features_frame_signals K data window_size stamps Hidx Hw). reflexivity.
  - rewrite Hc, length_map. unfold df, DataFrame_of_dict. cbn [columns].
    rewrite length_map, <- (length_map fst). fold (dict_keys entries).
    unfold entries. rewrite features_of_keys, feature_names_length, length_map.
    reflexivity.
  - intros l col Hin. rewrite Hc in Hin. apply in_map_iff in Hin as [[l' c'] [Heq _]].
    injection Heq as _ <-. destruct c'; reflexivity.
Qed.

Lemma constant_signal_empties_every_table_witness :
  exists out,
    extract_time_series_features Reference.kernels sample_with_constant 5 = Ok out /\
    index_values (index out) = [] /\
    length (columns out) = (12 * length (signals sample_with_constant))%nat /\
    (forall l col, In (l, col) (columns out) -> column_len col = 0%nat).
Proof.
  apply (constant_signal_empties_every_table Reference.kernels sample_with_constant 5
           (seconds [0; 1; 2; 3; 4; 5]) "spo2" (floats [98; 98; 98; 98; 98; 98])).
  - reflexivity.
  - lia.
  - right. left. reflexivity.
  - reflexivity.
  - intros a b Ha Hb. left.
    change (floats [98; 98; 98; 98; 98; 98])
      with (replicate 6 (Reference.of_Z 98)) in Ha, Hb.
    rewrite (in_replicate _ _ _ Ha), (in_replicate _ _ _ Hb). reflexivity.
Defined.

(** ** Which columns are signals *)

Lemma NoDup_filter_labels (f : string * Column -> bool) (cols : list (string * Column)) :
  List.NoDup (map fst cols) -> List.NoDup (map fst (List.filter f cols)).
Proof.
  induction cols as [|lc cols IH]; cbn [map List.filter]; intros H; [constructor|].
  apply NoDup_cons_iff in H as [Hnotin H].
  destruct (f lc); [|apply IH; exact H].
  cbn [map]. constructor; [|apply IH; exact H].
  intros Hin. apply Hnotin. apply in_map_iff in Hin as [lc' [Heq Hin]].
  apply filter_In in Hin as [Hin _]. rewrite <- Heq. apply in_map. exact Hin.
Qed.

Lemma signals_of_unique (data : DataFrame) (cols : list (string * Column)) :
  List.NoDup (column_labels data) ->
  (forall lc, In lc cols -> In lc (columns data)) ->
  signals_of data (map fst cols) = numeric_columns cols.
Proof.
  intros Hnd. induction cols as [|[l col] cols IH]; intros Hin; [reflexivity|].
  cbn [map fst signals_of numeric_columns flat_map snd].
  assert (Hget : numeric_values data l
                 = match col with NumericColumn v => Some v | ObjectColumn _ => None end).
  { unfold numeric_values, getitem.
    rewrite (filter_unique_label (columns data) l col Hnd)
      by (apply Hin; left; reflexivity).
    reflexivity. }
  rewrite Hget, IH by (intros lc Hlc; apply Hin; right; exact Hlc).
  destruct col; reflexivity.
Qed.

Lemma numeric_columns_filter (cols : list (string * Column)) :
  numeric_columns (List.filter is_numeric_column cols) = numeric_columns cols.
Proof.
  unfold numeric_columns. induction cols as [|[l col] cols IH]; [reflexivity|].
  cbn [List.filter]. unfold is_numeric_column at 1. cbn [snd].
  destruct col; cbn [flat_map snd fst app]; rewrite IH; reflexivity.
Qed.

(** The result depends on the table through its index and its signals. *)
Lemma extract_depends_on_signals (K : Kernels) (d1 d2 : DataFrame) w :
  index d1 = index d2 -> signals d1 = signals d2 ->
  extract_time_series_features K d1 w = extract_time_series_features K d2 w.
Proof.
  intros Hidx Hsig. unfold extract_time_series_features.
  rewrite !features_frame_store, Hidx, Hsig. reflexivity.
Qed.

(** X6. On a table whose labels are distinct the signals are exactly the
    numeric columns, in column order, and the columns of another dtype
    have no effect: leaving them out gives the same result (the same
    table, or the same exception). *)
Theorem non_numeric_columns_have_no_effect (K : Kernels) (data : DataFrame)
    (window_size : positive) :
  List.NoDup (column_labels data) ->
  signals data = numeric_columns (columns data) /\
  extract_time_series_features K (numeric_only data) window_size
  = extract_time_series_features K data window_size.
Proof.
  intros Hnd.
  assert (Hsig : signals data = numeric_columns (columns data)).
  { unfold signals, column_labels. apply signals_of_unique; auto. }
  split; [exact Hsig|].
  apply extract_depends_on_signals; [reflexivity|].
  rewrite Hsig. unfold signals, column_labels.
  rewrite signals_of_unique.
  - apply numeric_columns_filter.
  - unfold column_labels, numeric_only. cbn [columns].
    apply NoDup_filter_labels. exact Hnd.
  - auto.
Qed.

Lemma non_numeric_columns_have_no_effect_witness :
  signals sample_vitals = numeric_columns (columns sample_vitals) /\
  extract_time_series_features Reference.kernels (numeric_only sample_vitals) 5
  = extract_time_series_features Reference.kernels sample_vitals 5.
Proof.
  apply (non_numeric_columns_have_no_effect Reference.kernels sample_vitals 5).
  repeat (constructor; [cbn; intuition discriminate|]). constructor.
Defined.

(** X7. A label that stands over more than one column selects a frame,
    which has no numeric dtype: none of these columns is a signal, and
    the returned table has no column derived from them. A table is
    returned on every table the extraction accepts, for every window
    size up to the longest Timedelta, 9223372036 seconds. *)
Theorem repeated_label_is_skipped (K : Kernels) (data : DataFrame)
    (window_size : positive) (c : string) :
  extractable data ->
  Z.pos window_size <= 9223372036 ->
  (2 <= count_occ string_dec (column_labels data) c)%nat ->
  is_signal data c = false /\
  exists out,
    extract_time_series_features K data window_size = Ok out /\
    forall stat, In stat statistics ->
      ~ In (feature_name c stat) (column_labels out) /\
      getitem out (feature_name c stat) = Raise KeyError.
Proof.
  intros Hex Hw Hocc.
  assert (Hnot : numeric_values data c = None).
  { destruct (numeric_values data c) as [v|] eqn:Hv; [|reflexivity].
    rewrite (numeric_values_unique data c v Hv) in Hocc. lia. }
  split; [unfold is_signal; rewrite Hnot; reflexivity|].
  destruct (extract_Ok_dropna K data window_size Hex Hw)
    as [entries [Hout [Hlen Hkeys]]].
  exists (dropna (DataFrame_of_dict entries (index data))). split; [exact Hout|].
  intros stat Hstat.
  assert (Hno : ~ In (feature_name c stat)
                     (column_labels (dropna (DataFrame_of_dict entries (index data))))).
  { rewrite dropna_labels. unfold column_labels, DataFrame_of_dict. cbn [columns].
    rewrite map_map. cbn [fst].
    change (map (fun kv => fst kv) entries) with (dict_keys entries). rewrite Hkeys.
    intros Hin. apply in_feature_names in Hin as [c' [stat' [Hc' [Hs' Heq]]]].
    destruct (feature_name_inj c c' stat stat' Hstat Hs' Heq) as [<- _].
    destruct (signals_of_labels _ _ _ Hc') as [_ [v Hv]]. congruence. }
  split; [exact Hno|apply getitem_missing; exact Hno].
Qed.

Lemma repeated_label_is_skipped_witness :
  is_signal sample_repeated_label "hr" = false /\
  exists out,
    extract_time_series_features Reference.kernels sample_repeated_label 5 = Ok out /\
    forall stat, In stat statistics ->
      ~ In (feature_name "hr" stat) (column_labels out) /\
      getitem out (feature_name "hr" stat) = Raise KeyError.
Proof.
  apply (repeated_label_is_skipped Reference.kernels sample_repeated_label 5 "hr").
  - left. exists (seconds [0; 1; 2; 3; 4; 5]). reflexivity.
  - lia.
  - vm_compute. lia.
Defined.

Example sample_repeated_label_columns :
  column_labels <$> extract_time_series_features Reference.kernels sample_repeated_label 5
  = Ok (map (feature_name "temp") statistics).
Proof. vm_compute. reflexivity. Qed.

(** ** The shape of a window *)



(** ** Regular sampling *)

Lemma filter_from (lo n : nat) :
  List.filter (fun j => (lo <=? j)%nat) (seq 0 n) = seq lo (n - lo).
Proof.
  induction n as [|n IH]; [reflexivity|].
  rewrite seq_S, List.filter_app, IH. cbn [List.filter Nat.add].
  destruct (Nat.leb_spec lo n) as [Hle|Hgt].
  - replace (S n - lo)%nat with (S (n - lo)) by lia.
    rewrite seq_S. replace (lo + (n - lo))%nat with n by lia. reflexivity.
  - replace (S n - lo)%nat with 0%nat by lia.
    replace (n - lo)%nat with 0%nat by lia. reflexivity.
Qed.

Lemma regular_stamps_nth (t0 : Z) (period : positive) (n j : nat) :
  (j < n)%nat ->
  nth j (regular_stamps t0 period n) 0
  = t0 + Z.of_nat j * (Z.pos period * 1000000000).
Proof.
  intros Hj. unfold regular_stamps.
  set (f := fun k => t0 + Z.of_nat k * (Z.pos period * 1000000000)).
  transitivity (nth j (map f (seq 0 n)) (f 0%nat)).
  - apply nth_indep. rewrite length_map, length_seq. exact Hj.
  - rewrite (map_nth f), seq_nth by exact Hj. reflexivity.
Qed.

Lemma progression_monotonic (t0 step : Z) (s n : nat) :
  0 <= step ->
  is_monotonic_increasing (map (fun k => t0 + Z.of_nat k * step) (seq s n)) = true.
Proof.
  intros Hstep. revert s. induction n as [|n IH]; intros s; [reflexivity|].
  cbn [seq map]. specialize (IH (S s)).
  destruct n as [|n]; [reflexivity|].
  cbn [seq map] in *. cbn [is_monotonic_increasing].
  apply andb_true_iff. split; [apply Z.leb_le; nia|exact IH].
Qed.

(** X9. Under regular sampling the window of a row is the block of the
    last [ceil(window_size / period)] rows, shorter only at the start of
    the table: at 1 Hz a window of 60 seconds holds 60 samples from the
    60th row on. *)
Theorem regular_sampling_window (t0 : Z) (period window_size : positive) (n i : nat) :
  (i < n)%nat ->
  window_positions (regular_stamps t0 period n) (window_ns window_size) i
  = seq (S i - samples_per_window window_size period)
        (Nat.min (S i) (samples_per_window window_size period)).
Proof.
  intros Hi.
  set (m := samples_per_window window_size period).
  assert (Hq : 0 <= (Z.pos window_size - 1) / Z.pos period)
    by (apply Z.div_pos; lia).
  replace (Nat.min (S i) m) with (S i - (S i - m))%nat by lia.
  rewrite <- filter_from. unfold window_positions.
  rewrite growth_sign_increasing
    by (apply progression_monotonic; lia).
  apply filter_ext_in. intros j Hj. apply in_seq in Hj.
  rewrite !regular_stamps_nth by lia. unfold window_ns.
  set (P := Z.pos period) in *. set (W := Z.pos window_size) in *.
  assert (HP : 0 < P) by (unfold P; lia).
  assert (Hdiv : forall d, 0 <= d -> (d * P < W <-> d <= (W - 1) / P)).
  { intros d Hd. split; intros H.
    - apply Z.div_le_lower_bound; [exact HP|lia].
    - pose proof (Z.mul_div_le (W - 1) P HP). nia. }
  specialize (Hdiv (Z.of_nat i - Z.of_nat j) ltac:(lia)).
  destruct (Z.ltb_spec 0 ((t0 + Z.of_nat j * (P * 1000000000)
                            - (t0 + Z.of_nat i * (P * 1000000000)
                               - 1 * (W * 1000000000))) * 1)) as [Hin|Hout];
    symmetry; [apply Nat.leb_le|apply Nat.leb_gt].
  - assert (H : (Z.of_nat i - Z.of_nat j) * P < W) by nia.
    apply Hdiv in H. unfold m, samples_per_window. fold P W. lia.
  - assert (H : ~ (Z.of_nat i - Z.of_nat j) * P < W) by nia.
    rewrite Hdiv in H. unfold m, samples_per_window. fold P W. lia.
Qed.

Lemma regular_sampling_window_witness :
  window_positions (regular_stamps 0 1 120) (window_ns 60) 100
  = seq (S 100 - samples_per_window 60 1)
        (Nat.min (S 100) (samples_per_window 60 1)).
Proof.
  apply (regular_sampling_window 0 1 60 120 100). lia.
Defined.

Example one_hertz_window :
  samples_per_window 60 1 = 60%nat /\
  length (window_positions (regular_stamps 0 1 120) (window_ns 60) 30) = 31%nat /\
  length (window_positions (regular_stamps 0 1 120) (window_ns 60) 100) = 60%nat.
Proof. repeat split; vm_compute; reflexivity. Qed.

(** * Further properties of the model fitting *)

(** ** Paths *)

Lemma dirname_join (dir name : string) :
  has_char slash name = false ->
  dirname (dir ++ String slash name) = dir.
Proof.
  intros Hname. induction dir as [|a dir IH]; rewrite ?append_empty, ?append_cons;
    cbn [dirname].
  - rewrite Hname. reflexivity.
  - rewrite has_char_app, IH. reflexivity.
Qed.

Lemma dirname_length (path : string) :
  (String.length (dirname path) <= String.length path)%nat.
Proof.
  induction path as [|a path IH]; cbn [dirname String.length]; [lia|].
  destruct (has_char slash path); cbn [String.length]; lia.
Qed.





(** ** Running a call forwards *)

Lemma IO_bind_Ok {A B} (m : IO A) (f : A -> IO B) (w w1 : World) (a : A) :
  m w = (Ok a, w1) -> mbind f m w = f a w1.
Proof. intros H. unfold mbind, IO_bind. rewrite H. reflexivity. Qed.


Lemma os_makedirs_raise (name : string) (w w1 : World) (e : exn) :
  os_makedirs name w = (Raise e, w1) -> w1 = w.
Proof.
  unfold os_makedirs.
  repeat match goal with
         | |- context [if ?c then _ else _] => destruct c
         end; intros [= ]; subst; reflexivity.
Qed.

Lemma os_makedirs_ok (name : string) (w : World) :
  name <> ""%string ->
  name ∈ dirs w \/
  (files w !! name = None /\ forall a, In a (ancestors name) -> files w !! a = None) ->
  os_makedirs name w
  = (Ok (), mkWorld (if bool_decide (name ∈ dirs w) then dirs w
                     else dirs w ∪ list_to_set (name :: ancestors name))
                    (files w) (figures w)).
Proof.
  intros Hne Hfree. unfold os_makedirs.
  destruct (String.eqb_spec name "") as [Heq|_]; [contradiction|].
  destruct (bool_decide_reflect (name ∈ dirs w)) as [Hin|Hout].
  - destruct w; reflexivity.
  - destruct Hfree as [Hin|[Hfile Hanc]]; [contradiction|].
    rewrite bool_decide_eq_false_2 by (rewrite Hfile; apply is_Some_None).
    assert (Hex : existsb (fun a => bool_decide (is_Some (files w !! a))) (ancestors name)
                  = false).
    { destruct (existsb _ (ancestors name)) eqn:H; [|reflexivity].
      apply existsb_exists in H as [a [Ha Hsome]].
      apply bool_decide_eq_true in Hsome. rewrite (Hanc a Ha) in Hsome.
      destruct (is_Some_None Hsome). }
    rewrite Hex. reflexivity.
Qed.

Lemma plt_plot_ok accepts x y color label ds fs fig others :
  index_len x = length y ->
  accepts (Line x y color label) = Ok () ->
  plt_plot accepts x y color label (mkWorld ds fs (fig :: others))
  = (Ok (), mkWorld ds fs ((fig ++ [(None, Line x y color label)]) :: others)).
Proof.
  intros H Hd. unfold plt_plot. rewrite (proj2 (Nat.eqb_eq _ _) H).
  apply draw_ok. exact Hd.
Qed.

Lemma plt_fill_between_ok accepts x y1 y2 color label ds fs fig others :
  index_len x = length y1 -> index_len x = length y2 ->
  accepts (FillBetween x y1 y2 color label) = Ok () ->
  plt_fill_between accepts x y1 y2 color label (mkWorld ds fs (fig :: others))
  = (Ok (), mkWorld ds fs ((fig ++ [(None, FillBetween x y1 y2 color label)]) :: others)).
Proof.
  intros H1 H2 Hd. unfold plt_fill_between.
  rewrite (proj2 (Nat.eqb_eq _ _) H1), (proj2 (Nat.eqb_eq _ _) H2).
  apply draw_ok. exact Hd.
Qed.

Lemma plt_savefig_ok (dir name : string) ds fs fig others :
  has_char slash name = false ->
  dir ∈ ds -> (dir ++ String slash name)%string ∉ ds ->
  plt_savefig (dir ++ String slash name) (mkWorld ds fs (fig :: others))
  = (Ok (), mkWorld ds (<[(dir ++ String slash name)%string := fig]> fs) (fig :: others)).
Proof.
  intros Hname Hdir Hfile. unfold plt_savefig. cbn [dirs files figures hd].
  rewrite bool_decide_eq_false_2 by exact Hfile.
  rewrite (dirname_join dir name Hname).
  rewrite (bool_decide_eq_true_2 _ Hdir), orb_true_r. reflexivity.
Qed.

(** One call of a sequence, run forwards. *)
Ltac run_ok :=
  erewrite IO_bind_Ok;
  [| first
       [ apply plt_figure_eq
       | apply draw_ok; assumption
       | apply plt_close_eq
       | apply plt_plot_ok; assumption
       | apply plt_fill_between_ok; assumption
       | match goal with
         | H : _ = Ok _ |- lift _ _ = _ => unfold lift; rewrite H; reflexivity
         end ] ];
  cbv beta; cbn [dirs files figures app].

(** The world a call leaves when every step goes through. *)
Lemma build_arima_model_run (L : Statsmodels) (series : Series)
    (order : nat * nat * nat) (output_dir : string) (w : World)
    (model_fit : ARIMAResults L) (acf_bars pacf_bars : Drawing)
    (forecast : PredictionResults L) (fi : Index) (ds : gset string) :
  os_makedirs output_dir w = (Ok (), mkWorld ds (files w) (figures w)) ->
  output_dir ∈ ds ->
  (output_dir ++ "/model_fit.png")%string ∉ ds ->
  (output_dir ++ "/residuals_diagnostics.png")%string ∉ ds ->
  (output_dir ++ "/forecast.png")%string ∉ ds ->
  index_len (s_index series) = length (s_values series) ->
  ARIMA_fit L series order = Ok model_fit ->
  index_len (s_index (fittedvalues L model_fit))
  = length (s_values (fittedvalues L model_fit)) ->
  plot_acf L (resid L model_fit) = Ok acf_bars ->
  plot_pacf L (resid L model_fit) = Ok pacf_bars ->
  get_forecast L model_fit forecast_steps = Ok forecast ->
  forecast_index series = Ok fi ->
  index_len fi = length (predicted_mean L forecast) ->
  index_len fi = length (fst (conf_int L forecast)) ->
  index_len fi = length (snd (conf_int L forecast)) ->
  drawable L (fit_figure L series order model_fit) ->
  drawable L (diagnostics_figure L model_fit acf_bars pacf_bars) ->
  drawable L (forecast_figure L series order forecast fi) ->
  build_arima_model L series order output_dir w
  = (Ok model_fit,
     mkWorld ds
       (<[(output_dir ++ "/forecast.png")%string :=
            forecast_figure L series order forecast fi]>
          (<[(output_dir ++ "/residuals_diagnostics.png")%string :=
               diagnostics_figure L model_fit acf_bars pacf_bars]>
             (<[(output_dir ++ "/model_fit.png")%string :=
                  fit_figure L series order model_fit]> (files w))))
       (figures w)).
Proof.
  intros Hmk Hdir Hp1 Hp2 Hp3 Hlen Hfit Hfitted Hacf Hpacf Hfc Hfi Hfilen Hlo Hhi
    Hd1 Hd2 Hd3.
  unfold drawable, fit_figure, diagnostics_figure, forecast_figure in Hd1, Hd2, Hd3.
  repeat match goal with
         | H : Forall _ (_ :: _) |- _ => apply List.Forall_cons_iff in H as [? H]
         end.
  cbn [snd] in *.
  unfold build_arima_model.
  rewrite (IO_bind_Ok _ _ _ _ _ Hmk). cbv beta.
  do 7 run_ok.
  rewrite (IO_bind_Ok _ _ _ _ _
             (plt_savefig_ok output_dir "model_fit.png" _ _ _ _ eq_refl Hdir Hp1)).
  cbv beta. do 13 run_ok.
  rewrite (IO_bind_Ok _ _ _ _ _
             (plt_savefig_ok output_dir "residuals_diagnostics.png" _ _ _ _
                eq_refl Hdir Hp2)).
  cbv beta. do 10 run_ok.
  rewrite (IO_bind_Ok _ _ _ _ _
             (plt_savefig_ok output_dir "forecast.png" _ _ _ _ eq_refl Hdir Hp3)).
  cbv beta. run_ok. reflexivity.
Qed.


(** ** When the call returns *)



(** A drawing call that is refused ends the call where it stands: on a
    series of one observation, with a library whose line plots refuse a
    single unlabelled point, the fit succeeds, the fit plot is saved, and
    the call raises with the diagnostics figure left open and not
    saved. *)
Example residual_plot_refused :
  let run := build_arima_model library_strict_plots series_single (1, 1, 1)%nat
               "plots" world_with_plots in
  fst run = Raise TypeError /\
  length (figures (snd run)) = 1%nat /\
  files (snd run) !! "plots/model_fit.png"%string
  = Some (fit_figure library_strict_plots series_single (1, 1, 1)%nat series_single) /\
  files (snd run) !! "plots/residuals_diagnostics.png"%string = None.
Proof. cbv zeta. repeat split; vm_compute; reflexivity. Qed.

(** ** When a library call fails *)





(** ** What no call does *)

Lemma triple_bind {A B} (P : World -> Prop) (m : IO A) (f : A -> IO B)
    (Q : A -> World -> Prop) (R : B -> World -> Prop) (E : World -> Prop) :
  triple P m Q E -> (forall a, triple (Q a) (f a) R E) -> triple P (mbind f m) R E.
Proof.
  intros Hm Hf w HP. specialize (Hm w HP). unfold mbind, IO_bind.
  destruct (m w) as [[a|e] w1]; [apply (Hf a w1 Hm)|exact Hm].
Qed.

Lemma triple_ret {A} (P : World -> Prop) (a : A) (E : World -> Prop) :
  triple P (mret a) (fun _ => P) E.
Proof. intros w HP. exact HP. Qed.

Section Frame.

Variables (output_dir : string) (w0 : World).

Let passing (w : World) : Prop :=
  inside output_dir w0 0 w \/ inside output_dir w0 1 w.

Lemma triple_lift {A} (r : result A) (n : nat) :
  (n <= 1)%nat ->
  triple (inside output_dir w0 n) (lift r) (fun _ => inside output_dir w0 n) passing.
Proof.
  intros Hn w HP. unfold lift. destruct r as [a|e]; [exact HP|].
  destruct n as [|[|n]]; [left|right|lia]; exact HP.
Qed.

Lemma triple_makedirs :
  triple (inside output_dir w0 0) (os_makedirs output_dir)
         (fun _ => inside output_dir w0 0) passing.
Proof.
  intros w HP. destruct (os_makedirs output_dir w) as [[u|e] w1] eqn:Hmk.
  - apply os_makedirs_inv in Hmk as [_ ->].
    destruct HP as (Hd & Hf & Hfig). split; [|split; assumption].
    cbn [dirs]. destruct (bool_decide (output_dir ∈ dirs w)); [exact Hd|].
    etransitivity; [exact Hd|apply union_subseteq_l].
  - apply os_makedirs_raise in Hmk as ->. left. exact HP.
Qed.

Lemma triple_figure :
  triple (inside output_dir w0 0) plt_figure (fun _ => inside output_dir w0 1) passing.
Proof.
  intros w (Hd & Hf & opened & Hlen & Hfig). cbn.
  split; [exact Hd|]. split; [exact Hf|].
  exists [[]]. split; [reflexivity|].
  destruct opened; [|discriminate]. rewrite Hfig. reflexivity.
Qed.

Lemma triple_draw accepts ax d :
  triple (inside output_dir w0 1) (draw accepts ax d)
         (fun _ => inside output_dir w0 1) passing.
Proof.
  intros w HP. unfold draw. destruct (accepts d) as [u|e]; [|right; exact HP].
  destruct HP as (Hd & Hf & opened & Hlen & Hfig).
  destruct opened as [|fig [|g opened]]; try discriminate.
  rewrite Hfig. cbn.
  split; [exact Hd|]. split; [exact Hf|].
  exists [fig ++ [(ax, d)]]. split; reflexivity.
Qed.

Lemma triple_plot accepts x y color label :
  triple (inside output_dir w0 1) (plt_plot accepts x y color label)
         (fun _ => inside output_dir w0 1) passing.
Proof.
  unfold plt_plot. destruct (index_len x =? length y)%nat.
  - apply triple_draw.
  - intros w HP. right. exact HP.
Qed.

Lemma triple_fill_between accepts x y1 y2 color label :
  triple (inside output_dir w0 1) (plt_fill_between accepts x y1 y2 color label)
         (fun _ => inside output_dir w0 1) passing.
Proof.
  unfold plt_fill_between.
  destruct ((index_len x =? length y1)%nat && (index_len x =? length y2)%nat).
  - apply triple_draw.
  - intros w HP. right. exact HP.
Qed.

Lemma triple_savefig (name : string) :
  In name plot_names ->
  triple (inside output_dir w0 1) (plt_savefig (output_dir ++ name))
         (fun _ => inside output_dir w0 1) passing.
Proof.
  intros Hname w HP. unfold plt_savefig.
  destruct (bool_decide _); [right; exact HP|].
  destruct (_ || _); [|right; exact HP].
  destruct HP as (Hd & Hf & opened & Hlen & Hfig).
  destruct opened as [|fig [|g opened]]; try discriminate.
  rewrite Hfig. cbn [dirs files figures hd app inside].
  split; [exact Hd|]. split.
  - intros path Hpath. cbn [files].
    rewrite lookup_insert_ne by (apply not_eq_sym, Hpath, Hname).
    apply Hf. exact Hpath.
  - exists [fig]. split; reflexivity.
Qed.

Lemma triple_close :
  triple (inside output_dir w0 1) plt_close (fun _ => inside output_dir w0 0) passing.
Proof.
  intros w (Hd & Hf & opened & Hlen & Hfig).
  destruct opened as [|fig [|g opened]]; try discriminate.
  unfold plt_close. rewrite Hfig. cbn.
  split; [exact Hd|]. split; [exact Hf|]. exists []. split; reflexivity.
Qed.

Lemma triple_build (L : Statsmodels) (series : Series) (order : nat * nat * nat) :
  triple (inside output_dir w0 0) (build_arima_model L series order output_dir)
         (fun _ => inside output_dir w0 0) passing.
Proof.
  unfold build_arima_model.
  repeat (eapply triple_bind;
          [ first [ apply triple_makedirs
                  | apply triple_figure
                  | apply triple_draw
                  | apply triple_plot
                  | apply triple_fill_between
                  | apply triple_close
                  | apply triple_lift; lia
                  | apply triple_savefig; cbn; tauto ]
          | intros ? ]).
  apply triple_ret.
Qed.

End Frame.

(** X13. Whether it returns or raises, a call loses no directory,
    leaves every file other than its three plots as it was, and neither
    closes nor draws on a figure that was open before: when it returns the
    open figures are the ones from before, when it raises at most one
    figure of its own is left above them. *)
Theorem build_arima_model_frame (L : Statsmodels) (series : Series)
    (order : nat * nat * nat) (output_dir : string) (w : World) :
  dirs w ⊆ dirs (snd (build_arima_model L series order output_dir w)) /\
  (forall path,
     (forall name, In name plot_names -> path <> (output_dir ++ name)%string) ->
     files (snd (build_arima_model L series order output_dir w)) !! path
     = files w !! path) /\
  match fst (build_arima_model L series order output_dir w) with
  | Ok _ => figures (snd (build_arima_model L series order output_dir w)) = figures w
  | Raise _ =>
      figures (snd (build_arima_model L series order output_dir w)) = figures w \/
      exists fig,
        figures (snd (build_arima_model L series order output_dir w))
        = fig :: figures w
  end.
Proof.
  assert (Hstart : inside output_dir w 0 w).
  { split; [reflexivity|]. split; [reflexivity|]. exists []. split; reflexivity. }
  pose proof (triple_build output_dir w L series order w Hstart) as H.
  destruct (build_arima_model L series order output_dir w) as [[m|e] w'];
    cbn [fst snd].
  - destruct H as (Hd & Hf & opened & Hlen & Hfig).
    destruct opened; [|discriminate]. auto.
  - destruct H as [(Hd & Hf & opened & Hlen & Hfig)|(Hd & Hf & opened & Hlen & Hfig)].
    + destruct opened; [|discriminate]. auto.
    + destruct opened as [|fig [|g opened]]; try discriminate.
      split; [exact Hd|]. split; [exact Hf|]. right. exists fig. exact Hfig.
Qed.

(** ** Calling twice *)

(** X14. Calling again on the world a call has left changes nothing:
    the second call returns the same model and leaves the same
    directories, files and figures. *)
Theorem build_arima_model_twice (L : Statsmodels) (series : Series)
    (order : nat * nat * nat) (output_dir : string) (w w' : World)
    (model_fit : ARIMAResults L) :
  build_arima_model L series order output_dir w = (Ok model_fit, w') ->
  build_arima_model L series order output_dir w' = (Ok model_fit, w').
Proof.
  intros H.
  destruct (build_arima_model_returns L series order output_dir w w' model_fit H)
    as (acf_bars & pacf_bars & forecast & fi & Hfit & Hacf & Hpacf & Hfc & Hfi
        & Hlen & Hne & Hdirs & Hfiles & Hfigs).
  destruct (build_arima_model_returns_checks L series order output_dir w w' model_fit H)
    as (acf_bars' & pacf_bars' & forecast' & fi' & Hacf' & Hpacf' & Hfc' & Hfi'
        & Hs & Hfitted & Hlo & Hhi & Hd1 & Hd2 & Hd3 & Hp1 & Hp2 & Hp3).
  assert (acf_bars' = acf_bars) by congruence.
  assert (pacf_bars' = pacf_bars) by congruence.
  assert (forecast' = forecast) by congruence.
  assert (fi' = fi) by congruence.
  subst acf_bars' pacf_bars' forecast' fi'.
  assert (Hin : output_dir ∈ dirs w').
  { rewrite Hdirs. destruct (bool_decide_reflect (output_dir ∈ dirs w)) as [Hi|Ho];
      [exact Hi|].
    apply elem_of_union_r, elem_of_list_to_set, list_elem_of_In. left. reflexivity. }
  assert (Hmk : os_makedirs output_dir w'
                = (Ok (), mkWorld (dirs w') (files w') (figures w'))).
  { rewrite (os_makedirs_ok output_dir w' Hne (or_introl Hin)).
    rewrite (bool_decide_eq_true_2 _ Hin). reflexivity. }
  rewrite (build_arima_model_run L series order output_dir w' model_fit acf_bars
             pacf_bars forecast fi (dirs w') Hmk Hin Hp1 Hp2 Hp3 Hs Hfit Hfitted
             Hacf Hpacf Hfc Hfi Hlen Hlo Hhi Hd1 Hd2 Hd3).
  f_equal. destruct w' as [ds fs figs]. cbn [dirs files figures] in *. f_equal.
  rewrite Hfiles.
  rewrite (insert_id _ (output_dir ++ "/model_fit.png")%string).
  - rewrite (insert_id _ (output_dir ++ "/residuals_diagnostics.png")%string).
    + apply insert_id, lookup_insert_eq.
    + rewrite lookup_insert_ne by (apply path_ne; discriminate).
      apply lookup_insert_eq.
  - rewrite !lookup_insert_ne by (apply path_ne; discriminate).
    apply lookup_insert_eq.
Qed.

Lemma build_arima_model_twice_witness :
  let w' := snd (build_arima_model RandomWalk.library series_with_freq (1, 1, 1)%nat
                   "out/plots" empty_world) in
  build_arima_model RandomWalk.library series_with_freq (1, 1, 1)%nat "out/plots" w'
  = (Ok series_with_freq, w').
Proof.
  cbv zeta.
  apply (build_arima_model_twice RandomWalk.library series_with_freq (1, 1, 1)%nat
           "out/plots" empty_world _ series_with_freq).
  vm_compute. reflexivity.
Defined.

(** ** The forecast on a time index *)

(** X15. On a time index the forecast continues the axis of the data:
    when the stamps do not decrease, the step is positive (the [freq] of
    the index, one day when it is unset) and the tenth step after the
    last stamp is still a Timestamp, the 10 forecast stamps strictly
    increase and every one of them is later than every stamp of the
    series. When the tenth step passes [Timestamp.max],
    [OutOfBoundsDatetime] is raised. An empty time index has no last
    stamp: [IndexError]. *)
Theorem forecast_follows_time_index (values : list float64) (stamps : list Z)
    (freq : option Z) :
  (stamps = [] ->
   forecast_index (mkSeries (DatetimeIndex stamps freq) values) = Raise IndexError) /\
  (stamps <> [] ->
   is_monotonic_increasing stamps = true ->
   (forall step, freq = Some step -> 0 < step) ->
   - 9223372036854775807 <= nth (length stamps - 1) stamps 0 ->
   nth (length stamps - 1) stamps 0 + 10 * default 86400000000000 freq
   <= 9223372036854775807 ->
   exists forecast_stamps,
     forecast_index (mkSeries (DatetimeIndex stamps freq) values)
     = Ok (DatetimeIndex forecast_stamps (Some (default day_ns freq))) /\
     length forecast_stamps = 10%nat /\
     is_strictly_increasing forecast_stamps = true /\
     forall t f, In t stamps -> In f forecast_stamps -> t < f) /\
  (stamps <> [] ->
   (forall step, freq = Some step -> 0 < step) ->
   9223372036854775807
   < nth (length stamps - 1) stamps 0 + 10 * default 86400000000000 freq ->
   forecast_index (mkSeries (DatetimeIndex stamps freq) values)
   = Raise OutOfBoundsDatetime).
Proof.
  change 86400000000000 with day_ns.
  assert (Hpos : (forall step, freq = Some step -> 0 < step) -> 0 < default day_ns freq).
  { intros Hstep. destruct freq as [step|]; [apply Hstep; reflexivity|reflexivity]. }
  assert (Hlast : stamps <> [] -> (length stamps - 1 < length stamps)%nat)
    by (destruct stamps; [contradiction|cbn; lia]).
  split; [|split].
  - intros ->. reflexivity.
  - intros Hne Hmono Hstep Hlow Hhigh. specialize (Hpos Hstep). specialize (Hlast Hne).
    exists (steps_after (nth (length stamps - 1) stamps 0) (default day_ns freq)).
    split; [|split; [reflexivity|split]].
    + unfold forecast_index, item. cbn [s_index].
      rewrite (nth_error_nth' stamps 0 Hlast), bind_Ok.
      unfold date_range. cbv zeta.
      assert (Hin : forallb is_timestamp
                      (map (fun k => nth (length stamps - 1) stamps 0
                                     + Z.of_nat k * default day_ns freq)
                           (seq 0 (forecast_steps + 1))) = true).
      { apply forallb_forall. intros t Ht. apply in_map_iff in Ht as [k [<- Hk]].
        apply in_seq in Hk. unfold forecast_steps in Hk.
        unfold is_timestamp, int64_max.
        apply andb_true_iff. split; apply Z.leb_le; nia. }
      rewrite Hin. reflexivity.
    + unfold steps_after. cbn [map is_strictly_increasing].
      repeat (apply andb_true_iff; split; [apply Z.ltb_lt; lia|]). reflexivity.
    + intros t f Ht Hf.
      apply (In_nth _ _ 0) in Ht as [j [Hj <-]].
      pose proof (monotonic_nth stamps (length stamps - 1) j Hmono ltac:(lia) Hlast)
        as Hle.
      unfold steps_after in Hf. apply in_map_iff in Hf as [k [<- Hk]].
      assert (1 <= k) by (cbn in Hk; lia). nia.
  - intros Hne Hstep Hhigh. specialize (Hpos Hstep). specialize (Hlast Hne).
    unfold forecast_index, item. cbn [s_index].
    rewrite (nth_error_nth' stamps 0 Hlast), bind_Ok.
    unfold date_range. cbv zeta.
    rewrite (forallb_false is_timestamp _
               (nth (length stamps - 1) stamps 0 + Z.of_nat 10 * default day_ns freq)).
    + reflexivity.
    + apply in_map_iff. exists 10%nat. split; [reflexivity|].
      apply in_seq. unfold forecast_steps. lia.
    + unfold is_timestamp, int64_max. apply andb_false_iff. right.
      apply Z.leb_gt. lia.
Qed.

(** Ten days before [Timestamp.max] a daily forecast no longer fits. *)
Example forecast_past_the_last_timestamp :
  forecast_index (mkSeries (DatetimeIndex [9223372036854775807 - 9 * day_ns] None)
                           (floats [60]))
  = Raise OutOfBoundsDatetime.
Proof. vm_compute. reflexivity. Qed.

(** On an integer index that does not start at 0 the forecast comes to
    lie before the data. *)
Example forecast_before_numeric_labels :
  (fun fi => forallb (fun f => forallb (fun t => f <? t)
                                       (index_values (s_index series_numeric)))
                     (index_values fi))
    <$> forecast_index series_numeric
  = Ok true.
Proof. reflexivity. Qed.

(** * Adding a signal *)

Lemma filter_absent (cols : list (string * Column)) (l : string) :
  ~ In l (map fst cols) ->
  List.filter (fun lc => String.eqb (fst lc) l) cols = [].
Proof.
  induction cols as [|[a b] cols IH]; cbn [map fst In List.filter]; intros H;
    [reflexivity|].
  destruct (String.eqb_spec a l) as [->|Hne]; [exfalso; apply H; left; reflexivity|].
  apply IH. intros Hin. apply H. right. exact Hin.
Qed.

Lemma numeric_values_add_other (data : DataFrame) (c c0 : string) (v : list float64) :
  c0 <> c -> numeric_values (add_column data c v) c0 = numeric_values data c0.
Proof.
  intros Hne. unfold numeric_values, getitem, add_column. cbn [columns].
  rewrite List.filter_app. cbn [List.filter fst].
  destruct (String.eqb_spec c c0) as [Heq|_]; [congruence|].
  rewrite app_nil_r. reflexivity.
Qed.

Lemma numeric_values_add_new (data : DataFrame) (c : string) (v : list float64) :
  ~ In c (column_labels data) -> numeric_values (add_column data c v) c = Some v.
Proof.
  intros Hnew. unfold numeric_values, getitem, add_column. cbn [columns].
  rewrite List.filter_app, (filter_absent _ _ Hnew). cbn [List.filter fst app].
  rewrite String.eqb_refl. reflexivity.
Qed.

Lemma signals_of_app (data : DataFrame) (l1 l2 : list string) :
  signals_of data (l1 ++ l2) = signals_of data l1 ++ signals_of data l2.
Proof.
  induction l1 as [|a l1 IH]; [reflexivity|].
  cbn [app signals_of]. destruct (numeric_values data a); rewrite IH; reflexivity.
Qed.

Lemma signals_add_column (data : DataFrame) (c : string) (v : list float64) :
  ~ In c (column_labels data) ->
  signals (add_column data c v) = signals data ++ [(c, v)].
Proof.
  intros Hnew. unfold signals, column_labels at 1, add_column at 2. cbn [columns].
  rewrite map_app, signals_of_app. cbn [map fst signals_of].
  rewrite (numeric_values_add_new data c v Hnew). f_equal.
  fold (column_labels data). revert Hnew.
  induction (column_labels data) as [|a labels IH]; intros Hnew; [reflexivity|].
  cbn [signals_of].
  rewrite numeric_values_add_other by (intros ->; apply Hnew; left; reflexivity).
  rewrite IH by (intros Hin; apply Hnew; right; exact Hin). reflexivity.
Qed.

Lemma sublist_filter_and {A} (a b : A -> bool) (l : list A) :
  sublist (List.filter (fun x => a x && b x) l) (List.filter a l).
Proof.
  induction l as [|x l IH]; cbn [List.filter]; [constructor|].
  destruct (a x), (b x); cbn [andb]; try (constructor; exact IH); exact IH.
Qed.

Lemma sublist_rows {A B} (f : A -> B) (l1 l2 : list A) :
  sublist l1 l2 -> sublist (map f l1) (map f l2).
Proof. induction 1; cbn [map]; constructor; assumption. Qed.

Lemma row_complete_app (idx idx' : Index) (cols more : list (string * Column)) (i : nat) :
  row_complete {| index := idx; columns := cols ++ more |} i
  = row_complete {| index := idx'; columns := cols |} i
    && forallb (fun lc => notna (snd lc) i) more.
Proof. unfold row_complete. cbn [columns]. apply forallb_app. Qed.

(** X16. Adding a numeric column under a new label appends its twelve
    columns after the ones there were and can only remove rows: the index
    of the new result is a sublist of the index of the old one, and so is
    every column the two results share. The table lies on a monotonic
    time index, and the window size is at most 9223372036 seconds, the
    longest Timedelta. *)
Theorem adding_a_signal_only_removes_rows (K : Kernels) (data : DataFrame)
    (window_size : positive) (c : string) (v : list float64) :
  is_Some (rolling_stamps (index data)) ->
  Z.pos window_size <= 9223372036 ->
  ~ In c (column_labels data) ->
  exists out out',
    extract_time_series_features K data window_size = Ok out /\
    extract_time_series_features K (add_column data c v) window_size = Ok out' /\
    column_labels out' = column_labels out ++ map (feature_name c) statistics /\
    sublist (index_values (index out')) (index_values (index out)) /\
    (forall name x,
       getitem out name = Ok (SelSeries (NumericColumn x)) ->
       exists x', getitem out' name = Ok (SelSeries (NumericColumn x')) /\
                  sublist x' x).
Proof.
  intros [stamps Hidx] Hw Hnew.
  set (data' := add_column data c v).
  assert (Hidx' : rolling_stamps (index data') = Some stamps) by exact Hidx.
  set (old := features_of K stamps window_size (signals data)).
  set (new := column_features K c (windows stamps window_size v)).
  assert (Hentries : features_of K stamps window_size (signals data') = old ++ new).
  { unfold data'. rewrite (signals_add_column data c v Hnew).
    unfold features_of. rewrite flat_map_app. cbn [flat_map fst snd].
    rewrite app_nil_r. reflexivity. }
  assert (Hn : index_len (index data) = length stamps).
  { unfold index_len. rewrite (rolling_stamps_values _ _ Hidx). reflexivity. }
  assert (Hlen : Forall (fun kv => length (snd kv) = index_len (index data)) old).
  { rewrite Hn. apply features_of_lengths. }
  assert (Hlen' : Forall (fun kv => length (snd kv) = index_len (index data))
                         (old ++ new)).
  { rewrite <- Hentries, Hn. apply features_of_lengths. }
  set (df := DataFrame_of_dict old (index data)).
  set (df' := DataFrame_of_dict (old ++ new) (index data)).
  set (kept := List.filter (row_complete df) (seq 0 (index_len (index data)))).
  set (kept' := List.filter (row_complete df') (seq 0 (index_len (index data)))).
  assert (Hsub : sublist kept' kept).
  { unfold kept, kept'.
    rewrite (filter_ext (row_complete df')
               (fun i => row_complete df i
                         && forallb (fun lc => notna (snd lc) i)
                              (map (fun kv => (fst kv, NumericColumn (snd kv))) new))).
    - apply sublist_filter_and.
    - intros i. unfold df', df, DataFrame_of_dict. rewrite map_app.
      apply row_complete_app. }
  assert (Hkeys : dict_keys old = feature_names (map fst (signals data)))
    by apply features_of_keys.
  assert (Hkeys' : dict_keys (old ++ new)
                   = feature_names (map fst (signals data'))).
  { rewrite <- Hentries. apply features_of_keys. }
  assert (Hcols : columns (dropna df)
            = map (fun kv => (fst kv, NumericColumn (rows_of kept nan (snd kv)))) old)
    by exact (dropna_of_dict_columns old (index data) Hlen).
  assert (Hcols' : columns (dropna df')
            = map (fun kv => (fst kv, NumericColumn (rows_of kept' nan (snd kv))))
                  (old ++ new))
    by exact (dropna_of_dict_columns (old ++ new) (index data) Hlen').
  assert (Hlab : column_labels (dropna df) = dict_keys old).
  { unfold column_labels. rewrite Hcols, map_map. reflexivity. }
  assert (Hlab' : column_labels (dropna df') = dict_keys (old ++ new)).
  { unfold column_labels. rewrite Hcols', map_map. reflexivity. }
  exists (dropna df), (dropna df'). split; [|split; [|split; [|split]]].
  - unfold extract_time_series_features.
    rewrite (features_frame_signals K data window_size stamps Hidx Hw). reflexivity.
  - unfold extract_time_series_features.
    rewrite (features_frame_signals K data' window_size stamps Hidx' Hw), Hentries.
    reflexivity.
  - rewrite Hlab, Hlab'. unfold dict_keys. rewrite map_app. reflexivity.
  - destruct (dropna_rows df (DataFrame_of_dict_wf old (index data) Hlen)) as [Hi _].
    destruct (dropna_rows df' (DataFrame_of_dict_wf (old ++ new) (index data) Hlen'))
      as [Hi' _].
    cbv zeta in Hi, Hi'. rewrite Hi, Hi'. apply sublist_rows. exact Hsub.
  - intros name x Hget.
    assert (Hin : In name (column_labels (dropna df))).
    { destruct (in_dec string_dec name (column_labels (dropna df))) as [H|H];
        [exact H|]. rewrite (getitem_missing _ _ H) in Hget. discriminate. }
    rewrite Hlab in Hin. apply in_map_iff in Hin as [[k s] [Hk Hin]].
    cbn [fst] in Hk. subst k.
    assert (Hx : getitem (dropna df) name
                 = Ok (SelSeries (NumericColumn (rows_of kept nan s)))).
    { unfold getitem.
      rewrite (filter_unique_label _ _ (NumericColumn (rows_of kept nan s))).
      - reflexivity.
      - fold (column_labels (dropna df)). rewrite Hlab, Hkeys.
        apply NoDup_feature_names, NoDup_signals.
      - rewrite Hcols. apply in_map_iff. exists (name, s). auto. }
    rewrite Hx in Hget. injection Hget as <-.
    exists (rows_of kept' nan s). split.
    + unfold getitem.
      rewrite (filter_unique_label _ _ (NumericColumn (rows_of kept' nan s))).
      * reflexivity.
      * fold (column_labels (dropna df')). rewrite Hlab', Hkeys'.
        apply NoDup_feature_names, NoDup_signals.
      * rewrite Hcols'. apply in_map_iff. exists (name, s). split; [reflexivity|].
        apply in_or_app. left. exact Hin.
    + apply sublist_rows. exact Hsub.
Qed.

Lemma adding_a_signal_only_removes_rows_witness :
  exists out out',
    extract_time_series_features Reference.kernels sample_irregular 5 = Ok out /\
    extract_time_series_features Reference.kernels
      (add_column sample_irregular "spo2" (floats [98; 97; 98; 96; 98; 97])) 5
    = Ok out' /\
    column_labels out' = column_labels out ++ map (feature_name "spo2") statistics /\
    sublist (index_values (index out')) (index_values (index out)) /\
    (forall name x,
       getitem out name = Ok (SelSeries (NumericColumn x)) ->
       exists x', getitem out' name = Ok (SelSeries (NumericColumn x')) /\
                  sublist x' x).
Proof.
  apply (adding_a_signal_only_removes_rows Reference.kernels sample_irregular 5
           "spo2" (floats [98; 97; 98; 96; 98; 97])).
  - exists irregular_stamps. reflexivity.
  - lia.
  - cbn. intuition discriminate.
Defined.
